(* ===== verification/_CoqProject ===== *)
-Q . S2P
Prelude.v
PyRuntime.v
Binary64.v
PyInt.v
FileSystem.v
Packaging.v
Validator.v
Cli.v
Serializer.v
PyFloat.v
Crop.v
Main.v
Runpy.v
