(* ===== verification/Prelude.v ===== *)
(** * AMCCrop: a verification development of the AMC cropping tool

    ** The program

    AMCCrop (src/amccrop) cuts an Acclaim motion-capture file (AMC) down
    to a range of whole seconds.  The script src/amccrop/__main__.py
    (and the identical [if __name__ == "__main__"] block of
    src/amccrop/amccrop.py) parses the command line with argparse, reads
    the input with the external parser [asfamcparser.ParseAMC], checks
    the request with [CheckArgs], slices [amc.amc.frames[start*fps :
    end*fps]], turns the slice back into AMC text with [parseToAmc] and
    writes it with [SaveAmc].  The parts meet through plain calls and one
    shared resource, the file system: [ParseAMC] reads the input file,
    [CheckArgs] asks whether the output file exists, [SaveAmc] writes it.
    The command line reaches the script as the dictionary
    [vars(parser.parse_args())] of an argparse parser with five required
    options, three of them [type=int].

    ** Files, in dependency order

    - Prelude.v (this file): Python exceptions [PyExc]; the return-or-raise type
      [result] with [raise] in [py_scope]; string lemmas; the two
      separators of the format; [split_on] / [py_split] (Python's
      [str.split]) and [unlines]; the hint databases [amc] and
      [amc_rw] and the tactics [inv] and [case_zcmp]; the bind of
      [result] with [x <- c ;; k] in [py_scope].
    - PyRuntime.v: the Python built-ins the code calls: [str] of an int
      ([py_str_int]), true division compared with an int
      ([py_truediv], [py_int_gt]), slicing [xs[a:b]] ([py_slice], with
      negative bounds and clamping), and the classes [PyStr] (what
      [str] prints for a value) and [PyStrInv] (a rendering a reader
      inverts, without separators).
    - Binary64.v, Module [Binary64]: the shape of a double
      ([pos_double], [is_double]) and the theory of [div_pos], the
      rounding of a positive fraction to the nearest double that both
      [a / b] and [float(s)] perform: the exponent it picks is the only
      one that fits ([div_exponent_unique]), it returns every double
      within half a gap of the quotient ([div_pos_near_eq]), and it
      depends on the quotient only ([div_pos_mul]).
    - PyInt.v, Module [PyInt]: Python's [int(s)] on decimal text
      ([py_int]: whitespace, sign, underscores between digits), the
      conversion behind [type=int], with [int(str(n)) == n].
    - FileSystem.v: the interface between the program and the store:
      class [FileSystem] (lookup, whole-file write) and its laws
      [FileSystemLaws]; [is_file] ([Path.is_file]), [write_text]
      ([open(p, "w").write]), [read_text], both after resolving the
      directories on the way to the path ([dir_prefixes], [walk_dirs]:
      a missing one raises [FileNotFoundError], a regular file
      [NotADirectoryError]); [fs_wf], the store as a tree, kept by every
      write; the store monad [io] in which an exception keeps the store
      it was raised in; the instance [gmap string entry].  Client
      theorems are proved against the laws.
    - Packaging.v, Module [Packaging]: setup.py as a program
      ([setup_script]: read the README, build the keyword arguments
      [amc_cropper], lines 5-29) and the part of setuptools that decides
      what is installed: distutils' [build_py] for [py_modules] with
      [package_dir] ([get_package_dir]; [check_package], which raises
      [DistutilsFileError] for a package directory that is missing or
      a regular file; [find_modules], which skips a missing module
      file; [build_modules]), with [os.path.join] and [pathlib]'s [/].
    - Validator.v, Module [CheckArgs]: the records [Args] (the parsed
      options) and [Amc] (the parser's [.amc]: frames and count),
      [CheckArgs] (amccrop.py lines 7-20) check by check, and the
      contract of spec section 4.1 as [validate_spec] with the error
      taxonomy [CropError] of spec section 7.
    - Cli.v, Module [Cli]: the option table of the program
      ([opt_input] ... [opt_end], [crop_parser]: __main__.py lines 5-11,
      the same as amccrop.py 41-47) and argparse's [parse_args] on it,
      written from CPython's [_parse_optional], [_get_option_tuples]
      and [consume_optional] ([classify], [option_tuples], [consume]),
      then the required check and unrecognized arguments; the namespace
      is a [gmap string PyVal] and [vars_args] reads it as [Args]
      (__main__.py line 13).
    - Serializer.v, Module [Serializer]: [parseToAmc] (amccrop.py lines
      22-33) as its three nested loops over a string accumulator and a
      counter ([emit_values], [emit_bone], [emit_frame]); the reference
      document [amc_lines]; a reference reader [read_amc] of the format.
    - PyFloat.v, Module [FloatRepr]: channel values as signed finite
      doubles [PyFloat]; [str(float)] as CPython's [float_repr]
      ([shortest_digits]: the fewest digits, 1 to 17, that read back,
      the nearest when two do; [repr_digits]: fixed notation for a
      decimal point at -3 to 16, exponent notation otherwise, [.0] on
      integers); [float(s)] on decimal literals ([float_of_string]);
      the spec's serializer example.
    - Crop.v, Module [Crop]: [ParseAMC] (the upstream parser as the
      section parameter [parse_amc_text]), [SaveAmc] (amccrop.py lines
      35-37), [crop_main] (__main__.py lines 15-27) in the [io] monad,
      and [cropped], the slice of line 23; concrete stores for the
      witnesses.
    - Main.v, Module [Main]: the entry point [main] (parse, [vars], the
      script: __main__.py lines 13-27) and [amccrop_main] (the same
      block of amccrop.py, lines 40-63); [runs], the stores any sequence
      of runs with any command lines can leave, and its invariant
      [run_inv]; [crop_spec], the contract of spec sections 4 to 7 for
      one request, written with [validate_spec] and the spec's document
      layout [amc_lines] rather than the code.
    - Runpy.v, Module [Runpy]: how the program is started.  The module
      bodies of amccrop.py, __main__.py and setup.py ([amccrop_py],
      [main_py], [setup_py]: their import statements, then the script)
      run in an interpreter state of the store, [sys.modules] and
      [sys.path]; [import_name] is importlib's [_find_and_load]
      (parent first, [sys.modules], [FileFinder] and [PathFinder] with
      namespace packages as [find_in_dir] and [path_find], the module
      entered before its body runs and removed if it raises); [python]
      is the command line, [sys.path[0]] and runpy's [-m], script and
      directory runs.

    ** What is proved

    - Validator: [CheckArgs_refines_spec]: [CheckArgs] is exactly the
      spec's ordered checks (refinement) for counts below [30 * 2^49],
      with the same-file and file-exists rejections (for every count),
      the characterisation of approval and the bounds
      [0 <= start*fps < end*fps] as corollaries; past that count the
      float quotient approves an end second the exact contract refuses:
      for every count [30*k + 29] with [2^49 <= k < 2^50 - 1] the
      quotient rounds up to [k + 1] ([CheckArgs_float_bound], a bound
      on the machine-width arithmetic).
    - Serializer: the accumulator loops equal the reference lines
      (equivalence); numbering continues across a concatenation; the
      index lines are exactly 1..N; reading the text back gives the
      frames numbered from 1 (round trip), for bone names with no
      separator that are not digit strings; the spec's example text.
    - Script: a normal run is characterised (read, parse, approve, an
      output path [open] can write, then one write of the serialized
      slice); a run that raises leaves the store unchanged (no partial
      output); no existing regular file, the input included, is ever
      changed; the slice and its length; the spec's two numeric
      examples; the input is read before anything is checked; a
      directory at the output path, or an output path in a missing
      directory or under a regular file, passes the check and fails
      only at the write ([crop_main_output_unreachable]); a start frame
      at or past the last frame passes the check and writes a file of
      the header alone ([crop_main_empty_crop]); and the two
      findings on the fixed 30 frames per second of the bounds check
      against the given rate of the slice.
    - Command line: the long form [--input=... --end=...] of every [Args]
      and the short form [-i ... -e ...] (stems not starting with a
      dash) parse back to the same [Args] (round trips); every namespace
      the parser returns is well typed, so [vars] never fails (a typing
      invariant of [consume], by induction on the tokens); the last of
      repeated options wins; the order of the five options does not
      matter (any permutation parses alike); [-h] first exits with
      status 0; an option followed by a word argparse reads as an
      option (a stem such as [-walk]) exits with [expected one
      argument] whatever follows ([parse_args_option_value]); the
      error messages of [type=int] on the program's options.
    - Entry point: a rejected command line exits before any file is
      touched; an accepted one runs the script on the arguments it
      names; after a normal run the same command line raises
      [FileExistsError]; and over any sequence of runs (the relation
      [runs], by rule induction) existing files never change, every
      changed path holds serializer output at a fresh [.amc] path, and
      the store stays a tree ([fs_wf]).
      [main_refines_crop_spec] composes the components: on every
      command line the parser accepts, the program's store and outcome
      are those of [crop_spec] for the request it names (refinement of
      the whole program, for counts below [30 * 2^49]).
    - Entry points: [python -m amccrop] runs [main] exactly once on
      either layout it can find (the repository's namespace package,
      whose __main__.py imports [amccrop.amccrop] under its own name so
      that the guarded duplicate script stays idle, or an installed
      amccrop.py run as [__main__]) (refinement); [python amccrop.py]
      and [python -m amccrop] are equivalent; without asfamcparser both
      raise [ModuleNotFoundError] before touching anything; run as a
      script, __main__.py never runs the program: wherever amccrop.py
      is its sibling, the import of [amccrop.amccrop] raises
      [ModuleNotFoundError] with the store unchanged, for every command
      line ([python_main_py_script]).
    - Packaging: on every store the build of the distribution holds
      exactly the module [amccrop] from amccrop/amccrop.py when that
      file exists, nothing when it does not, and raises
      [DistutilsFileError] when amccrop/ is missing or a regular file;
      __main__.py is never shipped.
    - Floats: [a / b] on positive ints is correctly rounded
      ([py_truediv_nearest]); [float(str(x)) == x] for every finite
      double, so every bone line [emit_values] writes reads back as the
      same floats ([py_float_roundtrip]); the proof bounds the distance
      of the nearest 17-digit decimal by [2^53 / 10^16 < 1] of a half
      gap ([nearest17], in [QArith]); [str] matches CPython on the
      edge cases of its notation.
    - Termination: the digit search of [str(float)] finds a length
      among 1 to 17 for every finite positive double, so its fallback
      is never reached ([shortest_search_terminates]); every other loop
      of the program is a structural recursion over a list or runs on
      the fuel described below.

    ** Choices and bounds

    Every definition computes.  Three loops of [str(float)] run on fuel
    that is always enough: [ilog10] divides by 10 at most [log2 n + 1]
    times; [strip_zeros] strips at most 20 zeros, more than the 18
    digits a candidate has; the digit search tries the lengths 1 to 17,
    and 17 digits always read back ([nearest17]), which its fallback
    uses.  Imports recurse through module bodies and run on fuel, one
    unit per level of nesting (a Python stack frame); the program nests
    two levels (__main__.py imports amccrop.amccrop, which imports the
    library), so the theorems on the entry points hold for every fuel
    from 2 (from 3 for __main__.py run as a script, where the failing
    import of [amccrop.amccrop] first imports the module [amccrop],
    which imports the library).  Python ints are [Z].  [amc.count/30] is CPython's true division of
    ints: the binary64 float nearest to the quotient, ties to even,
    [OverflowError] past the largest double, subnormal results on the
    [2^-1074] grid ([py_truediv]), and [start > amc.count/30] compares
    the int with the float exactly ([py_int_gt]).  Below [30 * 2^49]
    frames the float comparison is the exact one (the rounding error,
    at most [2^-5], is smaller than [1/30]); the theorems on the bounds
    carry that hypothesis, and [CheckArgs_float_bound] shows the
    counts just above it, up to [30 * 2^50], where they differ.  A float value is finite: [inf]
    and [nan] are outside the model, and [float(s)] returns [None] where
    Python would give them (an overflowing literal) or accept digit
    underscores.  [str] on doubles was compared with CPython on 400
    doubles (normals, subnormals, integers, [-0.0], extremes).  The
    witnesses of the spec's examples run on a store holding 900 frames.
    argparse is modelled as CPython 3.8 to 3.11 runs it on this option
    table: [allow_abbrev] is on, [prefix_chars] is ["-"], every option
    takes one argument, and no option looks like a negative number, so
    ["-5"] and ["-2.5"] are values.

    ** Not modelled

    The text argparse prints (usage, help, the message on stderr): the
    model keeps the exit status and the message of each error; [repr]
    of a value in a message is modelled for values without quotes or
    backslashes; combined short flags after [-h] (["-hi"]) are outside
    the model.  The internals of [asfamcparser] (a parameter; a
    reference reader stands in for concrete runs): the spec makes it
    an opaque dependency and fixes neither how it reads nor how [count]
    relates to the frames, so every theorem holds for any parser.
    Permissions, symbolic links and paths that are not normal
    ([a//b], [a/./b]): the code never depends on them; other processes
    acting on the store between the check and the write (the program
    is one sequential run); a write that fails half way (a full disk):
    [SaveAmc] replaces the whole file in one step.  [Path.is_file]
    is [is_file], a lookup after resolving the directories on the way,
    which is what the OS answers on a store that is a tree ([fs_wf],
    kept by every run).  Of setuptools only the selection of the
    built modules is modelled: metadata, dependency resolution, wheels
    and source distributions do not change the installed program.
    Of the import system: extension modules, bytecode caches, [.pth]
    files and import hooks (the program has only [.py] sources); the
    modules the interpreter loads at start-up; the submodule fallback of
    [from package import name] (the program takes names only from
    modules); the code of the library modules, whose import is taken not
    to touch the store.  The executable's name that runpy puts before
    its messages.  Liveness has no content here: the program is a batch run without
    loops on input or waiting, and every run is a total function of
    the command line and the store ([main] is a [Definition], [runs]
    relates each store to the stores one more run can leave). *)

From Stdlib Require Import String Ascii List ZArith Lia Bool.
Import ListNotations.

(** ** Python exceptions raised by the program and its collaborators *)

Inductive PyExc : Type :=
| ValueError (msg : string)
| FileExistsError (msg : string)
| FileNotFoundError (msg : string)
| IsADirectoryError (msg : string)
| NotADirectoryError (msg : string)
| AmcParseError (msg : string)
| KeyError (key : string)
| ZeroDivisionError (msg : string)
| OverflowError (msg : string)
| DistutilsFileError (msg : string)
| ImportError (msg : string)
| ModuleNotFoundError (msg : string)
| RecursionError (msg : string)
| SystemExit (code : Z) (msg : string).

(** ** A Python call either returns a value or raises an exception *)

Inductive result (A : Type) : Type :=
| Ok (a : A)
| Err (e : PyExc).
Arguments Ok {A} a.
Arguments Err {A} e.

Definition bind {A B} (c : result A) (k : A -> result B) : result B :=
  match c with
  | Ok a => k a
  | Err e => Err e
  end.

Declare Scope py_scope.
Delimit Scope py_scope with py.
Notation "'raise' e" := (Err e) (at level 10) : py_scope.
Notation "x <- c ;; k" := (bind c (fun x => k))
  (at level 60, c at next level, right associativity) : py_scope.
Open Scope py_scope.

(** ** Strings: character tests and the separators of the format *)

Local Open Scope string_scope.

(** [all_chars p s]: every character of [s] satisfies [p]. *)
Fixpoint all_chars (p : ascii -> bool) (s : string) : bool :=
  match s with
  | EmptyString => true
  | String c s' => p c && all_chars p s'
  end.

(** The two separators of the AMC text format, as characters and as
    one-character strings (Python's ["\n"] and ["\t"]). *)
Definition newline : ascii := "010".
Definition tab : ascii := "009".
Definition NL : string := String newline EmptyString.
Definition TAB : string := String tab EmptyString.

Definition not_char (c : ascii) (a : ascii) : bool := negb (Ascii.eqb a c).

(** [no_char c s]: the character [c] does not occur in [s]. *)
Definition no_char (c : ascii) (s : string) : bool := all_chars (not_char c) s.

(** [clean s]: [s] holds neither a newline nor a tab. *)
Definition clean (s : string) : bool := no_char newline s && no_char tab s.

(** ** Splitting at a separator, as Python's [s.split(c)]

    [split_on c s] is the first field and the list of the other fields;
    [py_split c s] is the list of all fields, never empty. *)

Fixpoint split_on (c : ascii) (s : string) : string * list string :=
  match s with
  | EmptyString => (EmptyString, [])
  | String a s' =>
      let '(f, fs) := split_on c s' in
      if Ascii.eqb a c then (EmptyString, f :: fs) else (String a f, fs)
  end.

Definition py_split (c : ascii) (s : string) : list string :=
  let '(f, fs) := split_on c s in f :: fs.

(** [unlines] terminates every line with a newline. *)
Fixpoint unlines (ls : list string) : string :=
  match ls with
  | [] => EmptyString
  | l :: ls' => l ++ NL ++ unlines ls'
  end.

(** ** Automation shared by the components *)

Create HintDb amc discriminated.
Create Rewrite HintDb amc_rw.

Ltac inv H := inversion H; subst; clear H.

(** [case_zcmp] splits on every integer comparison of the goal. *)
Ltac case_zcmp :=
  repeat match goal with
  | |- context [(?a <=? ?b)%Z] => destruct (Z.leb_spec a b)
  | |- context [(?a <? ?b)%Z] => destruct (Z.ltb_spec a b)
  end; simpl.

(** ** Lemmas on strings *)

Lemma sapp_assoc (a b c : string) : (a ++ b) ++ c = a ++ (b ++ c).
Proof. induction a as [|x a IH]; simpl; [reflexivity | now rewrite IH]. Qed.

Lemma sapp_nil_r (a : string) : a ++ "" = a.
Proof. induction a as [|x a IH]; simpl; [reflexivity | now rewrite IH]. Qed.

Lemma slen_app (a b : string) : String.length (a ++ b) = String.length a + String.length b.
Proof. induction a as [|c a IH]; simpl; congruence. Qed.

(** Appending the same suffix keeps strings apart. *)
Lemma sapp_inv_r (a b s : string) : a ++ s = b ++ s -> a = b.
Proof.
  revert b. induction a as [|c a IH]; intros [|d b] H; simpl in H; try congruence.
  - apply (f_equal String.length) in H. simpl in H. rewrite slen_app in H. lia.
  - apply (f_equal String.length) in H. simpl in H. rewrite slen_app in H. lia.
  - injection H as -> H. now rewrite (IH b H).
Qed.

Lemma all_chars_app p a b :
  all_chars p (a ++ b) = all_chars p a && all_chars p b.
Proof.
  induction a as [|x a IH]; simpl; [reflexivity|].
  now rewrite IH, andb_assoc.
Qed.

Lemma no_char_app c a b : no_char c (a ++ b) = no_char c a && no_char c b.
Proof. apply all_chars_app. Qed.

Lemma clean_app a b : clean (a ++ b) = clean a && clean b.
Proof.
  unfold clean. rewrite !no_char_app.
  destruct (no_char newline a), (no_char newline b), (no_char tab a), (no_char tab b);
    reflexivity.
Qed.

Lemma no_newline_of_clean s : clean s = true -> no_char newline s = true.
Proof. unfold clean. now intros [? _]%andb_prop. Qed.

Lemma no_tab_of_clean s : clean s = true -> no_char tab s = true.
Proof. unfold clean. now intros [_ ?]%andb_prop. Qed.

(** A prefix without the separator stays in the first field. *)
Lemma split_on_app_no_char c a s :
  no_char c a = true ->
  split_on c (a ++ s) = let '(f, fs) := split_on c s in (a ++ f, fs).
Proof.
  induction a as [|x a IH]; simpl; intros Ha; [now destruct (split_on c s)|].
  apply andb_prop in Ha as [Hx Ha]. rewrite IH by exact Ha.
  unfold not_char in Hx. destruct (split_on c s).
  now destruct (Ascii.eqb x c).
Qed.

Lemma split_on_no_char c s : no_char c s = true -> split_on c s = (s, []).
Proof.
  intros Hs. rewrite <- (sapp_nil_r s) at 1.
  rewrite split_on_app_no_char by exact Hs. simpl. now rewrite sapp_nil_r.
Qed.

Lemma unlines_app a b : unlines (a ++ b) = unlines a ++ unlines b.
Proof.
  induction a as [|l a IH]; simpl; [reflexivity|].
  now rewrite IH, !sapp_assoc.
Qed.

(** Splitting newline-terminated lines at the newlines gives the lines
    back, and a last empty field. *)
Lemma split_on_unlines ls :
  forallb (no_char newline) ls = true ->
  split_on newline (unlines ls) =
  match ls with [] => (EmptyString, []) | l :: ls' => (l, (ls' ++ [EmptyString])%list) end.
Proof.
  induction ls as [|l ls IH]; simpl; intros Hls; [reflexivity|].
  apply andb_prop in Hls as [Hl Hls].
  rewrite split_on_app_no_char by exact Hl. unfold NL. simpl.
  rewrite IH by exact Hls.
  destruct ls; simpl; now rewrite sapp_nil_r.
Qed.

Lemma py_split_unlines ls :
  forallb (no_char newline) ls = true ->
  py_split newline (unlines ls) = (ls ++ [EmptyString])%list.
Proof.
  intros Hls. unfold py_split. rewrite split_on_unlines by exact Hls.
  now destruct ls.
Qed.

Lemma bind_Ok_inv {A B} (c : result A) (k : A -> result B) b :
  bind c k = Ok b -> exists a, c = Ok a /\ k a = Ok b.
Proof. destruct c; simpl; [eauto | discriminate]. Qed.

(** Joining the fields of a split gives the string back. *)
Lemma concat_py_split c s : String.concat (String c EmptyString) (py_split c s) = s.
Proof.
  unfold py_split. induction s as [|a s IH]; [reflexivity|]. simpl.
  destruct (split_on c s) as [f fs].
  destruct (Ascii.eqb_spec a c) as [->|]; simpl; rewrite <- IH;
    destruct fs; reflexivity.
Qed.

(** ** Lemmas on lists *)

Lemma forallb_firstn {A} (f : A -> bool) n l :
  forallb f l = true -> forallb f (firstn n l) = true.
Proof.
  rewrite <- (firstn_skipn n l) at 1. rewrite forallb_app. now intros [? _]%andb_prop.
Qed.

Lemma forallb_skipn {A} (f : A -> bool) n l :
  forallb f l = true -> forallb f (skipn n l) = true.
Proof.
  rewrite <- (firstn_skipn n l) at 1. rewrite forallb_app. now intros [_ ?]%andb_prop.
Qed.

#[export] Hint Rewrite sapp_assoc sapp_nil_r all_chars_app no_char_app clean_app unlines_app
  : amc_rw.
#[export] Hint Resolve no_newline_of_clean no_tab_of_clean forallb_firstn forallb_skipn : amc.
