(* ===== verification/PyRuntime.v ===== *)
(** * PyRuntime: the Python built-ins the program relies on

    [str] on integers, the rendering class of [str] on frame values,
    true division [a / b] of two ints as the binary64 float CPython
    computes, its exact comparison with an int, [or] on a computation
    that may raise, and sequence slicing [xs[a:b]].  These are language semantics, not code of the
    repository: they are written from the Python reference and used by
    the components. *)

From Stdlib Require Import String Ascii List ZArith Lia Bool.
From Stdlib Require Import Decimal DecimalString DecimalZ DecimalPos.
From S2P Require Import Prelude.
Import ListNotations.

(** ** [str(n)] for a Python int: decimal digits, a leading [-] when negative *)

Definition py_str_int (z : Z) : string := NilZero.string_of_int (Z.to_int z).

(** The inverse used by readers of the format: decimal text to int. *)
Definition py_int_of_string (s : string) : option Z :=
  option_map Z.of_int (NilZero.int_of_string s).

(** ** True division [a / b] of two ints, and [int > float]

    CPython's [long_true_divide] returns the binary64 float nearest to
    the exact quotient (ties to even), or raises [OverflowError] past
    the largest double; comparing an int with a float compares their
    exact values.  A finite float is [fm * 2^fe]. *)

Record float64 := mkFloat { fm : Z; fe : Z }.

Section Float64.
Local Open Scope Z_scope.

(** [a / b] rounded half to even, for [b > 0]. *)
Definition div_round_even (a b : Z) : Z :=
  let q := a / b in
  let r := a mod b in
  if 2 * r <? b then q
  else if b <? 2 * r then q + 1
  else if Z.even q then q else q + 1.

(** [n / (d * 2^e)] as a fraction of integers. *)
Definition scale_frac (n d e : Z) : Z * Z :=
  if e <=? 0 then (n * 2 ^ (- e), d) else (n, d * 2 ^ e).

(** The weight [2^e] of the last mantissa bit of [n / d] ([n, d > 0]):
    [2^52 <= n / (d * 2^e) < 2^53], or [2^-1074] below the normal range. *)
Definition div_exponent (n d : Z) : Z :=
  let e0 := Z.log2 n - Z.log2 d - 52 in
  let '(a, b) := scale_frac n d e0 in
  Z.max (if a <? 2 ^ 52 * b then e0 - 1 else e0) (-1074).

(** The binary64 float nearest to [n / d], for [n, d > 0]. *)
Definition div_pos (n d : Z) : float64 :=
  let e := div_exponent n d in
  let '(a, b) := scale_frac n d e in
  let m := div_round_even a b in
  if m =? 2 ^ 53 then mkFloat (2 ^ 52) (e + 1) else mkFloat m e.

(** [a / b] on two ints. *)
Definition py_truediv (a b : Z) : result float64 :=
  if b =? 0 then raise (ZeroDivisionError "division by zero") else
  if a =? 0 then Ok (mkFloat 0 0) else
  let f := div_pos (Z.abs a) (Z.abs b) in
  if 971 <? fe f then raise (OverflowError "integer division result too large for a float")
  else Ok (if xorb (a <? 0) (b <? 0) then mkFloat (- fm f) (fe f) else f).

(** [x > f] for an int [x] and a float [f]: exact. *)
Definition py_int_gt (x : Z) (f : float64) : bool :=
  if 0 <=? fe f then fm f * 2 ^ fe f <? x else fm f <? x * 2 ^ (- fe f).

(** [x > (a / b)]: the division, then the comparison. *)
Definition py_gt_truediv (x a b : Z) : result bool :=
  q <- py_truediv a b ;; Ok (py_int_gt x q).

(** Python's [c1 or c2] where [c2] may raise: [c2] runs only when [c1]
    is false. *)
Definition py_or (c1 : bool) (c2 : result bool) : result bool :=
  if c1 then Ok true else c2.
End Float64.

(** ** Slicing [xs[a:b]] with step 1

    Negative bounds count from the end; bounds are then clamped to
    [0, len(xs)]; an empty range gives the empty sequence. *)

Definition py_slice_bound (n i : Z) : Z :=
  if (i <? 0)%Z then Z.max (i + n) 0 else Z.min i n.

Definition py_slice {A} (xs : list A) (a b : Z) : list A :=
  let n := Z.of_nat (length xs) in
  let a' := py_slice_bound n a in
  let b' := py_slice_bound n b in
  firstn (Z.to_nat (b' - a')) (skipn (Z.to_nat a') xs).

(** ** The class of values [str] renders *)

Class PyStr (V : Type) := py_str : V -> string.

#[export] Instance PyStr_Z : PyStr Z := py_str_int.

(** A value type whose rendering a reader can invert, and whose text
    holds no separator of the AMC format. *)
Class PyStrInv (V : Type) `{PyStr V} := {
  py_parse : string -> option V;
  py_parse_str : forall v, py_parse (py_str v) = Some v;
  py_str_clean : forall v, clean (py_str v) = true
}.

(** ** Decimal-digit lines *)

Definition is_digit (a : ascii) : bool :=
  let n := nat_of_ascii a in (48 <=? n)%nat && (n <=? 57)%nat.

(** A non-empty line of decimal digits: how a reader recognises a
    frame-index line of the AMC format. *)
Definition is_index_line (l : string) : bool :=
  negb (String.eqb l EmptyString) && all_chars is_digit l.

(** ** Lemmas *)

Lemma py_int_of_string_str (z : Z) : py_int_of_string (py_str_int z) = Some z.
Proof.
  unfold py_int_of_string, py_str_int.
  rewrite NilZero.isi; [simpl; now rewrite DecimalZ.of_to| |];
    destruct z; simpl; try discriminate;
    intros [= H]; now apply (DecimalPos.Unsigned.to_uint_nonnil p).
Qed.

Section Float64Lemmas.
Local Open Scope Z_scope.

Lemma div_round_even_spec a b : 0 < b -> 2 * Z.abs (a - b * div_round_even a b) <= b.
Proof.
  intros Hb. unfold div_round_even.
  pose proof (Z.div_mod a b ltac:(lia)) as Hd. pose proof (Z.mod_pos_bound a b Hb) as Hm.
  set (q := a / b) in *. set (r := a mod b) in *.
  destruct (Z.ltb_spec (2 * r) b); [lia|].
  destruct (Z.ltb_spec b (2 * r)); [lia|].
  destruct (Z.even q); lia.
Qed.

Lemma div_exponent_small c : 0 < c < 30 * 2 ^ 49 -> div_exponent c 30 <= -4.
Proof.
  intros Hc. unfold div_exponent.
  assert (Hl : Z.log2 c <= 53).
  { apply Z.lt_succ_r. apply Z.log2_lt_pow2; [lia|]. simpl. lia. }
  change (Z.log2 30) with 4.
  unfold scale_frac. destruct (Z.leb_spec (Z.log2 c - 4 - 52) 0); [|lia].
  destruct (Z.ltb_spec (c * 2 ^ (- (Z.log2 c - 4 - 52))) (2 ^ 52 * 30)); [lia|].
  destruct (Z.eq_dec (Z.log2 c) 53) as [E|E]; [|lia].
  rewrite E in *. simpl in *. lia.
Qed.

Lemma py_gt_div_pos30 (x c : Z) : 0 < c < 30 * 2 ^ 49 ->
  (971 <? fe (div_pos c 30)) = false /\ py_int_gt x (div_pos c 30) = (c <? x * 30).
Proof.
  intros Hc. pose proof (div_exponent_small c Hc) as He. unfold div_pos.
  set (e := div_exponent c 30) in *.
  unfold scale_frac. destruct (Z.leb_spec e 0); [|lia].
  set (s := 2 ^ (- e)).
  assert (Hs : 16 <= s) by (unfold s; change 16 with (2 ^ 4); apply Z.pow_le_mono_r; lia).
  pose proof (div_round_even_spec (c * s) 30 ltac:(lia)) as Hr.
  set (m := div_round_even (c * s) 30) in *.
  assert (H1 : c < x * 30 -> c * s <= x * s * 30 - s) by nia.
  assert (H2 : x * 30 <= c -> x * s * 30 <= c * s) by nia.
  assert (Hcore : (m <? x * s) = (c <? x * 30)).
  { destruct (Z.ltb_spec m (x * s)), (Z.ltb_spec c (x * 30)); try reflexivity; lia. }
  destruct (Z.eqb_spec m (2 ^ 53)) as [Em|Em]; simpl fe; simpl fm.
  - split; [destruct (Z.ltb_spec 971 (e + 1)); lia|].
    unfold py_int_gt; cbn [fe fm]. destruct (Z.leb_spec 0 (e + 1)); [lia|].
    rewrite <- Hcore, Em.
    assert (Hs2 : s = 2 * 2 ^ (- (e + 1))).
    { unfold s. rewrite <- Z.pow_succ_r by lia. f_equal. lia. }
    rewrite Hs2. replace (x * (2 * 2 ^ (- (e + 1)))) with (2 * (x * 2 ^ (- (e + 1)))) by ring.
    change (2 ^ 53) with (2 * 2 ^ 52).
    generalize (x * 2 ^ (- (e + 1))) (2 ^ 52). intros X T.
    destruct (Z.ltb_spec T X), (Z.ltb_spec (2 * T) (2 * X)); try reflexivity; lia.
  - split; [destruct (Z.ltb_spec 971 e); lia|].
    unfold py_int_gt; cbn [fe fm]. destruct (Z.leb_spec 0 e); [lia|]. exact Hcore.
Qed.

(** Below [30 * 2^49] frames, [x > count/30] on floats is the exact
    comparison [count < 30 * x]: the rounding error of the quotient,
    at most [2^-5], is less than the distance [1/30] to an integer. *)
Lemma py_gt_truediv_30 (x c : Z) :
  0 <= c < 30 * 2 ^ 49 -> py_gt_truediv x c 30 = Ok (c <? x * 30).
Proof.
  intros Hc. unfold py_gt_truediv, py_truediv.
  destruct (Z.eqb_spec c 0) as [->|Hc0].
  - simpl. unfold py_int_gt; cbn [fe fm]. change (0 <=? 0) with true. cbv iota.
    change (0 * 2 ^ 0) with 0. f_equal.
    destruct (Z.ltb_spec 0 x), (Z.ltb_spec 0 (x * 30)); reflexivity || lia.
  - destruct (py_gt_div_pos30 x c ltac:(lia)) as [Ho Hg].
    replace (Z.abs c) with c by lia. change (Z.abs 30) with 30. simpl bind.
    rewrite Ho. replace (xorb (c <? 0) (30 <? 0)) with false
      by (destruct (Z.ltb_spec c 0); [lia | reflexivity]).
    simpl. now rewrite Hg.
Qed.
End Float64Lemmas.

Lemma firstn_min_length {A} (k : nat) (l : list A) :
  firstn k l = firstn (Nat.min k (length l)) l.
Proof. now rewrite <- firstn_firstn, firstn_all. Qed.

(** With non-negative bounds a slice is [xs[a:b]] = drop [a], take [b - a]. *)
Lemma py_slice_nonneg {A} (xs : list A) (a b : Z) :
  (0 <= a)%Z -> (0 <= b)%Z ->
  py_slice xs a b = firstn (Z.to_nat b - Z.to_nat a) (skipn (Z.to_nat a) xs).
Proof.
  intros Ha Hb. unfold py_slice, py_slice_bound.
  destruct (Z.ltb_spec a 0), (Z.ltb_spec b 0); try lia.
  destruct (Nat.le_gt_cases (length xs) (Z.to_nat a)) as [Hn|Hn].
  - rewrite !skipn_all2 by lia. now rewrite !firstn_nil.
  - rewrite firstn_min_length, (firstn_min_length (Z.to_nat b - Z.to_nat a)).
    rewrite !length_skipn, (Z.min_l a) by lia. f_equal. lia.
Qed.

Lemma digits_string_of_uint (d : uint) :
  all_chars is_digit (NilEmpty.string_of_uint d) = true.
Proof. induction d; simpl; auto. Qed.

Lemma py_str_int_index_line (z : Z) :
  (0 < z)%Z -> is_index_line (py_str_int z) = true.
Proof.
  intros Hz. destruct z as [|p|p]; try lia.
  unfold is_index_line, py_str_int. simpl.
  pose proof (DecimalPos.Unsigned.to_uint_nonnil p) as Hnil.
  destruct (Pos.to_uint p) eqn:E; [contradiction| ..]; simpl;
    now rewrite digits_string_of_uint.
Qed.

Lemma digits_no_char (c : ascii) (s : string) :
  is_digit c = false -> all_chars is_digit s = true -> no_char c s = true.
Proof.
  intros Hc. unfold no_char, not_char. induction s as [|a s IH]; simpl; [reflexivity|].
  intros [Ha Hs]%andb_prop. rewrite IH by exact Hs.
  destruct (Ascii.eqb_spec a c); subst; [congruence | reflexivity].
Qed.

Lemma digits_clean (s : string) : all_chars is_digit s = true -> clean s = true.
Proof.
  intros Hs. unfold clean. now rewrite !digits_no_char.
Qed.

Lemma py_str_int_clean (z : Z) : clean (py_str_int z) = true.
Proof.
  unfold py_str_int.
  assert (Hu : forall u, clean (NilZero.string_of_uint u) = true).
  { intros u. apply digits_clean. destruct u; simpl; auto;
      now rewrite digits_string_of_uint. }
  destruct z; simpl; [reflexivity | apply Hu |].
  specialize (Hu (Pos.to_uint p)). unfold clean, no_char in *. simpl. exact Hu.
Qed.

(** Python ints as channel values: [str] is read back by [int]. *)
#[export] Hint Resolve py_str_int_clean digits_string_of_uint : amc.

#[export] Instance PyStrInv_Z : PyStrInv Z := {
  py_parse := py_int_of_string;
  py_parse_str := py_int_of_string_str;
  py_str_clean := py_str_int_clean
}.
