(* ===== verification/Binary64.v ===== *)
(** * Binary64: the rounding of [div_pos]

    [div_pos n d] (PyRuntime.v) is the rounding of a positive fraction
    to a double that CPython's true division and its decimal-to-float
    conversion perform.  This file gives the shape of a double, and
    the facts about [div_pos] that the other components use: the
    exponent it picks is the only one that puts the scaled quotient in
    [[2^52, 2^53)] (or is the subnormal one); it returns any double
    within half a gap of the quotient; and it depends on the quotient
    only, not on the fraction that represents it. *)

From Stdlib Require Import ZArith Lia Bool.
From S2P Require Import Prelude PyRuntime.

Module Binary64.

Section Shapes.
Local Open Scope Z_scope.

(** A positive double [m * 2^e], without the exponent's upper bound:
    a normal with a 53-bit mantissa, or a subnormal on the [2^-1074]
    grid. *)
Definition pos_double (f : float64) : bool :=
  ((2 ^ 52 <=? fm f) && (-1074 <=? fe f) || (0 <? fm f) && (fe f =? -1074)) &&
  (fm f <? 2 ^ 53).

(** A finite double without its sign: zero as [0 * 2^0], or a positive
    double whose exponent is at most [971] (below [2^1024]). *)
Definition is_double (f : float64) : bool :=
  (fm f =? 0) && (fe f =? 0) || pos_double f && (fe f <=? 971).

(** [n / (d * 2^e)] lies in [[2^52, 2^53)], or below [2^53] when [e] is
    the subnormal exponent: the exponent a double near [n / d] has. *)
Definition exponent_fits (n d e : Z) : Prop :=
  -1074 <= e /\
  let '(a, b) := scale_frac n d e in a < 2 ^ 53 * b /\ (2 ^ 52 * b <= a \/ e = -1074).

(** [n / d] is within half the gap around the positive double [m * 2^e]:
    the gap below [2^52 * 2^e] is half the gap above it. *)
Definition near (n d m e : Z) : Prop :=
  let '(a, b) := scale_frac n d e in
  if (m =? 2 ^ 52) && (-1074 <? e) then - b < 4 * (a - m * b) < 2 * b
  else 2 * Z.abs (a - m * b) < b.
End Shapes.

(** ** Scaling *)

Section Lemmas.
Local Open Scope Z_scope.

Lemma pow2_pos (x : Z) : 0 < 2 ^ x \/ x < 0.
Proof. destruct (Z.ltb_spec x 0); [now right | left; apply Z.pow_pos_nonneg; lia]. Qed.

Lemma pow2_add (x y : Z) : 0 <= x -> 0 <= y -> 2 ^ (x + y) = 2 ^ x * 2 ^ y.
Proof. apply Z.pow_add_r. Qed.

Lemma scale_frac_pos n d e a b :
  0 < d -> scale_frac n d e = (a, b) -> 0 < b /\ (0 < n -> 0 < a).
Proof.
  unfold scale_frac. intros Hd.
  destruct (Z.leb_spec e 0); intros [= <- <-].
  - pose proof (Z.pow_pos_nonneg 2 (- e) ltac:(lia) ltac:(lia)). nia.
  - pose proof (Z.pow_pos_nonneg 2 e ltac:(lia) ltac:(lia)). nia.
Qed.

(** Lowering the exponent by [k] multiplies the scaled quotient by [2^k]. *)
Lemma scale_frac_shift n d e k a b a' b' :
  0 <= k -> scale_frac n d e = (a, b) -> scale_frac n d (e - k) = (a', b') ->
  a' * b = 2 ^ k * a * b'.
Proof.
  unfold scale_frac. intros Hk.
  destruct (Z.leb_spec e 0), (Z.leb_spec (e - k) 0); intros [= <- <-] [= <- <-]; try lia.
  - replace (- (e - k)) with (k + - e) by lia. rewrite pow2_add by lia. ring.
  - replace (- (e - k)) with (k - e) by lia.
    replace (2 ^ k) with (2 ^ (k - e) * 2 ^ e) by (rewrite <- pow2_add by lia; f_equal; lia).
    ring.
  - replace (2 ^ e) with (2 ^ k * 2 ^ (e - k)) by (rewrite <- pow2_add by lia; f_equal; lia).
    ring.
Qed.

Lemma scale_frac_mul n d e k :
  scale_frac (k * n) (k * d) e =
  (k * fst (scale_frac n d e), k * snd (scale_frac n d e)).
Proof. unfold scale_frac. destruct (e <=? 0); simpl; f_equal; ring. Qed.

(** ** The exponent *)

(** At [e0 = log2 n - log2 d - 52] the scaled quotient is in
    [(2^51, 2^53)]. *)
Lemma scale_frac_log2 n d a b :
  0 < n -> 0 < d -> scale_frac n d (Z.log2 n - Z.log2 d - 52) = (a, b) ->
  2 ^ 51 * b < a < 2 ^ 53 * b.
Proof.
  intros Hn Hd. pose proof (Z.log2_spec n Hn) as [Hn1 Hn2].
  pose proof (Z.log2_spec d Hd) as [Hd1 Hd2].
  pose proof (Z.log2_nonneg n). pose proof (Z.log2_nonneg d).
  rewrite Z.pow_succ_r in Hn2, Hd2 by lia.
  set (ln := Z.log2 n) in *. set (ld := Z.log2 d) in *.
  unfold scale_frac. destruct (Z.leb_spec (ln - ld - 52) 0); intros [= <- <-].
  - assert (E : 2 ^ ln * 2 ^ (- (ln - ld - 52)) = 2 ^ ld * 2 ^ 52)
      by (rewrite <- !pow2_add by lia; f_equal; lia).
    pose proof (Z.pow_pos_nonneg 2 (- (ln - ld - 52)) ltac:(lia) ltac:(lia)). nia.
  - assert (E : 2 ^ ln = 2 ^ ld * 2 ^ 52 * 2 ^ (ln - ld - 52))
      by (rewrite <- !pow2_add by lia; f_equal; lia).
    pose proof (Z.pow_pos_nonneg 2 (ln - ld - 52) ltac:(lia) ltac:(lia)). nia.
Qed.

(** Only one exponent fits a quotient. *)
Lemma exponent_fits_unique n d e e' :
  0 < d -> exponent_fits n d e -> exponent_fits n d e' -> e = e'.
Proof.
  intros Hd. unfold exponent_fits.
  destruct (scale_frac n d e) as [a b] eqn:E, (scale_frac n d e') as [a' b'] eqn:E'.
  destruct (scale_frac_pos _ _ _ _ _ Hd E), (scale_frac_pos _ _ _ _ _ Hd E').
  assert (Hlow : forall x y a b a' b', 0 < b -> 0 < b' ->
            scale_frac n d x = (a, b) -> scale_frac n d y = (a', b') -> y < x ->
            a' < 2 ^ 53 * b' -> 2 ^ 52 * b <= a -> False).
  { clear. intros x y a b a' b' Hb Hb' E E' Hlt H1 H2.
    pose proof (scale_frac_shift n d x (x - y) a b a' b' ltac:(lia) E) as Hs.
    replace (x - (x - y)) with y in Hs by lia. specialize (Hs E').
    assert (HP : 2 ^ 1 <= 2 ^ (x - y)) by (apply Z.pow_le_mono_r; lia).
    change (2 ^ 1) with 2 in HP. set (P := 2 ^ (x - y)) in *.
    assert (a * b' >= 2 ^ 52 * b * b') by nia.
    assert (P * (a * b') >= 2 * (a * b')) by nia.
    assert (a' * b < 2 ^ 53 * b' * b) by nia. nia. }
  intros (He & Ha1 & Ha2) (He' & Hb1 & Hb2).
  destruct (Z.lt_trichotomy e e') as [Hlt|[Heq|Hlt]]; [|exact Heq|].
  - destruct Hb2 as [Hb2|Hb2]; [exfalso; eauto | lia].
  - destruct Ha2 as [Ha2|Ha2]; [exfalso; eauto | lia].
Qed.

Lemma div_exponent_fits n d : 0 < n -> 0 < d -> exponent_fits n d (div_exponent n d).
Proof.
  intros Hn Hd. unfold div_exponent.
  set (e0 := Z.log2 n - Z.log2 d - 52).
  destruct (scale_frac n d e0) as [a0 b0] eqn:E0.
  pose proof (scale_frac_log2 n d a0 b0 Hn Hd E0) as [H1 H2].
  destruct (scale_frac_pos _ _ _ _ _ Hd E0) as [Hb0 _].
  (* the corrected exponent [e1] has the quotient in [[2^52, 2^53)] *)
  assert (Hfit1 : forall e1, e1 = (if a0 <? 2 ^ 52 * b0 then e0 - 1 else e0) ->
            let '(a, b) := scale_frac n d e1 in 0 < b /\ 2 ^ 52 * b <= a < 2 ^ 53 * b).
  { intros e1 ->. destruct (Z.ltb_spec a0 (2 ^ 52 * b0)).
    - destruct (scale_frac n d (e0 - 1)) as [a1 b1] eqn:E1.
      pose proof (scale_frac_shift n d e0 1 a0 b0 a1 b1 ltac:(lia) E0 E1).
      destruct (scale_frac_pos _ _ _ _ _ Hd E1). change (2 ^ 1) with 2 in *. nia.
    - rewrite E0. lia. }
  set (e1 := if a0 <? 2 ^ 52 * b0 then e0 - 1 else e0) in *.
  specialize (Hfit1 e1 eq_refl).
  destruct (scale_frac n d e1) as [a1 b1] eqn:E1.
  split; [lia|].
  destruct (Z.max_spec e1 (-1074)) as [[Hm ->]|[Hm ->]].
  - destruct (scale_frac n d (-1074)) as [a b] eqn:E.
    pose proof (scale_frac_shift n d (-1074) (-1074 - e1) a b a1 b1 ltac:(lia) E) as Hs.
    replace (-1074 - (-1074 - e1)) with e1 in Hs by lia. specialize (Hs E1).
    destruct (scale_frac_pos _ _ _ _ _ Hd E) as [Hb Ha]. specialize (Ha Hn).
    assert (HP : 1 <= 2 ^ (-1074 - e1)) by (apply (Z.pow_le_mono_r 2 0); lia).
    set (P := 2 ^ (-1074 - e1)) in *.
    assert (P * a * b1 < 2 ^ 53 * b * b1) by nia.
    assert (P * a < 2 ^ 53 * b) by nia.
    split; [nia | now right].
  - rewrite E1. lia.
Qed.

Lemma div_exponent_unique n d e :
  0 < n -> 0 < d -> exponent_fits n d e -> div_exponent n d = e.
Proof.
  intros Hn Hd He. eapply exponent_fits_unique; [exact Hd | | exact He].
  now apply div_exponent_fits.
Qed.

(** ** Rounding *)

Lemma div_round_even_unique a b m :
  0 < b -> 2 * Z.abs (a - m * b) < b -> div_round_even a b = m.
Proof.
  intros Hb Hm. pose proof (div_round_even_spec a b Hb) as Hr.
  set (q := div_round_even a b) in *.
  destruct (Z.lt_trichotomy q m) as [H|[H|H]]; [|exact H|].
  - assert (b * q <= b * m - b) by nia. lia.
  - assert (b * m <= b * q - b) by nia. lia.
Qed.

(** [div_pos] returns every positive double within half a gap of the
    quotient. *)
Lemma div_pos_near_eq n d m e :
  0 < n -> 0 < d -> pos_double (mkFloat m e) = true -> near n d m e ->
  div_pos n d = mkFloat m e.
Proof.
  intros Hn Hd Hf. unfold near, pos_double in *. cbn [fm fe] in Hf.
  destruct (scale_frac n d e) as [a b] eqn:E.
  destruct (scale_frac_pos _ _ _ _ _ Hd E) as [Hb Ha].
  unfold div_pos.
  destruct ((m =? 2 ^ 52) && (-1074 <? e) && (a <? m * b)) eqn:Hbd.
  - (* the quotient is just below [2^52 * 2^e]: it rounds up from the
       binade below *)
    apply andb_true_iff in Hbd as [Hbd Hlt]. rewrite Hbd.
    apply andb_true_iff in Hbd as [Hm He]. apply Z.eqb_eq in Hm as ->.
    apply Z.ltb_lt in He, Hlt. intros Hnear.
    destruct (scale_frac n d (e - 1)) as [a' b'] eqn:E'.
    pose proof (scale_frac_shift n d e 1 a b a' b' ltac:(lia) E E') as Hs.
    change (2 ^ 1) with 2 in Hs. destruct (scale_frac_pos _ _ _ _ _ Hd E') as [Hb' _].
    assert (H1 : a * b' < 2 ^ 52 * b * b') by nia.
    assert (H2 : b' * b < 4 * b' * (a - 2 ^ 52 * b) + 2 * b' * b) by nia.
    assert (Hfit : exponent_fits n d (e - 1)).
    { unfold exponent_fits. rewrite E'. split; [lia|]. split; [nia | left; nia]. }
    rewrite (div_exponent_unique n d (e - 1) Hn Hd Hfit), E'.
    rewrite (div_round_even_unique a' b' (2 ^ 53)); [rewrite Z.eqb_refl; f_equal; lia | lia |].
    rewrite Z.abs_neq by nia. nia.
  - intros Hnear.
    assert (Hn2 : 2 * Z.abs (a - m * b) < b).
    { destruct ((m =? 2 ^ 52) && (-1074 <? e)) eqn:Hc; [|exact Hnear].
      simpl in Hbd. apply Z.ltb_ge in Hbd. lia. }
    rewrite (div_exponent_unique n d e); [| assumption | assumption |].
    + rewrite E, (div_round_even_unique a b m) by assumption.
      destruct (Z.eqb_spec m (2 ^ 53)); [lia | reflexivity].
    + unfold exponent_fits. rewrite E.
      assert (Hab : - b < 2 * (a - m * b) < b) by lia.
      repeat (rewrite ?andb_true_iff, ?orb_true_iff, ?Z.leb_le, ?Z.ltb_lt, ?Z.eqb_eq in Hf).
      destruct Hf as [[[Hm1 He1]|[Hm1 He1]] Hm2].
      * split; [lia|]. split; [nia|].
        destruct (Z.eqb_spec m (2 ^ 52)) as [->|Hm].
        2:{ left. assert (Hm3 : 2 ^ 52 + 1 <= m) by lia.
            assert (m * b >= (2 ^ 52 + 1) * b) by nia. lia. }
        destruct (Z.ltb_spec (-1074) e); [left | right; lia].
        cbn [andb] in Hbd. apply Z.ltb_ge in Hbd. lia.
      * split; [lia|]. split; [nia | now right].
Qed.

(** [div_pos] depends on the quotient, not on the fraction. *)
Lemma div_round_even_mul k a b :
  0 < k -> 0 < b -> div_round_even (k * a) (k * b) = div_round_even a b.
Proof.
  intros Hk Hb. unfold div_round_even.
  rewrite Z.div_mul_cancel_l, Z.mul_mod_distr_l by lia.
  replace (2 * (k * (a mod b)) <? k * b) with (2 * (a mod b) <? b)
    by (destruct (Z.ltb_spec (2 * (a mod b)) b), (Z.ltb_spec (2 * (k * (a mod b))) (k * b));
        nia).
  replace (k * b <? 2 * (k * (a mod b))) with (b <? 2 * (a mod b))
    by (destruct (Z.ltb_spec b (2 * (a mod b))), (Z.ltb_spec (k * b) (2 * (k * (a mod b))));
        nia).
  reflexivity.
Qed.

Lemma exponent_fits_mul k n d e :
  0 < k -> exponent_fits n d e -> exponent_fits (k * n) (k * d) e.
Proof.
  unfold exponent_fits. rewrite scale_frac_mul.
  destruct (scale_frac n d e) as [a b]; cbn [fst snd]. intros Hk (He & H1 & H2).
  split; [exact He|]. split; [nia|]. destruct H2; [left; nia | now right].
Qed.

Lemma div_pos_mul k n d : 0 < k -> 0 < n -> 0 < d -> div_pos (k * n) (k * d) = div_pos n d.
Proof.
  intros Hk Hn Hd. unfold div_pos.
  rewrite (div_exponent_unique (k * n) (k * d) (div_exponent n d)) by
    (nia || apply exponent_fits_mul, div_exponent_fits; assumption).
  rewrite scale_frac_mul. destruct (scale_frac n d (div_exponent n d)) as [a b] eqn:E.
  destruct (scale_frac_pos _ _ _ _ _ Hd E). simpl.
  now rewrite div_round_even_mul.
Qed.

End Lemmas.

Section Division.
Local Open Scope Z_scope.

(** CPython's true division of two positive ints is correctly
    rounded: whenever a double [m * 2^e] below the overflow bound lies
    within half a gap of the exact quotient [a / b] (a quarter of the
    gap below a power of two), [a / b] returns exactly that double. *)
Theorem py_truediv_nearest (a b m e : Z) :
  0 < a -> 0 < b -> pos_double (mkFloat m e) = true -> e <= 971 -> near a b m e ->
  py_truediv a b = Ok (mkFloat m e).
Proof.
  intros Ha Hb Hf He Hn. unfold py_truediv.
  rewrite (proj2 (Z.eqb_neq b 0)), (proj2 (Z.eqb_neq a 0)), !Z.abs_eq by lia.
  rewrite (div_pos_near_eq a b m e Ha Hb Hf Hn). cbn [fe].
  destruct (Z.ltb_spec 971 e); [lia|].
  destruct (Z.ltb_spec a 0), (Z.ltb_spec b 0); solve [lia | reflexivity].
Qed.

(** [1 / 3] is the double [6004799503160661 * 2^-54]. *)
Lemma py_truediv_nearest_witness :
  near 1 3 6004799503160661 (-54) /\ py_truediv 1 3 = Ok (mkFloat 6004799503160661 (-54)).
Proof.
  assert (Hn : near 1 3 6004799503160661 (-54)) by (vm_compute; reflexivity).
  split; [exact Hn|].
  apply py_truediv_nearest; [lia | lia | reflexivity | lia | exact Hn].
Defined.
End Division.
End Binary64.
