(* ===== verification/PyInt.v ===== *)
(** * PyInt: Python's [int()] on a string

    argparse converts the values of [-fps], [-s] and [-e] with
    [type=int], that is [int(s)]: surrounding whitespace is stripped, an
    optional sign is read, then decimal digits, with single underscores
    allowed between digits; anything else raises [ValueError].  Only
    ASCII digits and the ASCII whitespace characters are modelled. *)

From Stdlib Require Import String Ascii List ZArith Lia Bool.
From Stdlib Require Import Decimal DecimalString DecimalZ DecimalPos.
From S2P Require Import Prelude PyRuntime.
Import ListNotations.
Open Scope string_scope.

Module PyInt.

(** [str.isspace] on ASCII: space, \t, \n, \v, \f, \r. *)
Definition is_space (a : ascii) : bool :=
  let n := nat_of_ascii a in (n =? 32)%nat || ((9 <=? n)%nat && (n <=? 13)%nat).

Fixpoint drop_spaces (l : list ascii) : list ascii :=
  match l with
  | a :: l' => if is_space a then drop_spaces l' else l
  | [] => []
  end.

(** [s.strip()] *)
Definition strip (s : string) : string :=
  string_of_list_ascii (List.rev (drop_spaces (List.rev (drop_spaces (list_ascii_of_string s))))).

(** Digits with single underscores between them: [prev] says the last
    character read was a digit. *)
Fixpoint underscores_ok (prev : bool) (s : string) : bool :=
  match s with
  | EmptyString => prev
  | String a s' =>
      if is_digit a then underscores_ok true s'
      else if Ascii.eqb a "_" then prev && underscores_ok false s'
      else false
  end.

Fixpoint drop_underscores (s : string) : string :=
  match s with
  | EmptyString => EmptyString
  | String a s' =>
      if Ascii.eqb a "_" then drop_underscores s' else String a (drop_underscores s')
  end.

(** The sign and the rest. *)
Definition split_sign (t : string) : bool * string :=
  match t with
  | String a b => if Ascii.eqb a "-" then (true, b) else if Ascii.eqb a "+" then (false, b) else (false, t)
  | EmptyString => (false, t)
  end.

(** [int(s)], [None] where Python raises [ValueError]. *)
Definition py_int (s : string) : option Z :=
  let '(neg, body) := split_sign (strip s) in
  if underscores_ok false body then
    match NilEmpty.uint_of_string (drop_underscores body) with
    | Some d => Some (if neg then Z.opp (Z.of_uint d) else Z.of_uint d)
    | None => None
    end
  else None.

(** ** Lemmas *)

Lemma digit_not_space a : is_digit a = true -> is_space a = false.
Proof.
  unfold is_digit, is_space. intros [H1 H2]%andb_prop.
  apply Nat.leb_le in H1, H2. apply orb_false_iff. split.
  - apply Nat.eqb_neq. lia.
  - apply andb_false_iff. right. apply Nat.leb_gt. lia.
Qed.

Lemma all_chars_list p s : all_chars p s = forallb p (list_ascii_of_string s).
Proof. induction s as [|a s IH]; simpl; [reflexivity | now rewrite IH]. Qed.

Lemma drop_spaces_id l : forallb (fun a => negb (is_space a)) l = true -> drop_spaces l = l.
Proof.
  destruct l as [|a l]; simpl; [reflexivity|].
  intros [Ha _]%andb_prop. apply negb_true_iff in Ha. now rewrite Ha.
Qed.

Lemma strip_id s : all_chars (fun a => negb (is_space a)) s = true -> strip s = s.
Proof.
  rewrite all_chars_list. intros Hs. unfold strip.
  rewrite (drop_spaces_id (list_ascii_of_string s)) by exact Hs.
  rewrite (drop_spaces_id (List.rev _)).
  2: { apply forallb_forall. intros x Hx%in_rev. now apply (proj1 (forallb_forall _ _) Hs). }
  rewrite rev_involutive. apply string_of_list_ascii_of_string.
Qed.

Lemma digits_not_space s : all_chars is_digit s = true -> all_chars (fun a => negb (is_space a)) s = true.
Proof.
  induction s as [|a s IH]; simpl; [reflexivity|].
  intros [Ha Hs]%andb_prop. now rewrite digit_not_space, IH.
Qed.

Lemma underscores_ok_digits b s :
  all_chars is_digit s = true -> underscores_ok b s = b || negb (String.eqb s EmptyString).
Proof.
  revert b. induction s as [|a s IH]; intros b; simpl; [now destruct b|].
  intros [Ha Hs]%andb_prop. rewrite Ha, IH by exact Hs. simpl. now rewrite orb_true_r.
Qed.

Lemma drop_underscores_digits s : all_chars is_digit s = true -> drop_underscores s = s.
Proof.
  induction s as [|a s IH]; simpl; [reflexivity|]. intros [Ha Hs]%andb_prop.
  rewrite IH by exact Hs.
  destruct (Ascii.eqb_spec a "_"); [subst; discriminate | reflexivity].
Qed.

(** The body of a non-empty digit string is read as its decimal value. *)
Lemma py_int_body (neg : bool) (u : uint) :
  u <> Nil ->
  (if underscores_ok false (NilEmpty.string_of_uint u) then
     match NilEmpty.uint_of_string (drop_underscores (NilEmpty.string_of_uint u)) with
     | Some d => Some (if neg then Z.opp (Z.of_uint d) else Z.of_uint d)
     | None => None
     end
   else None) = Some (if neg then Z.opp (Z.of_uint u) else Z.of_uint u).
Proof.
  intros Hu. pose proof (digits_string_of_uint u) as Hd.
  rewrite underscores_ok_digits, drop_underscores_digits, NilEmpty.usu by exact Hd.
  now destruct u.
Qed.

(** Round trip with [str]: [int(str(n)) == n] for every Python int. *)
Lemma py_int_py_str_int (z : Z) : py_int (py_str_int z) = Some z.
Proof.
  rewrite <- (DecimalZ.of_to z) at 2. unfold py_int, py_str_int.
  destruct z as [|p|p]; [reflexivity| |];
    pose proof (DecimalPos.Unsigned.to_uint_nonnil p) as Hu; simpl.
  - rewrite strip_id by (apply digits_not_space;
      destruct (Pos.to_uint p); [contradiction| ..]; apply digits_string_of_uint).
    destruct (Pos.to_uint p) eqn:E; [contradiction| ..];
      apply (py_int_body false); discriminate.
  - rewrite strip_id by (simpl; apply digits_not_space;
      destruct (Pos.to_uint p); [contradiction| ..]; apply digits_string_of_uint).
    simpl. destruct (Pos.to_uint p) eqn:E; [contradiction| ..];
      apply (py_int_body true); discriminate.
Qed.

(** [int()] as Python has it on the command line's strings:
    surrounding whitespace, a sign, leading zeros and single underscores
    between digits are accepted; empty, doubled or edge underscores,
    hexadecimal and inner spaces are refused. *)
Example py_int_examples :
  py_int " 1_000 " = Some 1000%Z /\ py_int "+7" = Some 7%Z /\ py_int "-007" = Some (-7)%Z /\
  py_int "" = None /\ py_int "1__0" = None /\ py_int "_1" = None /\ py_int "1_" = None /\
  py_int "0x10" = None /\ py_int "12 3" = None.
Proof. vm_compute. repeat split. Qed.

End PyInt.
