(* ===== verification/FileSystem.v ===== *)
(** * FileSystem: the file store the program reads and writes

    The program touches the file system three times: [ParseAMC] reads
    the input file, [CheckArgs] asks [Path(...).is_file()] of the output
    path, and [SaveAmc] opens the output path with mode ["w"] and writes
    the whole document.  The store is abstracted by the class
    [FileSystem] (a lookup and a whole-file write) and its laws
    [FileSystemLaws]; the client components are proved against the laws
    only, and [gmap string entry] is an instance that discharges them.
    A path is a string; [open] walks the directories on the way to it
    ([dir_prefixes]), each of which must exist and be a directory
    ([walk_dirs]), as the operating system resolves a path.  Paths are
    taken as normal ([a/b], not [a//b] or [a/./b]); permissions are not
    modelled. *)

From stdpp Require Import base gmap strings.
From Stdlib Require Import Ascii List.
From S2P Require Import Prelude.

(** A path names a regular file with its text, or a directory. *)
Inductive entry : Type :=
| RegularFile (contents : string)
| Directory.

(** The directories a path passes through: every prefix of [p] that
    ends just before a ["/"], outermost first, the root and the working
    directory excepted ([a] and [a/b] for [a/b/c.amc], none for
    [c.amc]).  [acc] is the part of the path already read. *)
Fixpoint dir_prefixes_from (acc s : string) : list string :=
  match s with
  | EmptyString => []
  | String c s' =>
      if Ascii.eqb c "/" then
        (if String.eqb acc "" then [] else [acc]) ++ dir_prefixes_from (acc ++ "/") s'
      else dir_prefixes_from (acc ++ String c "") s'
  end.

Definition dir_prefixes (p : string) : list string := dir_prefixes_from "" p.

Class FileSystem (F : Type) := {
  fs_lookup : F -> string -> option entry;
  fs_put : F -> string -> string -> F
}.

Class FileSystemLaws (F : Type) `{FileSystem F} := {
  fs_lookup_put_eq fs p s : fs_lookup (fs_put fs p s) p = Some (RegularFile s);
  fs_lookup_put_ne fs p q s : p <> q -> fs_lookup (fs_put fs p s) q = fs_lookup fs q
}.

Section Operations.
Context {F : Type} `{FileSystem F}.

(** [Path(p).is_file()]: true exactly for an existing regular file. *)
Definition is_file (fs : F) (p : string) : bool :=
  match fs_lookup fs p with
  | Some (RegularFile _) => true
  | _ => false
  end.

(** Resolving the directories [ds] on the way to [p], outermost first:
    the first one that is missing raises [FileNotFoundError], the first
    one that is a regular file [NotADirectoryError]. *)
Fixpoint walk_dirs (fs : F) (p : string) (ds : list string) : result unit :=
  match ds with
  | [] => Ok tt
  | d :: ds' =>
      match fs_lookup fs d with
      | Some Directory => walk_dirs fs p ds'
      | Some (RegularFile _) => Err (NotADirectoryError p)
      | None => Err (FileNotFoundError p)
      end
  end.

(** [with open(p, "w") as f: f.write(s)]: the directories on the way
    must resolve; then [p] is created or truncated and left holding
    exactly [s]; a directory cannot be opened for writing. *)
Definition write_text (fs : F) (p s : string) : result F :=
  match walk_dirs fs p (dir_prefixes p) with
  | Err e => Err e
  | Ok _ =>
      match fs_lookup fs p with
      | Some Directory => Err (IsADirectoryError p)
      | _ => Ok (fs_put fs p s)
      end
  end.

(** [open(p).read()]: the whole text of a regular file. *)
Definition read_text (fs : F) (p : string) : result string :=
  match walk_dirs fs p (dir_prefixes p) with
  | Err e => Err e
  | Ok _ =>
      match fs_lookup fs p with
      | Some (RegularFile s) => Ok s
      | Some Directory => Err (IsADirectoryError p)
      | None => Err (FileNotFoundError p)
      end
  end.

(** [open(p, "w")] succeeds: the directories resolve and [p] is not one. *)
Definition writable (fs : F) (p : string) : Prop :=
  walk_dirs fs p (dir_prefixes p) = Ok tt /\ fs_lookup fs p <> Some Directory.

(** The store is a tree: the directories on the way to every entry exist. *)
Definition fs_wf (fs : F) : Prop :=
  forall p e, fs_lookup fs p = Some e -> walk_dirs fs p (dir_prefixes p) = Ok tt.
End Operations.


(** ** Programs over the store

    [io A] runs on the store and either returns or raises; a raise keeps
    the store as it was when the exception was raised. *)

Definition io (F A : Type) : Type := F -> F * result A.

Definition io_ret {F A} (a : A) : io F A := fun fs => (fs, Ok a).

Definition io_bind {F A B} (c : io F A) (k : A -> io F B) : io F B :=
  fun fs =>
    let '(fs', r) := c fs in
    match r with
    | Ok a => k a fs'
    | Err e => (fs', Err e)
    end.

(** A computation that reads the store and may raise, but writes nothing. *)
Definition io_read {F A} (f : F -> result A) : io F A := fun fs => (fs, f fs).

Declare Scope io_scope.
Delimit Scope io_scope with io.
Notation "x <- c ;; k" := (io_bind c (fun x => k))
  (at level 60, c at next level, right associativity) : io_scope.

Section IOOps.
Context {F : Type} `{FileSystem F}.

(** [open(p, "w").write(s)] as a step of a program. *)
Definition write_textM (p s : string) : io F unit :=
  fun fs =>
    match write_text fs p s with
    | Ok fs' => (fs', Ok tt)
    | Err e => (fs, Err e)
    end.
End IOOps.

(** ** The store as a finite map from paths to entries *)

#[export] Instance gmap_FileSystem : FileSystem (gmap string entry) := {
  fs_lookup fs p := fs !! p;
  fs_put fs p s := <[p := RegularFile s]> fs
}.

(** A concrete store from a list of paths and entries (later entries win). *)
Definition fs_of_list (l : list (string * entry)) : gmap string entry :=
  list_to_map (rev l).

(** ** The laws, and the map instance satisfies them *)

Section Laws.
Context {F : Type} `{FileSystemLaws F}.

Lemma write_text_Ok fs p s fs' :
  write_text fs p s = Ok fs' -> fs' = fs_put fs p s /\ writable fs p.
Proof.
  unfold write_text, writable. destruct (walk_dirs fs p _) as [[]|]; [|discriminate].
  destruct (fs_lookup fs p) as [[]|]; intros Hw; inv Hw; repeat split; congruence.
Qed.

Lemma write_text_writable fs p s : writable fs p -> write_text fs p s = Ok (fs_put fs p s).
Proof.
  intros [Hw Hd]. unfold write_text. rewrite Hw.
  destruct (fs_lookup fs p) as [[]|]; congruence.
Qed.

Lemma walk_dirs_Ok_In fs p ds d :
  walk_dirs fs p ds = Ok tt -> In d ds -> fs_lookup fs d = Some Directory.
Proof.
  induction ds as [|d' ds IH]; simpl; [contradiction|].
  destruct (fs_lookup fs d') as [[]|] eqn:E; try discriminate.
  intros Hw [<-|Hd]; [exact E | exact (IH Hw Hd)].
Qed.

Lemma walk_dirs_put fs p q s ds :
  ~ In p ds -> walk_dirs (fs_put fs p s) q ds = walk_dirs fs q ds.
Proof.
  induction ds as [|d ds IH]; simpl; [reflexivity|]. intros Hn.
  rewrite fs_lookup_put_ne by (intros ->; apply Hn; now left).
  now rewrite IH by (intros H'; apply Hn; now right).
Qed.

Lemma dir_prefixes_from_shorter acc s d :
  In d (dir_prefixes_from acc s) -> String.length d < String.length acc + String.length s.
Proof.
  revert acc. induction s as [|c s IH]; intros acc; simpl; [contradiction|].
  destruct (Ascii.eqb c "/").
  - intros [Hd|Hd]%in_app_or.
    + destruct (String.eqb acc ""); [contradiction|]. destruct Hd as [<-|[]]. lia.
    + apply IH in Hd. rewrite slen_app in Hd. simpl in Hd. lia.
  - intros Hd. apply IH in Hd. rewrite slen_app in Hd. simpl in Hd. lia.
Qed.

(** A path is not one of its own directories. *)
Lemma dir_prefixes_not_self p : ~ In p (dir_prefixes p).
Proof. intros Hin. apply dir_prefixes_from_shorter in Hin. simpl in Hin. lia. Qed.

(** Writing a file that is not a directory the path [q] goes through
    leaves the resolution of [q] unchanged. *)
Lemma walk_dirs_put_writable fs p q s :
  writable fs p -> walk_dirs fs q (dir_prefixes q) = Ok tt ->
  walk_dirs (fs_put fs p s) q (dir_prefixes q) = Ok tt.
Proof.
  intros [_ Hp] Hq. rewrite walk_dirs_put; [exact Hq|].
  intros Hin. apply Hp. exact (walk_dirs_Ok_In _ _ _ _ Hq Hin).
Qed.

Lemma read_text_put_eq fs p s : writable fs p -> read_text (fs_put fs p s) p = Ok s.
Proof.
  intros [Hw Hd]. unfold read_text.
  rewrite walk_dirs_put, Hw, fs_lookup_put_eq by apply dir_prefixes_not_self. reflexivity.
Qed.

(** A file read before a write to another path that succeeded reads the same after it. *)
Lemma read_text_put_ne fs p q s t :
  p <> q -> writable fs p -> read_text fs q = Ok t -> read_text (fs_put fs p s) q = Ok t.
Proof.
  intros Hne Hp. unfold read_text.
  destruct (walk_dirs fs q (dir_prefixes q)) as [[]|] eqn:Hq; [|discriminate].
  rewrite (walk_dirs_put_writable fs p q s Hp Hq), fs_lookup_put_ne by exact Hne. tauto.
Qed.

(** A write that succeeds keeps the store a tree. *)
Lemma write_text_wf fs p s fs' : fs_wf fs -> write_text fs p s = Ok fs' -> fs_wf fs'.
Proof.
  intros Hwf (-> & Hp)%write_text_Ok q e.
  destruct (String.eqb_spec p q) as [<-|Hne].
  - intros _. exact (walk_dirs_put_writable _ _ _ _ Hp (proj1 Hp)).
  - rewrite fs_lookup_put_ne by exact Hne. intros Hq.
    exact (walk_dirs_put_writable _ _ _ _ Hp (Hwf q e Hq)).
Qed.

Lemma read_text_lookup fs p t : read_text fs p = Ok t -> fs_lookup fs p = Some (RegularFile t).
Proof.
  unfold read_text. destruct (walk_dirs _ _ _); [|discriminate].
  destruct (fs_lookup fs p) as [[]|]; congruence.
Qed.

Lemma is_file_put_eq fs p s : is_file (fs_put fs p s) p = true.
Proof. unfold is_file. now rewrite fs_lookup_put_eq. Qed.
End Laws.

(** ** Running programs of the store monad *)

Section IOLaws.
Context {S A B : Type}.

Lemma io_bind_Ok (c : io S A) (k : A -> io S B) w w' a :
  c w = (w', Ok a) -> io_bind c k w = k a w'.
Proof. unfold io_bind. now intros ->. Qed.

Lemma io_bind_Err (c : io S A) (k : A -> io S B) w w' e :
  c w = (w', Err e) -> io_bind c k w = (w', Err e).
Proof. unfold io_bind. now intros ->. Qed.
End IOLaws.

#[export] Instance gmap_FileSystemLaws : FileSystemLaws (gmap string entry).
Proof.
  split; intros; simpl.
  - apply lookup_insert_eq.
  - now apply lookup_insert_ne.
Qed.
