(* ===== verification/Packaging.v ===== *)
(** * Packaging: src/setup.py and the modules it installs

    setup.py reads the README next to it ([(HERE / "README.md").read_text()])
    and calls [setuptools.setup] with the distribution's metadata.  The
    script is [setup_script], a program of the store monad; its result
    is the record [Dist] of the keyword arguments.  Of what [setup] then
    does, the part that decides the installed program is modelled: the
    [build_py] command of distutils for [py_modules], which finds each
    module's source through [package_dir] ([get_package_dir]), skips a
    module whose file is missing, and names its place in the build tree
    ([get_module_outfile]).  Paths follow [os.path.join] and
    [pathlib]'s [/] on relative POSIX paths. *)

From Stdlib Require Import String Ascii List Bool Arith.
From S2P Require Import Prelude FileSystem.
Import ListNotations.

Module Packaging.

Local Open Scope string_scope.

(** ** Paths *)

(** [os.path.join(a, b)] for relative or absolute POSIX paths. *)
Definition join2 (a b : string) : string :=
  match b with
  | String "/" _ => b
  | _ =>
      if String.eqb a "" then b
      else if String.eqb (substring (String.length a - 1) 1 a) "/" then a ++ b
      else a ++ "/" ++ b
  end.

(** [os.path.join] of a non-empty list of parts, left to right. *)
Definition os_path_join (parts : list string) : string :=
  match parts with
  | [] => ""
  | p :: ps => fold_left join2 ps p
  end.

(** [pathlib.Path(d) / name]: the directory ["."] disappears. *)
Definition path_div (d name : string) : string :=
  if String.eqb d "." then name else join2 d name.

(** ** The script *)

(** The keyword arguments of [setup(...)]. *)
Record Dist := mkDist {
  dist_name : string;
  dist_version : string;
  dist_description : string;
  long_description_content_type : string;
  long_description : string;
  py_modules : list string;
  package_dir : list (string * string);
  classifiers : list string;
  dist_url : string;
  dist_author : string;
  author_email : string;
  install_requires : list string
}.

(** setup.py lines 10-29, given the README text. *)
Definition amc_cropper (README : string) : Dist := {|
  dist_name := "amc-cropper";
  dist_version := "0.0.1";
  dist_description := "Crops AMC files to descired length based on provided fps, start, and end whole seconds. Works through command line.";
  long_description_content_type := "text/markdown";
  long_description := README;
  py_modules := ["amccrop"];
  package_dir := [("", "amccrop")];
  classifiers := ["Programming Language :: Python :: 3.6";
                  "Programming Language :: Python :: 3.7";
                  "License :: OSI Approved :: MIT License";
                  "Natural Language :: English";
                  "Topic :: Software Development :: Libraries"];
  dist_url := "https://github.com/UomoCaffeLatte/AMCCrop";
  dist_author := "Nikhil Reji";
  author_email := "Nikhil.Reji@live.co.uk";
  install_requires := ["AsfAmc-Parser"] |}.

Section Script.
Context {F : Type} `{FileSystem F}.

Local Open Scope io_scope.

(** setup.py run from its directory [here] ([HERE], line 5): read the
    README (line 8), then build the metadata (lines 10-29). *)
Definition setup_script (here : string) : io F Dist :=
  README <- io_read (fun fs => read_text fs (path_div here "README.md")) ;;
  io_ret (amc_cropper README).
End Script.

(** ** Which modules [setup] installs: distutils [build_py] *)

Fixpoint assoc (k : string) (l : list (string * string)) : option string :=
  match l with
  | [] => None
  | (k', v) :: l' => if String.eqb k' k then Some v else assoc k l'
  end.

(** The loop of [get_package_dir] on the package path, kept reversed so
    that [del path[-1]] is the tail: the longest prefix of the package
    that [package_dir] names gives the directory, the rest is appended. *)
Fixpoint package_dir_loop (pd : list (string * string)) (rpath tail : list string) : string :=
  match rpath with
  | [] =>
      let tail' := match assoc "" pd with Some pdir => pdir :: tail | None => tail end in
      match tail' with [] => "" | _ => os_path_join tail' end
  | x :: rpath' =>
      match assoc (String.concat "." (List.rev rpath)) pd with
      | Some pdir => os_path_join (pdir :: tail)
      | None => package_dir_loop pd rpath' (x :: tail)
      end
  end.

(** [build_py.get_package_dir(package)]. *)
Definition get_package_dir (pd : list (string * string)) (package : string) : string :=
  let path := py_split "." package in
  match pd with
  | [] => os_path_join path
  | _ => package_dir_loop pd (List.rev path) []
  end.

(** [module.split('.')] into the package and the module's base name. *)
Definition split_module (m : string) : string * string :=
  let path := py_split "." m in
  (String.concat "." (removelast path), last path "").

(** [build_py.get_module_outfile(build_dir, package.split('.'), module)]. *)
Definition module_outfile (build_dir package base : string) : string :=
  os_path_join ([build_dir] ++ py_split "." package ++ [base ++ ".py"]).

Section Build.
Context {F : Type} `{FileSystem F}.

(** [build_py.check_package]: a package directory other than [""] must
    exist and be a directory; a package other than the root one
    contributes its [__init__.py] when there is one. *)
Definition check_package (fs : F) (package package_dir : string) : result (option string) :=
  match (if String.eqb package_dir "" then None
         else match fs_lookup fs package_dir with
              | None => Some ("package directory '" ++ package_dir ++ "' does not exist")
              | Some (RegularFile _) =>
                  Some ("supposed package directory '" ++ package_dir ++
                        "' exists, but is not a directory")
              | Some Directory => None
              end) with
  | Some msg => raise (DistutilsFileError msg)
  | None =>
      if String.eqb package "" then Ok None
      else let init_py := os_path_join [package_dir; "__init__.py"] in
           Ok (if is_file fs init_py then Some init_py else None)
  end.

(** [build_py.find_modules]: each package is checked once ([checked]
    is the cache [packages]); [check_module] skips, with a warning, a
    module whose source is not a file.  The triples are the package,
    the module's base name and its source file. *)
Fixpoint find_modules (fs : F) (pd : list (string * string)) (checked : list string)
    (mods : list string) : result (list (string * string * string)) :=
  match mods with
  | [] => Ok []
  | m :: ms =>
      let '(package, base) := split_module m in
      let package_dir := get_package_dir pd package in
      init <- (if existsb (String.eqb package) checked then Ok None
               else check_package fs package package_dir) ;;
      let inits := match init with Some i => [(package, "__init__", i)] | None => [] end in
      let module_file := os_path_join [package_dir; base ++ ".py"] in
      let this := if is_file fs module_file then [(package, base, module_file)] else [] in
      rest <- find_modules fs pd (package :: checked) ms ;;
      Ok (inits ++ this ++ rest)%list
  end.

(** [build_py.build_modules]: each module found is copied from its
    source file to its file in the build tree. *)
Definition build_modules (fs : F) (build_dir : string) (d : Dist) : result (list (string * string)) :=
  ms <- find_modules fs (package_dir d) [] (py_modules d) ;;
  Ok (map (fun '(package, base, file) => (file, module_outfile build_dir package base)) ms).
End Build.

(** ** Lemmas *)

Lemma substring_last (b : string) (c : ascii) :
  substring (String.length (b ++ String c "") - 1) 1 (b ++ String c "") = String c "".
Proof.
  rewrite slen_app. simpl. rewrite Nat.add_sub.
  induction b as [|x b IH]; [reflexivity|]. exact IH.
Qed.

(** A part that is not an absolute path. *)
Definition relative (c : string) : Prop :=
  match c with String "/" _ => False | _ => True end.

Lemma join2_rel b c :
  relative c ->
  join2 b c = if String.eqb b "" then c
              else if String.eqb (substring (String.length b - 1) 1 b) "/" then b ++ c
              else b ++ "/" ++ c.
Proof.
  intros Hc. unfold join2.
  destruct c as [|[[] [] [] [] [] [] [] []] c]; solve [contradiction | reflexivity].
Qed.

(** An empty part only adds a separator, which the next part needs anyway. *)
Lemma join2_empty (b c : string) : relative c -> join2 (join2 b "") c = join2 b c.
Proof.
  intros Hc. rewrite (join2_rel b ""), !(join2_rel _ c) by easy.
  destruct (String.eqb b "") eqn:Eb; [apply String.eqb_eq in Eb as ->; reflexivity|].
  destruct (String.eqb (substring (String.length b - 1) 1 b) "/") eqn:El;
    rewrite sapp_nil_r; [now rewrite Eb, El|].
  replace (String.eqb (b ++ "/") "") with false by (destruct b; [discriminate | reflexivity]).
  rewrite substring_last. simpl. now rewrite sapp_assoc.
Qed.

(** C35: what [python setup.py build] puts in the build tree: the
    [package_dir] maps the root package to the [amccrop] directory,
    which must exist as a directory (else [DistutilsFileError]); then
    exactly the module [amccrop], from [amccrop/amccrop.py] to
    [amccrop.py] at the top of the build directory, whenever that source
    is present, and nothing else; [__main__.py] is never part of the
    distribution, so an installed [python -m amccrop] runs the
    [__main__] block of amccrop.py. *)
Theorem setup_builds_amccrop {F : Type} `{FileSystem F} (fs : F) (build_dir README : string) :
  build_modules fs build_dir (amc_cropper README) =
  match fs_lookup fs "amccrop" with
  | None => Err (DistutilsFileError "package directory 'amccrop' does not exist")
  | Some (RegularFile _) =>
      Err (DistutilsFileError "supposed package directory 'amccrop' exists, but is not a directory")
  | Some Directory =>
      Ok (if is_file fs "amccrop/amccrop.py"
          then [("amccrop/amccrop.py", join2 build_dir "amccrop.py")] else [])
  end.
Proof.
  unfold build_modules. cbn [find_modules py_modules amc_cropper package_dir].
  change (split_module "amccrop") with ("", "amccrop"). cbv beta iota zeta.
  replace (get_package_dir [("", "amccrop")] "") with "amccrop" by reflexivity.
  replace (os_path_join ["amccrop"; "amccrop" ++ ".py"]) with "amccrop/amccrop.py" by reflexivity.
  cbn [existsb]. unfold check_package. cbn [String.eqb Ascii.eqb Bool.eqb].
  destruct (fs_lookup fs "amccrop") as [[]|]; [reflexivity | | reflexivity].
  cbn [bind app]. destruct (is_file fs "amccrop/amccrop.py"); [|reflexivity].
  cbn [map app]. unfold module_outfile. change (py_split "." "") with [""].
  cbn [os_path_join app fold_left]. now rewrite join2_empty by exact I.
Qed.

End Packaging.
