(* ===== verification/Validator.v ===== *)
(** * Validator: [CheckArgs] of src/amccrop/amccrop.py

    The parsed command line is the record [Args] (the dictionary
    [vars(parser.parse_args())]); the parser's result is the record
    [Amc] with its [frames] and its [count].  [CheckArgs] is translated
    check by check, in the code's nesting: same stem, then the
    [is_file] guard whose [else] branch raises [FileExistsError] after
    all the other checks, then frame rate, start and end.  The abstract
    contract of spec section 4.1 and its error taxonomy (section 7) are
    [validate_spec] and [CropError]; [CheckArgs_refines_spec] shows the
    code implements them. *)

From Stdlib Require Import String Ascii List ZArith Lia Bool.
From S2P Require Import Prelude PyRuntime Binary64 FileSystem.
Import ListNotations.
Open Scope py_scope.

(** ** Data model *)

(** [args = vars(parser.parse_args())]: the five required options. *)
Record Args : Type := mkArgs {
  input : string;
  output : string;
  framerate : Z;
  start : Z;
  end_ : Z
}.

(** The [.amc] attribute of the parser's result: the frames and their count. *)
Record Amc (Frame : Type) : Type := mkAmc {
  frames : list Frame;
  count : Z
}.
Arguments mkAmc {Frame} frames count.
Arguments frames {Frame} a.
Arguments count {Frame} a.

Module CheckArgs.

Definition msg_same : string :=
  "Output filename same as input. Cannot override original file.".
Definition msg_fps : string := "FPS needs to be greater than 0.".
Definition msg_start : string := "Start seconds out of range.".
Definition msg_end : string := "End seconds out of range.".
Definition msg_exists : string :=
  "Output file exists. Cannot override existing files.".

(** The output file [f"{args['output']}.amc"]. *)
Definition out_path (args : Args) : string := (output args ++ ".amc")%string.

Section WithFS.
Context {F : Type} `{FileSystem F}.

Definition CheckArgs {Frame} (fs : F) (args : Args) (amc : Amc Frame) : result bool :=
  if String.eqb (input args) (output args) then raise (ValueError msg_same) else
  let filePath := out_path args in
  if negb (is_file fs filePath) then
    if (framerate args <=? 0)%Z then raise (ValueError msg_fps) else
    bad_start <- py_or (start args <? 0)%Z (py_gt_truediv (start args) (count amc) 30) ;;
    if bad_start then raise (ValueError msg_start) else
    bad_end <- py_or (end_ args <=? start args)%Z (py_gt_truediv (end_ args) (count amc) 30) ;;
    if bad_end then raise (ValueError msg_end) else
    Ok true
  else raise (FileExistsError msg_exists).
End WithFS.

(** ** The contract of spec section 4.1 *)

(** The rejections of spec section 7. *)
Inductive CropError : Type :=
| SameFileError
| FileExistsErr
| InvalidRateError
| StartRangeError
| EndRangeError.

(** The checks in the spec's order, over integers: a bound
    [x <= totalFrames / 30] is [30 * x <= totalFrames]. *)
Definition validate_spec (same outExists : bool) (fps startS endS totalFrames : Z)
    : option CropError :=
  if same then Some SameFileError
  else if outExists then Some FileExistsErr
  else if negb (0 <? fps)%Z then Some InvalidRateError
  else if negb ((0 <=? startS)%Z && (startS * 30 <=? totalFrames)%Z) then Some StartRangeError
  else if negb ((startS <? endS)%Z && (endS * 30 <=? totalFrames)%Z) then Some EndRangeError
  else None.

(** The Python exception each rejection surfaces as. *)
Definition exc_of (e : CropError) : PyExc :=
  match e with
  | SameFileError => ValueError msg_same
  | FileExistsErr => FileExistsError msg_exists
  | InvalidRateError => ValueError msg_fps
  | StartRangeError => ValueError msg_start
  | EndRangeError => ValueError msg_end
  end.

Definition outcome_of (o : option CropError) : result bool :=
  match o with
  | None => Ok true
  | Some e => Err (exc_of e)
  end.

(** ** Theorems *)

Section Proofs.
Context {F : Type} `{FileSystem F} {Frame : Type}.
Implicit Types (fs : F) (args : Args) (amc : Amc Frame).

(** The checks that do not divide: same stem, existing output. *)
Lemma CheckArgs_same_eq fs args amc :
  input args = output args -> CheckArgs fs args amc = Err (ValueError msg_same).
Proof. intros Heq. unfold CheckArgs. now rewrite Heq, String.eqb_refl. Qed.

Lemma CheckArgs_exists_eq fs args amc :
  input args <> output args -> is_file fs (out_path args) = true ->
  CheckArgs fs args amc = Err (FileExistsError msg_exists).
Proof.
  intros Hne Hex. unfold CheckArgs. apply String.eqb_neq in Hne. cbv zeta.
  now rewrite Hne, Hex.
Qed.

(** What an approval says, whatever the count: distinct stems, no output
    file, a positive rate and [0 <= start < end]. *)
Lemma CheckArgs_Ok_guard fs args amc b :
  CheckArgs fs args amc = Ok b ->
  b = true /\ input args <> output args /\ is_file fs (out_path args) = false /\
  (0 < framerate args)%Z /\ (0 <= start args < end_ args)%Z.
Proof.
  unfold CheckArgs. destruct (String.eqb_spec (input args) (output args)); [discriminate|].
  cbv zeta. destruct (is_file fs (out_path args)); [discriminate|]. cbn [negb].
  destruct (Z.leb_spec (framerate args) 0); [discriminate|]. unfold py_or.
  destruct (Z.ltb_spec (start args) 0);
    [|destruct (py_gt_truediv (start args) (count amc) 30) as [[]|]]; cbn [bind];
    try discriminate.
  destruct (Z.leb_spec (end_ args) (start args));
    [|destruct (py_gt_truediv (end_ args) (count amc) 30) as [[]|]]; cbn [bind];
    try discriminate.
  intros [= <-]. repeat split; auto; lia.
Qed.

Lemma CheckArgs_spec_eq fs args amc :
  (0 <= count amc < 30 * 2 ^ 49)%Z ->
  CheckArgs fs args amc =
  outcome_of (validate_spec (String.eqb (input args) (output args))
                (is_file fs (out_path args)) (framerate args)
                (start args) (end_ args) (count amc)).
Proof.
  intros Hc. unfold CheckArgs, validate_spec.
  destruct (String.eqb _ _); [reflexivity|].
  destruct (is_file fs (out_path args)); [reflexivity|]. simpl.
  rewrite !py_gt_truediv_30 by exact Hc. unfold py_or.
  case_zcmp; try reflexivity; lia.
Qed.

(** C1: [CheckArgs] implements the contract of spec section 4.1: it
    returns [True] exactly when [validate_spec] approves, and otherwise
    raises the Python exception of the first rejection in the spec's
    order (same stem, existing output, rate, start, end), with the
    exact [amc.count/30] bounds, for every count below [30 * 2^49]
    frames, where the float quotient compares as the exact one. *)
Theorem CheckArgs_refines_spec fs args amc :
  (0 <= count amc < 30 * 2 ^ 49)%Z ->
  CheckArgs fs args amc =
  outcome_of (validate_spec (String.eqb (input args) (output args))
                (is_file fs (out_path args)) (framerate args)
                (start args) (end_ args) (count amc)).
Proof. apply CheckArgs_spec_eq. Qed.

(** The conditions under which the spec approves a request. *)
Lemma validate_spec_None same ex fps s e total :
  validate_spec same ex fps s e total = None <->
  same = false /\ ex = false /\ (0 < fps)%Z /\ (0 <= s)%Z /\ (s * 30 <= total)%Z /\
  (s < e)%Z /\ (e * 30 <= total)%Z.
Proof.
  unfold validate_spec.
  destruct same, ex; simpl; [split; [discriminate | intuition congruence] ..|].
  case_zcmp; split; intros; try discriminate; intuition lia.
Qed.

Lemma outcome_of_Ok o b : outcome_of o = Ok b <-> o = None /\ b = true.
Proof. destruct o; simpl; split; intros Hb; try discriminate; intuition congruence. Qed.

(** C2: spec section 8: when the input and output stems are equal,
    [CheckArgs] raises the same-file [ValueError], before any other
    check and whatever the file system and the other arguments. *)
Theorem CheckArgs_same_file fs args amc :
  input args = output args ->
  CheckArgs fs args amc = Err (ValueError msg_same).
Proof.
  apply CheckArgs_same_eq.
Qed.

(** C3: spec section 8: when the stems differ and the output file
    [<output>.amc] exists, [CheckArgs] raises [FileExistsError],
    whatever the rate, the bounds and the animation. *)
Theorem CheckArgs_file_exists fs args amc :
  input args <> output args ->
  is_file fs (out_path args) = true ->
  CheckArgs fs args amc = Err (FileExistsError msg_exists).
Proof.
  apply CheckArgs_exists_eq.
Qed.

Lemma CheckArgs_Ok_cases fs args amc b :
  (0 <= count amc < 30 * 2 ^ 49)%Z ->
  CheckArgs fs args amc = Ok b <->
  b = true /\ input args <> output args /\ is_file fs (out_path args) = false /\
  (0 < framerate args)%Z /\ (0 <= start args)%Z /\ (start args * 30 <= count amc)%Z /\
  (start args < end_ args)%Z /\ (end_ args * 30 <= count amc)%Z.
Proof.
  intros Hc. rewrite CheckArgs_spec_eq, outcome_of_Ok, validate_spec_None, String.eqb_neq
    by exact Hc. intuition.
Qed.

(** C4: [CheckArgs] returns normally exactly when the stems differ,
    no output file exists, the rate is positive and
    [0 <= start < end <= count / 30]; it then returns [True]
    (for counts below [30 * 2^49]). *)
Theorem CheckArgs_Ok_iff fs args amc b :
  (0 <= count amc < 30 * 2 ^ 49)%Z ->
  CheckArgs fs args amc = Ok b <->
  b = true /\ input args <> output args /\ is_file fs (out_path args) = false /\
  (0 < framerate args)%Z /\ (0 <= start args)%Z /\ (start args * 30 <= count amc)%Z /\
  (start args < end_ args)%Z /\ (end_ args * 30 <= count amc)%Z.
Proof. apply CheckArgs_Ok_cases. Qed.

(** The frame indices of an approved request, whatever the count. *)
Lemma CheckArgs_Ok_slice fs args amc b :
  CheckArgs fs args amc = Ok b ->
  (0 <= start args * framerate args < end_ args * framerate args)%Z.
Proof. intros (_ & _ & _ & ? & ?)%CheckArgs_Ok_guard. nia. Qed.

Lemma CheckArgs_Ok_range fs args amc b :
  (0 <= count amc < 30 * 2 ^ 49)%Z ->
  CheckArgs fs args amc = Ok b ->
  (0 <= start args * framerate args < end_ args * framerate args)%Z /\
  (start args * 30 < count amc)%Z.
Proof.
  intros Hc Hok. split; [exact (CheckArgs_Ok_slice _ _ _ _ Hok)|].
  apply CheckArgs_Ok_cases in Hok as (_ & _ & _ & ? & ? & ? & ? & ?); [lia | exact Hc].
Qed.

(** C5: after an approval the frame indices the caller computes,
    [start * framerate] and [end * framerate], are a non-negative,
    non-empty range, and the start second lies strictly inside the
    nominal 30-per-second duration. *)
Theorem CheckArgs_frame_range fs args amc b :
  (0 <= count amc < 30 * 2 ^ 49)%Z ->
  CheckArgs fs args amc = Ok b ->
  (0 <= start args * framerate args < end_ args * framerate args)%Z /\
  (start args * 30 < count amc)%Z.
Proof. apply CheckArgs_Ok_range. Qed.

(** Past the bound, one count in thirty rounds up: for [2^49 <= k <
    2^50 - 1], the quotient [(30 k + 29) / 30 = k + 29/30] lies within a
    sixteenth of [k + 1], and doubles there are [1/8] apart. *)
Lemma truediv_above_bound (k : Z) :
  (2 ^ 49 <= k < 2 ^ 50 - 1)%Z -> py_truediv (30 * k + 29) 30 = Ok (mkFloat (8 * (k + 1)) (-3)).
Proof.
  intros Hk.
  assert (E : (2 ^ 49 = 562949953421312 /\ 2 ^ 50 = 1125899906842624 /\
               2 ^ 52 = 4503599627370496 /\ 2 ^ 53 = 9007199254740992)%Z)
    by (repeat split; reflexivity).
  destruct E as (E49 & E50 & E52 & E53). rewrite E49, E50 in Hk.
  apply Binary64.py_truediv_nearest; [lia | lia | | lia |].
  - unfold Binary64.pos_double. cbn [fm fe]. rewrite E52, E53.
    rewrite (proj2 (Z.leb_le _ _)), (proj2 (Z.ltb_lt _ (9007199254740992))) by lia. reflexivity.
  - unfold Binary64.near, scale_frac. change (-3 <=? 0)%Z with true. cbv iota.
    change (2 ^ (- -3))%Z with 8%Z. rewrite E52, (proj2 (Z.eqb_neq _ _)) by lia.
    cbn [andb]. lia.
Qed.

(** C36: the bound [30 * 2^49] of the refinement is where the float
    quotient starts to matter: for every [k] in [[2^49, 2^50 - 1)], with
    [30 k + 29] frames counted, [amc.count/30] rounds up to [k + 1], so
    [CheckArgs] approves the end second [k + 1] (from any start up to
    [k]), whose frames are not all counted; the exact contract refuses it
    with the end-range error. *)
Theorem CheckArgs_float_bound fs args amc k :
  (2 ^ 49 <= k < 2 ^ 50 - 1)%Z -> count amc = (30 * k + 29)%Z ->
  input args <> output args -> is_file fs (out_path args) = false ->
  (0 < framerate args)%Z -> (0 <= start args <= k)%Z -> end_ args = (k + 1)%Z ->
  CheckArgs fs args amc = Ok true /\
  outcome_of (validate_spec false false (framerate args) (start args) (end_ args) (count amc)) =
    Err (ValueError msg_end).
Proof.
  intros Hk Hc Hne Hf Hfps Hs He. split.
  - unfold CheckArgs. rewrite (proj2 (String.eqb_neq _ _) Hne), Hf. cbv zeta. cbn [negb].
    rewrite (proj2 (Z.leb_gt _ _) Hfps), (proj2 (Z.ltb_ge _ _) (proj1 Hs)).
    unfold py_or, py_gt_truediv. rewrite Hc, (truediv_above_bound k Hk). cbn [bind].
    unfold py_int_gt. cbn [fe fm]. change (0 <=? -3)%Z with false. cbv iota.
    change (2 ^ (- -3))%Z with 8%Z. rewrite He.
    rewrite (proj2 (Z.ltb_ge (8 * (k + 1)) (start args * 8))) by lia.
    rewrite (proj2 (Z.leb_gt (k + 1) (start args))) by lia.
    rewrite (proj2 (Z.ltb_ge (8 * (k + 1)) ((k + 1) * 8))) by lia. reflexivity.
  - unfold validate_spec. rewrite He, Hc. cbn [negb].
    rewrite (proj2 (Z.ltb_lt 0 _) Hfps), (proj2 (Z.leb_le 0 _) (proj1 Hs)).
    rewrite (proj2 (Z.leb_le (start args * 30) _)) by lia.
    rewrite (proj2 (Z.ltb_lt (start args) (k + 1))) by lia.
    rewrite (proj2 (Z.leb_gt ((k + 1) * 30) _)) by lia. reflexivity.
Qed.
End Proofs.

(** ** Witnesses *)

Lemma CheckArgs_refines_spec_witness :
  (0 <= count (mkAmc (@nil Z) 900) < 30 * 2 ^ 49)%Z /\
  CheckArgs (fs_of_list []) (mkArgs "walk" "out" 30 5 20) (mkAmc (@nil Z) 900) =
  outcome_of (validate_spec (String.eqb "walk" "out")
                (is_file (fs_of_list []) (out_path (mkArgs "walk" "out" 30 5 20)))
                30 5 20 900).
Proof.
  assert (Hc : (0 <= count (mkAmc (@nil Z) 900) < 30 * 2 ^ 49)%Z) by (simpl; lia).
  split; [exact Hc|].
  exact (CheckArgs_refines_spec (fs_of_list []) (mkArgs "walk" "out" 30 5 20)
           (mkAmc (@nil Z) 900) Hc).
Defined.

Lemma CheckArgs_Ok_iff_witness :
  (0 <= count (mkAmc (@nil Z) 900) < 30 * 2 ^ 49)%Z /\
  (CheckArgs (fs_of_list []) (mkArgs "walk" "out" 30 10 40) (mkAmc (@nil Z) 900) = Ok true <->
   true = true /\ "walk"%string <> "out"%string /\
   is_file (fs_of_list []) (out_path (mkArgs "walk" "out" 30 10 40)) = false /\
   (0 < 30)%Z /\ (0 <= 10)%Z /\ (10 * 30 <= 900)%Z /\ (10 < 40)%Z /\ (40 * 30 <= 900)%Z).
Proof.
  assert (Hc : (0 <= count (mkAmc (@nil Z) 900) < 30 * 2 ^ 49)%Z) by (simpl; lia).
  split; [exact Hc|].
  exact (CheckArgs_Ok_iff (fs_of_list []) (mkArgs "walk" "out" 30 10 40)
           (mkAmc (@nil Z) 900) true Hc).
Defined.

Lemma CheckArgs_same_file_witness :
  CheckArgs (fs_of_list []) (mkArgs "walk" "walk" 30 5 20) (mkAmc (@nil Z) 900) =
  Err (ValueError msg_same).
Proof. apply CheckArgs_same_file. reflexivity. Defined.

Lemma CheckArgs_file_exists_witness :
  CheckArgs (fs_of_list [("out.amc"%string, RegularFile "")]) (mkArgs "walk" "out" 30 5 20)
    (mkAmc (@nil Z) 900) = Err (FileExistsError msg_exists).
Proof. apply CheckArgs_file_exists; [simpl; discriminate | vm_compute; reflexivity]. Defined.

Lemma CheckArgs_frame_range_witness :
  (0 <= 5 * 30 < 20 * 30)%Z /\ (5 * 30 < 900)%Z.
Proof.
  apply (CheckArgs_frame_range (fs_of_list []) (mkArgs "walk" "out" 30 5 20)
           (mkAmc (@nil Z) 900) true); [simpl; lia|].
  vm_compute. reflexivity.
Defined.

Lemma CheckArgs_float_bound_witness :
  (2 ^ 49 <= 2 ^ 49 < 2 ^ 50 - 1)%Z /\
  CheckArgs (fs_of_list []) (mkArgs "walk" "out" 30 (2 ^ 49) (2 ^ 49 + 1))
    (mkAmc (@nil Z) (30 * 2 ^ 49 + 29)) = Ok true /\
  outcome_of (validate_spec false false 30 (2 ^ 49) (2 ^ 49 + 1) (30 * 2 ^ 49 + 29)) =
    Err (ValueError msg_end).
Proof.
  assert (Hk : (2 ^ 49 <= 2 ^ 49 < 2 ^ 50 - 1)%Z) by (split; [lia | reflexivity]).
  split; [exact Hk|].
  exact (CheckArgs_float_bound (fs_of_list []) (mkArgs "walk" "out" 30 (2 ^ 49) (2 ^ 49 + 1))
           (mkAmc (@nil Z) (30 * 2 ^ 49 + 29)) (2 ^ 49) Hk eq_refl ltac:(discriminate)
           eq_refl ltac:(cbn; lia) ltac:(cbn; lia) eq_refl).
Defined.

End CheckArgs.
