(* ===== verification/Cli.v ===== *)
(** * Cli: the command line, as [argparse] reads it

    Both entry points build an [argparse.ArgumentParser] with five
    required options and call [parse_args()] ([src/amccrop/amccrop.py]
    lines 41-49, [src/amccrop/__main__.py] lines 5-13).  The options are
    data here ([crop_parser]); the parser is the algorithm of CPython's
    [argparse] (3.8 to 3.11) restricted to what these options use:

    - [classify] is [_parse_optional] with [_get_option_tuples]: a token is
      a value, an option (exact, [--opt=value], a unique abbreviation of a
      long option, or a short option with its value attached), an unknown
      option, or an ambiguity error;
    - [consume] is the main loop of [_parse_known_args] with
      [consume_optional] for options of one argument and the help action;
    - [parse_args] adds the check of required options and of unrecognized
      arguments, in that order, and gives the namespace;
    - [vars_args] reads the five entries the program uses.

    [argparse] is the Python library, not code of the repository: the
    parser is written from its sources and marked spec-modelled; the
    option table is the repository's code. *)

From stdpp Require Import base gmap strings.
From Stdlib Require Import String Ascii List ZArith Bool DecimalString DecimalPos.
From S2P Require Import Prelude PyRuntime PyInt Validator.
Import ListNotations.

Module Cli.

Local Open Scope string_scope.

(** ** The option table *)

(** The [type=] of an option: none (the string itself) or [int]. *)
Inductive ArgType := TStr | TInt.

(** [parser.add_argument(short, long, help=..., required=..., type=...)] *)
Record OptSpec := mkOpt {
  opt_short : string;
  opt_long : string;
  opt_help : string;
  opt_required : bool;
  opt_type : ArgType
}.

(** The options of [__main__.py] lines 7-11 (and [amccrop.py] 43-47). *)
Definition opt_input : OptSpec :=
  mkOpt "-i" "--input" "The selected amc file to crop." true TStr.
Definition opt_output : OptSpec :=
  mkOpt "-o" "--output" "The output amc file name." true TStr.
Definition opt_framerate : OptSpec :=
  mkOpt "-fps" "--framerate" "The frame rate of the amc file in seconds." true TInt.
Definition opt_start : OptSpec :=
  mkOpt "-s" "--start" "The start point in whole seconds" true TInt.
Definition opt_end : OptSpec :=
  mkOpt "-e" "--end" "The end point in whole seconds" true TInt.

Definition crop_parser : list OptSpec :=
  [opt_input; opt_output; opt_framerate; opt_start; opt_end].

(** A value of the namespace. *)
Inductive PyVal := VStr (s : string) | VInt (z : Z).

(** [dest]: the first long option without its [--], dashes made [_]. *)
Definition dash_to_underscore (a : ascii) : ascii :=
  if Ascii.eqb a "-" then "_"%char else a.

Definition opt_dest (o : OptSpec) : string :=
  string_of_list_ascii
    (map dash_to_underscore (skipn 2 (list_ascii_of_string (opt_long o)))).

(** The name of the option in messages: ['/'.join(option_strings)]. *)
Definition opt_name (o : OptSpec) : string := opt_short o ++ "/" ++ opt_long o.

(** [repr] of a string without quotes or backslashes in it. *)
Definition py_repr (s : string) : string := "'" ++ s ++ "'".

(** [self.error(msg)]: usage on stderr, then [sys.exit(2)]. *)
Definition parser_error {A} (msg : string) : result A :=
  raise (SystemExit 2 msg).

Definition arg_error {A} (o : OptSpec) (msg : string) : result A :=
  parser_error ("argument " ++ opt_name o ++ ": " ++ msg).

(** The actions: [-h/--help], added by the parser, then one per option. *)
Inductive Action := AHelp | AStore (o : OptSpec).

Definition option_strings (opts : list OptSpec) : list (string * Action) :=
  [("-h", AHelp); ("--help", AHelp)] ++
  flat_map (fun o => [(opt_short o, AStore o); (opt_long o, AStore o)]) opts.

Fixpoint lookup_action (acts : list (string * Action)) (s : string) : option Action :=
  match acts with
  | [] => None
  | (k, a) :: acts' => if String.eqb k s then Some a else lookup_action acts' s
  end.

(** ** Classifying a token: [_parse_optional] *)

(** ['=' in s] and [s.split('=', 1)]. *)
Definition split_eq (s : string) : option (string * string) :=
  match split_on "=" s with
  | (_, []) => None
  | (o, f :: fs) => Some (o, String.concat "=" (f :: fs))
  end.

(** [_get_option_tuples]: the options a token may abbreviate. *)
Definition option_tuples (acts : list (string * Action)) (s : string)
    : list (Action * string * option string) :=
  match s with
  | String c0 (String c1 rest) =>
      if Ascii.eqb c0 "-" && Ascii.eqb c1 "-" then
        let '(pre, expl) :=
          match split_eq s with Some (o, v) => (o, Some v) | None => (s, None) end in
        omap (fun '(k, a) => if String.prefix pre k then Some (a, k, expl) else None) acts
      else if Ascii.eqb c0 "-" then
        omap (fun '(k, a) =>
                if String.eqb k (String c0 (String c1 EmptyString)) then Some (a, k, Some rest)
                else if String.prefix s k then Some (a, k, None) else None) acts
      else []
  | _ => []
  end.

(** [_negative_number_matcher]: [^-\d+$|^-\d*\.\d+$]. *)
Definition digits1 (s : string) : bool :=
  negb (String.eqb s EmptyString) && all_chars is_digit s.

Definition is_negative_number (s : string) : bool :=
  match s with
  | String "-" r =>
      digits1 r ||
      match split_on "." r with
      | (a, [b]) => all_chars is_digit a && digits1 b
      | _ => false
      end
  | _ => false
  end.

Definition has_space (s : string) : bool := negb (no_char " " s).

(** A token of the command line after classification. *)
Inductive Tok :=
| TArg (s : string)                                  (* pattern ['A'] *)
| TSep                                               (* ['--'], pattern ['-'] *)
| TOpt (a : Action) (k : string) (expl : option string)   (* ['O'] *)
| TUnknown (s : string).                             (* ['O'], no action *)

Definition classify (acts : list (string * Action)) (s : string) : result Tok :=
  match s with
  | EmptyString => Ok (TArg s)
  | String c _ =>
      if negb (Ascii.eqb c "-") then Ok (TArg s) else
      match lookup_action acts s with
      | Some a => Ok (TOpt a s None)
      | None =>
          if Nat.eqb (String.length s) 1 then Ok (TArg s) else
          match match split_eq s with
                | Some (o, v) =>
                    match lookup_action acts o with
                    | Some a => Some (TOpt a o (Some v))
                    | None => None
                    end
                | None => None
                end with
          | Some t => Ok t
          | None =>
              match option_tuples acts s with
              | [(a, k, e)] => Ok (TOpt a k e)
              | _ :: _ :: _ as l =>
                  parser_error ("ambiguous option: " ++ s ++ " could match " ++
                                String.concat ", " (map (fun '(_, k, _) => k) l))
              | [] =>
                  if is_negative_number s then Ok (TArg s) else
                  if has_space s then Ok (TArg s) else Ok (TUnknown s)
              end
          end
      end
  end.

(** The pattern pass of [_parse_known_args]: after ['--'] every token is
    a value. *)
Fixpoint classify_all (acts : list (string * Action)) (argv : list string)
    : result (list Tok) :=
  match argv with
  | [] => Ok []
  | s :: argv' =>
      if String.eqb s "--" then Ok (TSep :: map TArg argv') else
      t <- classify acts s ;;
      ts <- classify_all acts argv' ;;
      Ok (t :: ts)
  end.

(** ** Consuming the tokens: [consume_optional] and the main loop *)

Definition Namespace := gmap string PyVal.

(** [_get_values] for one argument: [type(s)], or the string itself. *)
Definition convert (o : OptSpec) (s : string) : result PyVal :=
  match opt_type o with
  | TStr => Ok (VStr s)
  | TInt =>
      match PyInt.py_int s with
      | Some z => Ok (VInt z)
      | None => arg_error o ("invalid int value: " ++ py_repr s)
      end
  end.

(** Options take one argument ([nargs=None], pattern [-*A-*]); values
    and unknown options left over are the extras; [setattr] makes the
    last occurrence of an option win; the help action prints and exits
    as soon as it is reached. *)
Fixpoint consume (ts : list Tok) (ns : Namespace) (extras : list string)
    : result (Namespace * list string) :=
  match ts with
  | [] => Ok (ns, extras)
  | TArg s :: ts' | TUnknown s :: ts' => consume ts' ns (extras ++ [s])
  | TSep :: ts' => consume ts' ns (extras ++ ["--"])
  | TOpt AHelp _ None :: _ => raise (SystemExit 0 "")
  | TOpt AHelp _ (Some e) :: _ =>
      parser_error ("argument -h/--help: ignored explicit argument " ++ py_repr e)
  | TOpt (AStore o) _ (Some s) :: ts'
  | TOpt (AStore o) _ None :: TSep :: TArg s :: ts'
  | TOpt (AStore o) _ None :: TArg s :: TSep :: ts'
  | TOpt (AStore o) _ None :: TArg s :: ts' =>
      v <- convert o s ;; consume ts' (<[opt_dest o := v]> ns) extras
  | TOpt (AStore o) _ None :: _ => arg_error o "expected one argument"
  end.

(** The options not given, in declaration order. *)
Definition missing (opts : list OptSpec) (ns : Namespace) : list OptSpec :=
  List.filter (fun o => opt_required o && negb (bool_decide (is_Some (ns !! opt_dest o)))) opts.

(** [parser.parse_args()] on [sys.argv[1:]]. *)
Definition parse_args (opts : list OptSpec) (argv : list string) : result Namespace :=
  ts <- classify_all (option_strings opts) argv ;;
  r <- consume ts ∅ [] ;;
  let '(ns, extras) := r in
  match missing opts ns, extras with
  | (_ :: _) as m, _ =>
      parser_error ("the following arguments are required: " ++
                    String.concat ", " (map opt_name m))
  | [], _ :: _ => parser_error ("unrecognized arguments: " ++ String.concat " " extras)
  | [], [] => Ok ns
  end.

(** [vars(parser.parse_args())] read at the five keys the program uses. *)
Definition vars_args (ns : Namespace) : option Args :=
  match ns !! "input", ns !! "output", ns !! "framerate", ns !! "start", ns !! "end" with
  | Some (VStr i), Some (VStr o), Some (VInt f), Some (VInt s), Some (VInt e) =>
      Some (mkArgs i o f s e)
  | _, _, _, _, _ => None
  end.

(** ** Command lines that name every field of [Args] *)

(** [--input=walk --output=out --framerate=30 --start=0 --end=1] *)
Definition long_arg (o : OptSpec) (v : string) : string := opt_long o ++ "=" ++ v.

Definition render_long (a : Args) : list string :=
  [long_arg opt_input (input a); long_arg opt_output (output a);
   long_arg opt_framerate (py_str_int (framerate a));
   long_arg opt_start (py_str_int (start a)); long_arg opt_end (py_str_int (end_ a))].

(** [-i walk -o out -fps 30 -s 0 -e 1] *)
Definition render_short (a : Args) : list string :=
  [opt_short opt_input; input a; opt_short opt_output; output a;
   opt_short opt_framerate; py_str_int (framerate a);
   opt_short opt_start; py_str_int (start a); opt_short opt_end; py_str_int (end_ a)].

(** ** Lemmas: how tokens are classified *)

(** Every option string has no ['='] and a non-digit second character. *)
Definition key_ok (k : string) : bool :=
  no_char "=" k &&
  match k with String _ (String c _) => negb (is_digit c) | _ => true end.

Definition keys_ok (acts : list (string * Action)) : bool :=
  forallb (fun '(k, _) => key_ok k) acts.

(** A value that does not start with a dash. *)
Definition plain (s : string) : bool :=
  match s with String c _ => negb (Ascii.eqb c "-") | EmptyString => true end.

(** The actions of the program's parser. *)
Definition crop_acts : list (string * Action) := option_strings crop_parser.


Lemma split_eq_app (k v : string) :
  no_char "=" k = true -> split_eq (k ++ String "=" v) = Some (k, v).
Proof.
  intros Hk. unfold split_eq. rewrite split_on_app_no_char by exact Hk.
  pose proof (concat_py_split "=" v) as Hv. unfold py_split in Hv. simpl.
  destruct (split_on "=" v) as [f fs]. subst v. now rewrite sapp_nil_r.
Qed.

Lemma eqb_no_char_l (k s : string) (c : ascii) :
  no_char c k = true -> no_char c s = false -> String.eqb k s = false.
Proof.
  intros Hk Hs. apply String.eqb_neq. intros ->. congruence.
Qed.

Lemma lookup_action_no_key acts s :
  forallb (fun '(k, _) => negb (String.eqb k s)) acts = true ->
  lookup_action acts s = None.
Proof.
  induction acts as [|[k a] acts IH]; simpl; [reflexivity|].
  intros [Hk Hr]%andb_prop. apply negb_true_iff in Hk. rewrite Hk. auto.
Qed.

Lemma classify_explicit acts k v a :
  keys_ok acts = true -> lookup_action acts k = Some a ->
  no_char "=" k = true -> plain k = false ->
  classify acts (k ++ "=" ++ v) = Ok (TOpt a k (Some v)).
Proof.
  intros Hacts Hk Hnk Hp. change ("=" ++ v) with (String "=" v).
  assert (Hs : no_char "=" (k ++ String "=" v) = false).
  { unfold no_char. rewrite all_chars_app. simpl. now rewrite andb_false_r. }
  assert (Hl : lookup_action acts (k ++ String "=" v) = None).
  { apply lookup_action_no_key. unfold keys_ok in Hacts.
    rewrite forallb_forall in Hacts |- *. intros [k0 a0] Hin.
    specialize (Hacts _ Hin). apply andb_prop in Hacts as [Hk0 _].
    now rewrite (eqb_no_char_l _ _ "=" Hk0 Hs). }
  pose proof (split_eq_app k v Hnk) as Hsp.
  destruct k as [|c k']; [discriminate|]. simpl in Hp.
  apply negb_false_iff, Ascii.eqb_eq in Hp as ->.
  simpl in Hl, Hsp |- *. revert Hl Hsp.
  destruct (k' ++ String "=" v) as [|x w] eqn:Ew; [destruct k'; discriminate|].
  intros Hl Hsp. unfold classify. rewrite Hl. simpl. now rewrite Hsp, Hk.
Qed.

Lemma classify_plain acts s : plain s = true -> classify acts s = Ok (TArg s).
Proof. destruct s as [|c r]; simpl; [reflexivity|]. now intros ->. Qed.

Lemma classify_dash_value acts c r (s := String "-" (String c r)) :
  lookup_action acts s = None -> split_eq s = None ->
  option_tuples acts s = [] -> is_negative_number s = true ->
  classify acts s = Ok (TArg s).
Proof. intros H1 H2 H3 H4. unfold classify. subst s. now rewrite H1, H2, H3, H4. Qed.

Lemma is_digit_cases c : is_digit c = true ->
  c = "0"%char \/ c = "1"%char \/ c = "2"%char \/ c = "3"%char \/ c = "4"%char \/
  c = "5"%char \/ c = "6"%char \/ c = "7"%char \/ c = "8"%char \/ c = "9"%char.
Proof.
  destruct c as [[] [] [] [] [] [] [] []]; vm_compute; intros H; try discriminate; auto 11.
Qed.

Lemma digits1_uint (u : Decimal.uint) :
  u <> Decimal.Nil -> digits1 (NilEmpty.string_of_uint u) = true.
Proof.
  intros Hu. unfold digits1. rewrite digits_string_of_uint, andb_true_r.
  destruct u; [contradiction | reflexivity ..].
Qed.

Lemma is_negative_number_digits r :
  digits1 r = true -> is_negative_number (String "-" r) = true.
Proof. intros H. unfold is_negative_number. cbv iota beta. now rewrite H. Qed.

(** [-] and the digits of a non-zero number are a value, not an option. *)
Lemma classify_negative (u : Decimal.uint) :
  u <> Decimal.Nil ->
  classify crop_acts (String "-" (NilEmpty.string_of_uint u)) =
  Ok (TArg (String "-" (NilEmpty.string_of_uint u))).
Proof.
  intros Hu.
  pose proof (is_negative_number_digits _ (digits1_uint u Hu)) as H4.
  assert (H2 : split_eq (String "-" (NilEmpty.string_of_uint u)) = None).
  { unfold split_eq. rewrite split_on_no_char; [reflexivity|].
    unfold no_char. cbn [all_chars]. apply andb_true_intro. split; [reflexivity|].
    apply (digits_no_char "=" _ eq_refl), digits_string_of_uint. }
  destruct u; [contradiction| ..];
    apply classify_dash_value; first [reflexivity | exact H2 | exact H4].
Qed.

(** [str(z)] is a value for the parser: digits, or [-] and digits, which
    the negative-number rule keeps from being read as an option. *)
Lemma classify_py_str_int (z : Z) :
  classify crop_acts (py_str_int z) = Ok (TArg (py_str_int z)).
Proof.
  destruct z as [|p|p]; [reflexivity| |];
    unfold py_str_int; cbn [Z.to_int NilZero.string_of_int].
  - destruct (Pos.to_uint p); apply classify_plain; reflexivity.
  - pose proof (DecimalPos.Unsigned.to_uint_nonnil p) as Hnil.
    replace (NilZero.string_of_uint (Pos.to_uint p))
      with (NilEmpty.string_of_uint (Pos.to_uint p))
      by (destruct (Pos.to_uint p); [contradiction | reflexivity ..]).
    now apply classify_negative.
Qed.

Lemma plain_not_sep s : plain s = true -> String.eqb s "--" = false.
Proof. destruct s as [|c r]; [reflexivity|]. intros H. apply String.eqb_neq. intros [= -> _]. discriminate. Qed.

Lemma py_str_int_not_sep z : String.eqb (py_str_int z) "--" = false.
Proof.
  apply String.eqb_neq. intros E. pose proof (classify_py_str_int z) as H.
  rewrite E in H. vm_compute in H. discriminate.
Qed.

Lemma classify_all_cons acts s rest t :
  String.eqb s "--" = false -> classify acts s = Ok t ->
  classify_all acts (s :: rest) = (ts <- classify_all acts rest ;; Ok (t :: ts)).
Proof. intros H1 H2. simpl. now rewrite H1, H2. Qed.

Lemma missing_crop (ns : Namespace) :
  is_Some (ns !! "input") -> is_Some (ns !! "output") -> is_Some (ns !! "framerate") ->
  is_Some (ns !! "start") -> is_Some (ns !! "end") -> missing crop_parser ns = [].
Proof.
  intros H1 H2 H3 H4 H5. unfold missing. simpl.
  now rewrite !bool_decide_eq_true_2 by assumption.
Qed.

Lemma vars_args_intro (ns : Namespace) i o f s e :
  ns !! "input" = Some (VStr i) -> ns !! "output" = Some (VStr o) ->
  ns !! "framerate" = Some (VInt f) -> ns !! "start" = Some (VInt s) ->
  ns !! "end" = Some (VInt e) -> vars_args ns = Some (mkArgs i o f s e).
Proof. intros H1 H2 H3 H4 H5. unfold vars_args. now rewrite H1, H2, H3, H4, H5. Qed.

Create HintDb cli discriminated.
#[export] Hint Resolve classify_plain classify_py_str_int plain_not_sep py_str_int_not_sep : cli.

(** Classifies a command line token by token, then runs the parser on
    the namespace that results. *)
Ltac parse_tokens :=
  unfold parse_args; fold crop_acts;
  erewrite !classify_all_cons
    by first [reflexivity | apply classify_explicit; reflexivity
             | eauto with cli];
  cbn -[py_str_int PyInt.py_int missing insert]; rewrite ?PyInt.py_int_py_str_int;
  cbn -[py_str_int PyInt.py_int missing insert];
  rewrite missing_crop by (simplify_map_eq; eauto);
  eexists; split; [reflexivity|];
  erewrite vars_args_intro by (simplify_map_eq; reflexivity).

(** ** The namespace is well typed *)

(** A value of the type an option converts to. *)
Definition val_typed (t : ArgType) (v : PyVal) : bool :=
  match t, v with
  | TStr, VStr _ | TInt, VInt _ => true
  | _, _ => false
  end.

(** An option token names an action of the table. *)
Definition tok_ok (acts : list (string * Action)) (t : Tok) : Prop :=
  match t with TOpt a k _ => In (k, a) acts | _ => True end.

(** Every entry is the [dest] of an option, with a value of its type. *)
Definition ns_typed (opts : list OptSpec) (ns : Namespace) : Prop :=
  map_Forall (fun k v => exists o, In o opts /\ opt_dest o = k /\
                                   val_typed (opt_type o) v = true) ns.

Lemma lookup_action_in acts s a : lookup_action acts s = Some a -> In (s, a) acts.
Proof.
  induction acts as [|[k b] acts IH]; simpl; [discriminate|].
  destruct (String.eqb_spec k s) as [->|]; [intros [= ->]|]; auto.
Qed.

Lemma option_tuples_in acts s a k e :
  In (a, k, e) (option_tuples acts s) -> In (k, a) acts.
Proof.
  unfold option_tuples. destruct s as [|c0 [|c1 r]]; try contradiction.
  destruct (Ascii.eqb c0 "-" && Ascii.eqb c1 "-");
    [destruct (split_eq _) as [[o v]|]
    | destruct (Ascii.eqb c0 "-"); [|contradiction]];
    intros H; apply list_elem_of_In, list_elem_of_omap in H as [[k0 a0] [Hin Hf]];
    apply list_elem_of_In in Hin; repeat case_match; simplify_eq; exact Hin.
Qed.

Lemma classify_ok acts s t : classify acts s = Ok t -> tok_ok acts t.
Proof.
  unfold classify, parser_error. repeat case_match; intros Ht; simplify_eq; simpl; auto;
    eauto using lookup_action_in;
  match goal with
  | H : option_tuples _ _ = [_] |- _ => eapply option_tuples_in; rewrite H; now left
  | H : lookup_action _ _ = Some _ |- _ => now apply lookup_action_in
  end.
Qed.

Lemma classify_all_ok acts argv ts :
  classify_all acts argv = Ok ts -> Forall (tok_ok acts) ts.
Proof.
  revert ts. induction argv as [|s argv IH]; simpl; intros ts.
  - intros [= <-]. constructor.
  - destruct (String.eqb s "--").
    + intros [= <-]. constructor; [exact I|]. apply Forall_forall.
      intros t (x & <- & _)%in_map_iff. exact I.
    + intros (t & Ht & (ts' & Hts & [= <-])%bind_Ok_inv)%bind_Ok_inv.
      constructor; [eapply classify_ok|]; eauto.
Qed.

Lemma option_strings_in opts k o : In (k, AStore o) (option_strings opts) -> In o opts.
Proof.
  unfold option_strings. intros [H|H]%in_app_iff.
  - simpl in H. intuition discriminate.
  - apply in_flat_map in H as (o' & Ho' & H).
    destruct H as [[= _ <-]|[[= _ <-]|[]]]; exact Ho'.
Qed.

Lemma convert_typed o s v : convert o s = Ok v -> val_typed (opt_type o) v = true.
Proof. unfold convert, arg_error, parser_error. repeat case_match; intros; simplify_eq/=; done. Qed.

Section Typing.
Context (opts : list OptSpec).

Lemma ns_typed_insert ns o v :
  In o opts -> val_typed (opt_type o) v = true -> ns_typed opts ns ->
  ns_typed opts (<[opt_dest o := v]> ns).
Proof. intros Ho Hv Hns. apply map_Forall_insert_2; eauto. Qed.

(** The option that ends at [ts'] read one value and left [ts'], a suffix. *)
Lemma consume_store o k e ts ns ex r :
  consume (TOpt (AStore o) k e :: ts) ns ex = Ok r ->
  exists s v j, convert o s = Ok v /\
    consume (drop j ts) (<[opt_dest o := v]> ns) ex = Ok r.
Proof.
  destruct e as [s|]; simpl.
  - intros (v & Hv & Hc)%bind_Ok_inv. now exists s, v, 0.
  - destruct ts as [|[s| |a k' e|s] [|[s'| |a' k'' e'|s''] ts'']]; try discriminate;
      intros (v & Hv & Hc)%bind_Ok_inv; eexists _, v;
      first [exists 1; split; [exact Hv | exact Hc] | exists 2; split; [exact Hv | exact Hc]].
Qed.

Lemma consume_typed n ts ns ex ns' ex' :
  length ts <= n -> Forall (tok_ok (option_strings opts)) ts -> ns_typed opts ns ->
  consume ts ns ex = Ok (ns', ex') -> ns_typed opts ns'.
Proof.
  revert ts ns ex. induction n as [|n IH]; intros ts ns ex Hn Hts Hns.
  { destruct ts; [|simpl in Hn; lia]. simpl. now intros [= <- _]. }
  destruct ts as [|t ts]; [now intros [= <- _]|]. simpl in Hn.
  inversion Hts as [|? ? Ht Hts']; subst.
  destruct t as [s| |[|o] k e|s];
    [| | destruct e; discriminate | |];
    [simpl; intros Hc; eapply IH; [| | |exact Hc]; auto; lia ..| |];
    [|simpl; intros Hc; eapply IH; [| | |exact Hc]; auto; lia].
  intros (s & v & j & Hv & Hc)%consume_store.
  eapply IH; [| apply Forall_drop; exact Hts'
             | apply ns_typed_insert; eauto using option_strings_in, convert_typed | exact Hc].
  rewrite length_drop. lia.
Qed.

Lemma missing_nil ns o :
  missing opts ns = [] -> In o opts -> opt_required o = true -> is_Some (ns !! opt_dest o).
Proof.
  intros Hm Ho Hr.
  destruct (bool_decide (is_Some (ns !! opt_dest o))) eqn:E;
    [now apply bool_decide_eq_true in E|].
  enough (Hin : In o (missing opts ns)) by (rewrite Hm in Hin; destruct Hin).
  apply filter_In. split; [exact Ho|]. now rewrite Hr, E.
Qed.

Lemma parse_args_typed argv ns :
  parse_args opts argv = Ok ns -> ns_typed opts ns /\ missing opts ns = [].
Proof.
  unfold parse_args.
  intros (ts & Hts & ([ns' ex] & Hc & Hr)%bind_Ok_inv)%bind_Ok_inv.
  destruct (missing opts ns') eqn:Hm; [|discriminate].
  destruct ex; [|discriminate]. injection Hr as <-. split; [|exact Hm].
  eapply consume_typed; [constructor|eapply classify_all_ok; eauto|apply map_Forall_empty|eauto].
Qed.
End Typing.

Lemma typed_lookup_crop ns o v :
  ns_typed crop_parser ns -> In o crop_parser -> ns !! opt_dest o = Some v ->
  val_typed (opt_type o) v = true.
Proof.
  intros Hns Ho Hv. destruct (Hns _ _ Hv) as (o' & Ho' & Hd & Ht).
  enough (o' = o) as <- by exact Ht.
  destruct Ho as [<-|[<-|[<-|[<-|[<-|[]]]]]];
    destruct Ho' as [<-|[<-|[<-|[<-|[<-|[]]]]]];
    solve [reflexivity | vm_compute in Hd; discriminate].
Qed.

Lemma parse_crop_lookup argv ns o :
  parse_args crop_parser argv = Ok ns -> In o crop_parser ->
  exists v, ns !! opt_dest o = Some v /\ val_typed (opt_type o) v = true.
Proof.
  intros [Hty Hm]%parse_args_typed Ho.
  destruct (missing_nil _ _ o Hm Ho) as [v Hv];
    [destruct Ho as [<-|[<-|[<-|[<-|[<-|[]]]]]]; reflexivity|].
  eauto using typed_lookup_crop.
Qed.

(** ** Properties of the program's command line *)

Lemma parse_render_long (a : Args) :
  exists ns, parse_args crop_parser (render_long a) = Ok ns /\ vars_args ns = Some a.
Proof. unfold render_long, long_arg. parse_tokens. now destruct a. Qed.

(** C23: every [Args] written as [--input=... --output=... --framerate=...
    --start=... --end=...] is parsed back to itself: the namespace has
    the five entries with their types, and the program reads exactly the
    fields that were written. *)
Theorem parse_args_render_long (a : Args) :
  exists ns, parse_args crop_parser (render_long a) = Ok ns /\ vars_args ns = Some a.
Proof. apply parse_render_long. Qed.

(** C24: written with the short options [-i x -o y -fps f -s a -e b],
    the command line is parsed back to the same [Args] whenever the two
    stems do not start with a dash; negative numbers are values. *)
Theorem parse_args_render_short (a : Args) :
  plain (input a) = true -> plain (output a) = true ->
  exists ns, parse_args crop_parser (render_short a) = Ok ns /\ vars_args ns = Some a.
Proof. intros Hi Ho. unfold render_short. parse_tokens. now destruct a. Qed.

Lemma vars_args_complete (argv : list string) (ns : Namespace) :
  parse_args crop_parser argv = Ok ns -> exists a, vars_args ns = Some a.
Proof.
  intros Hp. pose proof (parse_crop_lookup argv ns) as Hl.
  destruct (Hl opt_input) as [[i|] [Hi Ti]]; [exact Hp|now left|..|discriminate].
  destruct (Hl opt_output) as [[o|] [Ho Tb]]; [exact Hp|simpl; tauto|..|discriminate].
  destruct (Hl opt_framerate) as [[|f] [Hf Tf]]; [exact Hp|simpl; tauto|discriminate|].
  destruct (Hl opt_start) as [[|s] [Hs Ts]]; [exact Hp|simpl; tauto|discriminate|].
  destruct (Hl opt_end) as [[|e] [He Te]]; [exact Hp|simpl; tauto|discriminate|].
  exists (mkArgs i o f s e). now apply vars_args_intro.
Qed.

(** C25: whatever the command line, a namespace the parser returns has
    every option the program reads, each with the type the program
    expects: reading [args["input"]] ... [args["end"]] cannot fail. *)
Theorem parse_args_vars (argv : list string) (ns : Namespace) :
  parse_args crop_parser argv = Ok ns -> exists a, vars_args ns = Some a.
Proof. apply vars_args_complete. Qed.

(** C26: an option given twice takes its last value ([setattr] on the
    namespace): appending [-s z] to a command line moves the start to [z]. *)
Theorem parse_args_last_wins (a : Args) (z : Z) :
  plain (input a) = true -> plain (output a) = true ->
  exists ns,
    parse_args crop_parser (render_short a ++ [opt_short opt_start; py_str_int z]) = Ok ns /\
    vars_args ns = Some (mkArgs (input a) (output a) (framerate a) z (end_ a)).
Proof. intros Hi Ho. unfold render_short. simpl app. parse_tokens. reflexivity. Qed.

(** The error paths of the parser on the program's options: no
    argument names every required option in order; a stem starting with
    a dash is read as an option, so [-i -walk] lacks its argument while
    [--input=-walk] is accepted; a non-integer frame rate and a stray
    argument are reported; abbreviations and attached values parse. *)
Example parse_args_examples :
  parse_args crop_parser [] =
    Err (SystemExit 2 ("the following arguments are required: " ++
      "-i/--input, -o/--output, -fps/--framerate, -s/--start, -e/--end")) /\
  parse_args crop_parser ["-i"; "-walk"; "-o"; "out"; "-fps"; "30"; "-s"; "0"; "-e"; "1"] =
    Err (SystemExit 2 "argument -i/--input: expected one argument") /\
  option_map vars_args (match parse_args crop_parser
      ["--input=-walk"; "-o"; "out"; "-fps"; "30"; "-s"; "0"; "-e"; "1"] with
      | Ok ns => Some ns | Err _ => None end) =
    Some (Some (mkArgs "-walk" "out" 30 0 1)) /\
  parse_args crop_parser ["-i"; "walk"; "-o"; "out"; "-fps"; "3.5"; "-s"; "0"; "-e"; "1"] =
    Err (SystemExit 2 "argument -fps/--framerate: invalid int value: '3.5'") /\
  parse_args crop_parser ["-i"; "walk"; "-o"; "out"; "-fps"; "30"; "-s"; "0"; "-e"; "1"; "x"] =
    Err (SystemExit 2 "unrecognized arguments: x") /\
  option_map vars_args (match parse_args crop_parser
      ["--in"; "walk"; "-oout"; "--frame"; "30"; "-s=-2"; "--e"; "1"] with
      | Ok ns => Some ns | Err _ => None end) =
    Some (Some (mkArgs "walk" "out" 30 (-2) 1)).
Proof. vm_compute. repeat split. Qed.

Lemma classify_short o :
  In o crop_parser ->
  classify crop_acts (opt_short o) = Ok (TOpt (AStore o) (opt_short o) None) /\
  String.eqb (opt_short o) "--" = false.
Proof. intros Ho. destruct Ho as [<-|[<-|[<-|[<-|[<-|[]]]]]]; split; reflexivity. Qed.


(** [-h] first exits with status 0: the options after it, their
    values and the required options are not checked (only a token that
    cannot be classified, an ambiguous abbreviation, is reported first). *)
Theorem parse_args_help (argv : list string) (ts : list Tok) :
  classify_all crop_acts argv = Ok ts ->
  parse_args crop_parser ("-h" :: argv) = Err (SystemExit 0 "").
Proof.
  intros H. unfold parse_args. fold crop_acts.
  erewrite !classify_all_cons by reflexivity. rewrite H. reflexivity.
Qed.

(** [type=int] on the program's options is Python's [int]:
    [-fps " 1_000 "], [-fps +7] and [-s -007] are accepted, while an empty
    value, doubled or trailing underscores, hexadecimal and a decimal
    point are refused with argparse's message naming the option. *)
Example convert_int_examples :
  convert opt_framerate " 1_000 " = Ok (VInt 1000) /\
  convert opt_framerate "+7" = Ok (VInt 7) /\
  convert opt_start "-007" = Ok (VInt (-7)) /\
  convert opt_framerate "" =
    Err (SystemExit 2 "argument -fps/--framerate: invalid int value: ''") /\
  convert opt_start "1__0" =
    Err (SystemExit 2 "argument -s/--start: invalid int value: '1__0'") /\
  convert opt_end "1_" = Err (SystemExit 2 "argument -e/--end: invalid int value: '1_'") /\
  convert opt_end "0x10" = Err (SystemExit 2 "argument -e/--end: invalid int value: '0x10'") /\
  convert opt_framerate "29.97" =
    Err (SystemExit 2 "argument -fps/--framerate: invalid int value: '29.97'") /\
  convert opt_input "007" = Ok (VStr "007").
Proof. vm_compute. repeat split. Qed.

(** ** The order of the options does not matter *)

(** The option-value pairs of an [Args], in declaration order. *)
Definition arg_pairs (a : Args) : list (OptSpec * string) :=
  [(opt_input, input a); (opt_output, output a); (opt_framerate, py_str_int (framerate a));
   (opt_start, py_str_int (start a)); (opt_end, py_str_int (end_ a))].

(** A command line of short options, each followed by its value. *)
Definition short_line (l : list (OptSpec * string)) : list string :=
  flat_map (fun '(o, v) => [opt_short o; v]) l.

Definition pair_toks (p : OptSpec * string) : list Tok :=
  let '(o, v) := p in [TOpt (AStore o) (opt_short o) None; TArg v].

Definition conv_val (o : OptSpec) (v : string) : PyVal :=
  match convert o v with Ok x => x | Err _ => VStr v end.

(** The namespace entry a pair sets. *)
Definition kv (p : OptSpec * string) : string * PyVal :=
  let '(o, v) := p in (opt_dest o, conv_val o v).

(** An option of the program with a value the parser takes as such. *)
Definition value_ok (p : OptSpec * string) : Prop :=
  let '(o, v) := p in
  In o crop_parser /\ classify crop_acts v = Ok (TArg v) /\
  String.eqb v "--" = false /\ exists x, convert o v = Ok x.

Lemma classify_all_short_line l :
  Forall value_ok l -> classify_all crop_acts (short_line l) = Ok (flat_map pair_toks l).
Proof.
  induction l as [|[o v] l IH]; intros Hl; [reflexivity|].
  inversion Hl as [|? ? Hov Hl']; subst. destruct Hov as (Ho & Hv & Hsep & _).
  destruct (classify_short o Ho) as [Hc Hs].
  change (short_line ((o, v) :: l)) with (opt_short o :: v :: short_line l).
  rewrite (classify_all_cons _ _ _ _ Hs Hc), (classify_all_cons _ _ _ _ Hsep Hv), IH
    by exact Hl'.
  reflexivity.
Qed.

Lemma consume_pairs l ns ex :
  Forall value_ok l ->
  consume (flat_map pair_toks l) ns ex =
  Ok (fold_left (fun m p => <[(kv p).1 := (kv p).2]> m) l ns, ex).
Proof.
  revert ns. induction l as [|[o v] l IH]; intros ns Hl; [reflexivity|].
  inversion Hl as [|? ? Hov Hl']; subst. destruct Hov as (_ & _ & _ & x & Hx).
  assert (Hstep : consume (flat_map pair_toks ((o, v) :: l)) ns ex =
                  y <- convert o v ;; consume (flat_map pair_toks l) (<[opt_dest o := y]> ns) ex)
    by (destruct l as [|[o' v'] l']; reflexivity).
  rewrite Hstep, Hx. cbn [bind]. rewrite IH by exact Hl'. simpl.
  unfold conv_val. now rewrite Hx.
Qed.

Lemma fold_insert_list_to_map l (m : Namespace) :
  fold_left (fun m p => <[(kv p).1 := (kv p).2]> m) l m =
  foldr (fun p m => <[p.1 := p.2]> m) m (rev (map kv l)).
Proof.
  revert m. induction l as [|p l IH]; intros m; [reflexivity|].
  simpl. rewrite IH, foldr_app. reflexivity.
Qed.

Lemma arg_pairs_ok (a : Args) :
  plain (input a) = true -> plain (output a) = true -> Forall value_ok (arg_pairs a).
Proof.
  intros Hi Ho.
  repeat constructor; cbn -[crop_parser classify py_str_int String.eqb convert];
    auto using classify_plain, plain_not_sep, classify_py_str_int, py_str_int_not_sep;
    first [now left | now (right; left) | now (do 2 right; left)
          | now (do 3 right; left) | now (do 4 right; left) | idtac];
    eexists; unfold convert; cbn; rewrite ?PyInt.py_int_py_str_int; reflexivity.
Qed.

(** C37: the five options may come in any order: every permutation of
    the pairs [-i x], [-o y], [-fps f], [-s a], [-e b] (stems not
    starting with a dash) gives the same result as the declaration
    order, since the options set distinct entries of the namespace. *)
Theorem parse_args_permute (a : Args) (ps : list (OptSpec * string)) :
  plain (input a) = true -> plain (output a) = true -> Permutation ps (arg_pairs a) ->
  parse_args crop_parser (short_line ps) = parse_args crop_parser (render_short a).
Proof.
  intros Hi Ho Hp. pose proof (arg_pairs_ok a Hi Ho) as Hall.
  assert (Hps : Forall value_ok ps) by (rewrite Hp; exact Hall).
  change (render_short a) with (short_line (arg_pairs a)).
  unfold parse_args. fold crop_acts.
  rewrite !classify_all_short_line by assumption. cbn [bind].
  rewrite !consume_pairs by assumption. cbn [bind].
  rewrite !fold_insert_list_to_map.
  assert (Hk : rev (map kv ps) ≡ₚ map kv (arg_pairs a)).
  { rewrite <- Permutation_rev. now rewrite Hp. }
  assert (Hnd : base.NoDup (rev (map kv ps)).*1).
  { rewrite Hk. vm_compute. repeat constructor; rewrite ?list_elem_of_In; simpl; intuition discriminate. }
  assert (Hperm : rev (map kv ps) ≡ₚ rev (map kv (arg_pairs a)))
    by (rewrite Hk; apply Permutation_rev).
  assert (Hm : foldr (fun p m => <[p.1 := p.2]> m) (∅ : Namespace) (rev (map kv ps)) =
                foldr (fun p m => <[p.1 := p.2]> m) ∅ (rev (map kv (arg_pairs a))))
    by exact (list_to_map_proper (M := gmap string) _ _ Hnd Hperm).
  rewrite Hm. reflexivity.
Qed.

(** ** Witnesses *)

Lemma parse_args_render_short_witness :
  plain "walk" = true /\ plain "out" = true /\
  exists ns, parse_args crop_parser (render_short (mkArgs "walk" "out" 30 (-2) 1)) = Ok ns /\
             vars_args ns = Some (mkArgs "walk" "out" 30 (-2) 1).
Proof.
  split; [reflexivity|]. split; [reflexivity|].
  apply (parse_args_render_short (mkArgs "walk" "out" 30 (-2) 1)); reflexivity.
Defined.

Definition sample_argv : list string :=
  ["-i"; "walk"; "-o"; "out"; "-fps"; "30"; "-s"; "0"; "-e"; "1"].

Definition sample_ns : Namespace :=
  match parse_args crop_parser sample_argv with Ok ns => ns | Err _ => ∅ end.

Lemma parse_args_vars_witness :
  parse_args crop_parser sample_argv = Ok sample_ns /\ exists a, vars_args sample_ns = Some a.
Proof.
  assert (Hp : parse_args crop_parser sample_argv = Ok sample_ns) by reflexivity.
  split; [exact Hp | exact (parse_args_vars sample_argv sample_ns Hp)].
Defined.

Lemma parse_args_last_wins_witness :
  plain "walk" = true /\ plain "out" = true /\
  exists ns,
    parse_args crop_parser (render_short (mkArgs "walk" "out" 30 0 1) ++ ["-s"; "-1"]) = Ok ns /\
    vars_args ns = Some (mkArgs "walk" "out" 30 (-1) 1).
Proof.
  split; [reflexivity|]. split; [reflexivity|].
  apply (parse_args_last_wins (mkArgs "walk" "out" 30 0 1) (-1)); reflexivity.
Defined.

Lemma parse_args_permute_witness :
  plain "walk" = true /\ plain "out" = true /\
  Permutation [(opt_end, "1"); (opt_input, "walk"); (opt_start, "0"); (opt_framerate, "30");
               (opt_output, "out")] (arg_pairs (mkArgs "walk" "out" 30 0 1)) /\
  parse_args crop_parser ["-e"; "1"; "-i"; "walk"; "-s"; "0"; "-fps"; "30"; "-o"; "out"] =
  parse_args crop_parser (render_short (mkArgs "walk" "out" 30 0 1)).
Proof.
  assert (Hp : Permutation [(opt_end, "1"); (opt_input, "walk"); (opt_start, "0");
                            (opt_framerate, "30"); (opt_output, "out")]
                 (arg_pairs (mkArgs "walk" "out" 30 0 1))).
  { vm_compute. solve_Permutation. }
  split; [reflexivity|]. split; [reflexivity|]. split; [exact Hp|].
  exact (parse_args_permute (mkArgs "walk" "out" 30 0 1) _ eq_refl eq_refl Hp).
Defined.

Lemma parse_args_help_witness :
  classify_all crop_acts ["-i"] = Ok [TOpt (AStore opt_input) "-i" None] /\
  parse_args crop_parser ["-h"; "-i"] = Err (SystemExit 0 "").
Proof.
  split; [reflexivity|]. apply (parse_args_help ["-i"] [TOpt (AStore opt_input) "-i" None]).
  reflexivity.
Defined.


End Cli.
