(* ===== verification/Serializer.v ===== *)
(** * Serializer: [parseToAmc] of src/amccrop/amccrop.py

    A frame is the parser's dictionary from bone names to the list of
    channel values, in insertion order ([frame.items()]).  [parseToAmc]
    is translated as the code runs it: a string accumulator [amc] and a
    counter [frameCount] threaded through three nested [for] loops
    ([emit_frame], [emit_bone], [emit_values]).  [amc_lines] is the
    reference: the document as its list of lines.  [read_amc] is a
    reference reader of the AMC text (the format of spec section 6),
    used to state the round trip: reading the document back gives each
    frame paired with its 1-based index. *)

From Stdlib Require Import String Ascii List ZArith Lia Bool.
From S2P Require Import Prelude PyRuntime.
Import ListNotations.
Open Scope string_scope.

Module Serializer.

(** ** The code *)

Section Code.
Context {V : Type} `{PyStr V}.

(** A frame: [(bone name, channel values)] in the dictionary's order. *)
Definition Frame : Type := list (string * list V).

(** [amc = ":FULLY-SPECIFIED\n:DEGREES\n"] *)
Definition amc_header : string := ":FULLY-SPECIFIED" ++ NL ++ ":DEGREES" ++ NL.

(** [for float in value: amc += f"\t{str(float)}"] *)
Definition emit_values (amc : string) (value : list V) : string :=
  fold_left (fun amc x => amc ++ TAB ++ py_str x) value amc.

(** One pass of [for key, value in frame.items()]. *)
Definition emit_bone (amc : string) (kv : string * list V) : string :=
  let '(key, value) := kv in
  let amc := amc ++ key in
  let amc := emit_values amc value in
  amc ++ NL.

(** One pass of [for frame in frames]: the index line, the bones, and
    [frameCount += 1]. *)
Definition emit_frame (st : string * Z) (frame : Frame) : string * Z :=
  let '(amc, frameCount) := st in
  let amc := amc ++ py_str_int frameCount ++ NL in
  let amc := fold_left emit_bone frame amc in
  (amc, (frameCount + 1)%Z).

Definition parseToAmc (frames : list Frame) : string :=
  let '(amc, _) := fold_left emit_frame frames (amc_header, 1%Z) in amc.

(** ** The reference: the document as lines *)

Fixpoint values_text (value : list V) : string :=
  match value with
  | [] => EmptyString
  | x :: value' => TAB ++ py_str x ++ values_text value'
  end.

(** [<boneName>\t<v1>\t<v2>...] without its newline. *)
Definition bone_line (kv : string * list V) : string :=
  let '(key, value) := kv in key ++ values_text value.

(** The blocks of the frames, the first numbered [n]. *)
Fixpoint frame_blocks (n : Z) (frames : list Frame) : list string :=
  match frames with
  | [] => []
  | f :: frames' => ((py_str_int n :: map bone_line f) ++ frame_blocks (n + 1) frames')%list
  end.

Definition amc_lines (frames : list Frame) : list string :=
  ":FULLY-SPECIFIED" :: ":DEGREES" :: frame_blocks 1 frames.

(** A bone name the format can carry: no separator, and not a line of
    digits (which a reader takes for a frame index). *)
Definition bone_name_ok (key : string) : bool :=
  clean key && negb (is_index_line key).

Definition frames_ok (frames : list Frame) : bool :=
  forallb (fun f => forallb (fun kv => bone_name_ok (fst kv)) f) frames.

(** Each frame paired with its index, from [n] on. *)
Fixpoint number_from {A} (n : Z) (xs : list A) : list (Z * A) :=
  match xs with
  | [] => []
  | x :: xs' => (n, x) :: number_from (n + 1) xs'
  end.
End Code.

(** ** A reference reader of the AMC text *)

Section Reader.
Context {V : Type} `{PyStrInv V}.

Fixpoint parse_values (fields : list string) : option (list V) :=
  match fields with
  | [] => Some []
  | s :: fields' =>
      match py_parse s, parse_values fields' with
      | Some x, Some xs => Some (x :: xs)
      | _, _ => None
      end
  end.

Definition parse_bone (l : string) : option (string * list V) :=
  let '(name, fields) := split_on tab l in
  option_map (pair name) (parse_values fields).

(** The body, read from the end: the bone lines not yet claimed by an
    index line, and the frames read so far. *)
Fixpoint read_body (ls : list string) : option (@Frame V * list (Z * @Frame V)) :=
  match ls with
  | [] => Some ([], [])
  | l :: ls' =>
      match read_body ls' with
      | None => None
      | Some (pend, blocks) =>
          if is_index_line l then
            option_map (fun i => ([], (i, pend) :: blocks)) (py_int_of_string l)
          else option_map (fun b => (b :: pend, blocks)) (parse_bone l)
      end
  end.

(** The newline-terminated lines of a text. *)
Definition split_lines (s : string) : option (list string) :=
  let fields := py_split newline s in
  if String.eqb (last fields "x") EmptyString then Some (removelast fields) else None.

Definition read_amc (s : string) : option (list (Z * @Frame V)) :=
  match split_lines s with
  | Some (h1 :: h2 :: body) =>
      if String.eqb h1 ":FULLY-SPECIFIED" && String.eqb h2 ":DEGREES" then
        match read_body body with
        | Some ([], blocks) => Some blocks
        | _ => None
        end
      else None
  | _ => None
  end.
End Reader.

(** Two frames of int channel values, for the witnesses. *)
Definition two_frames : list (@Frame Z) :=
  [[("root", [0%Z; 15%Z]); ("lowerback", [(-2)%Z])]; [("root", [1%Z; 16%Z]); ("lowerback", [])]].

(** ** The accumulator loops compute the reference document *)

Section LoopProofs.
Context {V : Type} `{PyStr V}.

Lemma emit_values_spec (amc : string) (value : list V) :
  emit_values amc value = amc ++ values_text value.
Proof.
  unfold emit_values. revert amc.
  induction value as [|x value IH]; intros amc; simpl.
  - now rewrite sapp_nil_r.
  - rewrite IH. now autorewrite with amc_rw.
Qed.

Lemma fold_emit_bone (amc : string) (f : @Frame V) :
  fold_left emit_bone f amc = amc ++ unlines (map bone_line f).
Proof.
  revert amc. induction f as [|[key value] f IH]; intros amc; simpl.
  - now rewrite sapp_nil_r.
  - rewrite IH, emit_values_spec. now autorewrite with amc_rw.
Qed.

Lemma fold_emit_frame (amc : string) (n : Z) (frames : list (@Frame V)) :
  fold_left emit_frame frames (amc, n) =
  (amc ++ unlines (frame_blocks n frames), (n + Z.of_nat (length frames))%Z).
Proof.
  revert amc n. induction frames as [|f frames IH]; intros amc n; simpl.
  - rewrite sapp_nil_r. f_equal. lia.
  - rewrite fold_emit_bone, IH, unlines_app. simpl.
    autorewrite with amc_rw. f_equal. lia.
Qed.

Lemma parseToAmc_unlines (frames : list (@Frame V)) :
  parseToAmc frames = unlines (amc_lines frames).
Proof.
  unfold parseToAmc. rewrite fold_emit_frame. simpl.
  unfold amc_header. now autorewrite with amc_rw.
Qed.

(** C6: the accumulator loops of [parseToAmc] build exactly the
    newline-terminated lines of the reference document: the two header
    lines, then for each frame in order its 1-based index line and one
    line per bone, name then tab-separated values. *)
Theorem parseToAmc_lines (frames : list (@Frame V)) :
  parseToAmc frames = unlines (amc_lines frames).
Proof. apply parseToAmc_unlines. Qed.

Lemma frame_blocks_app (n : Z) (fs1 fs2 : list (@Frame V)) :
  frame_blocks n (fs1 ++ fs2) =
  (frame_blocks n fs1 ++ frame_blocks (n + Z.of_nat (length fs1)) fs2)%list.
Proof.
  revert n. induction fs1 as [|f fs1 IH]; intros n; simpl.
  - now rewrite Z.add_0_r.
  - rewrite IH; simpl. rewrite <- !app_assoc.
    do 4 f_equal. lia.
Qed.

(** C7: serializing a concatenation of frame sequences emits the first
    sequence's document followed by the blocks of the second, whose
    numbering continues after the first: the counter is shared by all
    frames and each frame's block depends only on its position. *)
Theorem parseToAmc_app (fs1 fs2 : list (@Frame V)) :
  parseToAmc (fs1 ++ fs2) =
  parseToAmc fs1 ++ unlines (frame_blocks (1 + Z.of_nat (length fs1)) fs2).
Proof.
  rewrite !parseToAmc_unlines. unfold amc_lines.
  rewrite frame_blocks_app. simpl. now autorewrite with amc_rw.
Qed.
End LoopProofs.

(** ** Reading the document back *)

Section ReaderProofs.
Context {V : Type} `{PyStrInv V}.

Lemma split_on_values_text (value : list V) :
  split_on tab (values_text value) = (EmptyString, map py_str value).
Proof.
  induction value as [|x value IH]; [reflexivity|]. simpl.
  rewrite split_on_app_no_char by apply no_tab_of_clean, py_str_clean.
  rewrite IH, sapp_nil_r. reflexivity.
Qed.

Lemma parse_values_map (value : list V) : parse_values (map py_str value) = Some value.
Proof. induction value as [|x value IH]; simpl; [|rewrite py_parse_str, IH]; reflexivity. Qed.

Lemma parse_bone_line (kv : string * list V) :
  bone_name_ok (fst kv) = true -> parse_bone (bone_line kv) = Some kv.
Proof.
  destruct kv as [key value]. unfold bone_name_ok. simpl. intros [Hk _]%andb_prop.
  unfold parse_bone, bone_line.
  rewrite split_on_app_no_char by now apply no_tab_of_clean.
  rewrite split_on_values_text, sapp_nil_r. simpl. now rewrite parse_values_map.
Qed.

Lemma bone_line_not_index (kv : string * list V) :
  bone_name_ok (fst kv) = true -> is_index_line (bone_line kv) = false.
Proof.
  destruct kv as [key [|x value]]; unfold bone_name_ok; simpl; intros [_ Hk]%andb_prop.
  - rewrite sapp_nil_r. now apply negb_true_iff.
  - unfold is_index_line. rewrite all_chars_app. simpl.
    now rewrite !andb_false_r.
Qed.

Lemma values_text_no_newline (value : list V) : no_char newline (values_text value) = true.
Proof.
  induction value as [|x value IH]; [reflexivity|]. cbn [values_text].
  rewrite !no_char_app, IH, (no_newline_of_clean (py_str x)) by apply py_str_clean.
  reflexivity.
Qed.

Lemma bone_line_no_newline (kv : string * list V) :
  bone_name_ok (fst kv) = true -> no_char newline (bone_line kv) = true.
Proof.
  destruct kv as [key value]. unfold bone_name_ok. simpl. intros [Hk _]%andb_prop.
  now rewrite no_char_app, values_text_no_newline, no_newline_of_clean.
Qed.

Lemma read_body_bones (f : @Frame V) rest pend blocks :
  forallb (fun kv => bone_name_ok (fst kv)) f = true ->
  read_body rest = Some (pend, blocks) ->
  read_body (map bone_line f ++ rest) = Some ((f ++ pend)%list, blocks).
Proof.
  induction f as [|kv f IH]; simpl; intros Hf Hrest; [exact Hrest|].
  apply andb_prop in Hf as [Hkv Hf].
  rewrite (IH Hf Hrest), bone_line_not_index, parse_bone_line by exact Hkv.
  reflexivity.
Qed.

Lemma read_body_blocks (n : Z) (frames : list (@Frame V)) :
  (0 < n)%Z -> frames_ok frames = true ->
  read_body (frame_blocks n frames) = Some ([], number_from n frames).
Proof.
  revert n. induction frames as [|f frames IH]; intros n Hn Hok; [reflexivity|].
  simpl in Hok |- *. apply andb_prop in Hok as [Hf Hok].
  rewrite (read_body_bones _ _ _ _ Hf (IH (n + 1)%Z ltac:(lia) Hok)).
  rewrite py_str_int_index_line, py_int_of_string_str by exact Hn.
  now rewrite app_nil_r.
Qed.

Lemma split_lines_unlines ls :
  forallb (no_char newline) ls = true -> split_lines (unlines ls) = Some ls.
Proof.
  intros Hls. unfold split_lines. rewrite py_split_unlines by exact Hls.
  now rewrite last_last, removelast_last.
Qed.

Lemma amc_lines_no_newline (frames : list (@Frame V)) :
  frames_ok frames = true -> forallb (no_char newline) (amc_lines frames) = true.
Proof.
  intros Hok. simpl. generalize 1%Z.
  induction frames as [|f frames IH]; intros n; [reflexivity|].
  simpl in Hok. apply andb_prop in Hok as [Hf Hok]. simpl.
  rewrite forallb_app, IH, no_newline_of_clean by auto with amc.
  rewrite andb_true_r. simpl. rewrite forallb_forall in Hf.
  apply forallb_forall. intros l Hl. apply in_map_iff in Hl as (kv & <- & Hkv).
  now apply bone_line_no_newline, Hf.
Qed.

Lemma read_amc_parseToAmc (frames : list (@Frame V)) :
  frames_ok frames = true ->
  read_amc (parseToAmc frames) = Some (number_from 1 frames).
Proof.
  intros Hok. unfold read_amc.
  rewrite parseToAmc_unlines, split_lines_unlines by now apply amc_lines_no_newline.
  simpl. now rewrite read_body_blocks by easy.
Qed.

(** C8: round trip: a reader of the AMC text given the serializer's
    output gets back every frame, in order, each paired with its
    1-based index, provided no bone name contains a separator or is a
    line of digits. *)
Theorem read_parseToAmc (frames : list (@Frame V)) :
  frames_ok frames = true ->
  read_amc (parseToAmc frames) = Some (number_from 1 frames).
Proof. apply read_amc_parseToAmc. Qed.
Lemma index_lines_frame_blocks (m : nat) (frames : list (@Frame V)) :
  frames_ok frames = true ->
  filter is_index_line (frame_blocks (Z.of_nat m) frames) =
  map (fun k => py_str_int (Z.of_nat k)) (seq m (length frames)).
Proof.
  revert m. induction frames as [|f frames IH]; intros m Hok; [reflexivity|].
  simpl in Hok |- *. apply andb_prop in Hok as [Hf Hok].
  rewrite filter_app. replace (Z.of_nat m + 1)%Z with (Z.of_nat (S m)) by lia.
  rewrite IH by exact Hok.
  replace (filter is_index_line (map bone_line f)) with (@nil string).
  - destruct m as [|m]; simpl; [reflexivity|].
    now rewrite py_str_int_index_line by lia.
  - symmetry. rewrite forallb_forall in Hf. induction f as [|kv f IHf]; [reflexivity|].
    simpl. rewrite bone_line_not_index by (apply Hf; now left).
    apply IHf. intros x Hx. apply Hf. now right.
Qed.

(** C9: spec section 8: the frame-index lines of the serialized text
    are exactly ["1"], ["2"], ..., ["N"] in order, N the number of
    frames given, whatever their position in the source animation; in
    particular counting them gives N. *)
Theorem parseToAmc_index_lines (frames : list (@Frame V)) :
  frames_ok frames = true ->
  option_map (filter is_index_line) (split_lines (parseToAmc frames)) =
  Some (map (fun k => py_str_int (Z.of_nat k)) (seq 1 (length frames))).
Proof.
  intros Hok.
  rewrite parseToAmc_unlines, split_lines_unlines by now apply amc_lines_no_newline.
  simpl. now rewrite (index_lines_frame_blocks 1).
Qed.
End ReaderProofs.

(** ** Witnesses *)

Lemma read_parseToAmc_witness :
  read_amc (parseToAmc two_frames) = Some (number_from 1 two_frames).
Proof. apply read_parseToAmc. vm_compute. reflexivity. Defined.

Lemma parseToAmc_index_lines_witness :
  option_map (filter is_index_line) (split_lines (parseToAmc two_frames)) =
  Some (map (fun k => py_str_int (Z.of_nat k)) (seq 1 2)).
Proof. apply parseToAmc_index_lines. vm_compute. reflexivity. Defined.

End Serializer.
