(* ===== verification/PyFloat.v ===== *)
(** * PyFloat: the channel values and their [str]

    The parser yields each channel value as a Python float, rendered by
    [str(float)] in [parseToAmc].  A value is a finite binary64 double
    with its sign, [PyFloat]: the sign bit and the magnitude
    [fm * 2^fe], a double by [is_double] (so [-0.0] is a value).
    [py_str_float] is CPython's [float_repr]: [_Py_dg_dtoa] in mode 0
    finds the fewest significant digits (1 to 17) whose decimal reads
    back as the double, the nearest such decimal when two have that
    length ([shortest_digits]); [format_float_short] then prints them
    in fixed notation when the decimal point is at position -3 to 16,
    in exponent notation otherwise, and adds [.0] to an integer
    ([repr_digits]).  [float_of_string] is [float(s)] on decimal
    literals, rounding the decimal to the nearest double with
    [div_pos].  [float_of_string_str] proves [float(str(x)) == x] for
    every double, which makes [PyFloat] a [PyStrInv] value type. *)

From Stdlib Require Import String Ascii List ZArith Lia Bool.
From Stdlib Require Import Decimal DecimalString DecimalZ DecimalPos QArith Qpower Lqa.
From S2P Require Import Prelude PyRuntime Binary64 PyInt Serializer.
Import ListNotations Binary64.
Open Scope string_scope.

Module FloatRepr.

Section Defs.
Local Open Scope Z_scope.

Record PyFloat : Type := mkPyFloat {
  fneg : bool;
  fmag : float64;
  fmag_ok : is_double fmag = true
}.

(** The fraction [a / b] as a rational, for the proofs. *)
Definition qv (a b : Z) : Q := inject_Z a / inject_Z b.

Definition float64_eqb (f g : float64) : bool := (fm f =? fm g) && (fe f =? fe g).

Definition dec_scale (n d q : Z) : Z * Z :=
  if q <=? 0 then (n * 10 ^ (- q), d) else (n, d * 10 ^ q).

Definition dec_to_float (c q : Z) : float64 :=
  let '(n, d) := dec_scale c 1 (- q) in div_pos n d.

Definition float_frac (f : float64) : Z * Z := scale_frac (fm f) 1 (- fe f).

Fixpoint ilog10_fuel (fuel : nat) (n : Z) : Z :=
  match fuel with
  | O => 0
  | S fuel' => if n <? 10 then 0 else 1 + ilog10_fuel fuel' (n / 10)
  end.

Definition ilog10 (n : Z) : Z := ilog10_fuel (S (Z.to_nat (Z.log2 n))) n.

Definition floor_log10 (n d : Z) : Z :=
  let p0 := ilog10 n - ilog10 d in
  let '(a, b) := dec_scale n d p0 in
  if b <=? a then p0 else p0 - 1.

Definition digits_at (f : float64) (n d p k : Z) : option (Z * Z) :=
  let q := p + 1 - k in
  let '(sn, sd) := dec_scale n d q in
  let lo := sn / sd in
  let good c := (0 <? c) && float64_eqb (dec_to_float c q) f in
  match good lo, good (lo + 1) with
  | true, true => Some (div_round_even sn sd, q)
  | true, false => Some (lo, q)
  | false, true => Some (lo + 1, q)
  | false, false => None
  end.

Fixpoint first_digits (f : float64) (n d p : Z) (ks : list Z) : option (Z * Z) :=
  match ks with
  | [] => None
  | k :: ks' =>
      match digits_at f n d p k with
      | Some cq => Some cq
      | None => first_digits f n d p ks'
      end
  end.

Fixpoint strip_zeros (fuel : nat) (c q : Z) : Z * Z :=
  match fuel with
  | O => (c, q)
  | S fuel' => if (0 <? c) && (c mod 10 =? 0) then strip_zeros fuel' (c / 10) (q + 1) else (c, q)
  end.

Definition shortest_digits (f : float64) : Z * Z :=
  let '(n, d) := float_frac f in
  let p := floor_log10 n d in
  let '(c, q) :=
    match first_digits f n d p (map Z.of_nat (seq 1 17)) with
    | Some cq => cq
    | None => let '(sn, sd) := dec_scale n d (p - 16) in (div_round_even sn sd, p - 16)
    end in
  strip_zeros 20 c q.

Fixpoint zeros (k : nat) : string :=
  match k with O => "" | S k' => String "0" (zeros k') end.

Definition exp_text (x : Z) : string :=
  (if x <? 0 then "-" else "+") ++ (if Z.abs x <? 10 then "0" else "") ++ py_str_int (Z.abs x).

Definition repr_digits (c q : Z) : string :=
  let ds := py_str_int c in
  let nd := Z.of_nat (String.length ds) in
  let decpt := nd + q in
  if (decpt <=? -4) || (16 <? decpt) then
    substring 0 1 ds ++
    (if 1 <? nd then "." ++ substring 1 (String.length ds - 1) ds else "") ++
    "e" ++ exp_text (decpt - 1)
  else if decpt <=? 0 then "0." ++ zeros (Z.to_nat (- decpt)) ++ ds
  else if decpt <? nd then
    substring 0 (Z.to_nat decpt) ds ++ "." ++
    substring (Z.to_nat decpt) (String.length ds - Z.to_nat decpt) ds
  else ds ++ zeros (Z.to_nat (decpt - nd)) ++ ".0".

Definition py_str_float (x : PyFloat) : string :=
  (if fneg x then "-" else "") ++
  (if fm (fmag x) =? 0 then "0.0"
   else let '(c, q) := shortest_digits (fmag x) in repr_digits c q).

(** The value of a string of decimal digits, read left to right. *)
Fixpoint dval (acc : Z) (s : string) : Z :=
  match s with
  | EmptyString => acc
  | String a s' => dval (10 * acc + Z.of_nat (nat_of_ascii a - 48)) s'
  end.

Definition digits_value (s : string) : option Z :=
  if is_index_line s then Some (dval 0 s) else None.

Definition parse_mantissa (m : string) : option (Z * Z) :=
  let body ip fp := option_map (fun v => (v, Z.of_nat (String.length fp))) (digits_value (ip ++ fp)) in
  match split_on "." m with
  | (ip, []) => body ip ""
  | (ip, [fp]) => body ip fp
  | _ => None
  end.

Definition parse_exponent (t : string) : option Z :=
  let '(neg, ds) := PyInt.split_sign t in
  option_map (fun v => if neg then - v else v) (digits_value ds).

Definition split_exp (s : string) : option (string * option string) :=
  match split_on "e" s with
  | (m, [x]) => Some (m, Some x)
  | (m, []) =>
      match split_on "E" m with
      | (m', [x]) => Some (m', Some x)
      | (m', []) => Some (m', None)
      | _ => None
      end
  | _ => None
  end.

(** The characters [repr] prints: digits, the point, the exponent
    mark and the signs. *)
Definition repr_char (a : ascii) : bool :=
  is_digit a || Ascii.eqb a "." || Ascii.eqb a "e" || Ascii.eqb a "+" || Ascii.eqb a "-".

Definition head_digit (s : string) : bool :=
  match s with String a _ => is_digit a | EmptyString => false end.

Definition py_zero (neg : bool) : PyFloat := mkPyFloat neg (mkFloat 0 0) eq_refl.

Definition of_float64 (neg : bool) (f : float64) : option PyFloat :=
  match Sumbool.sumbool_of_bool (is_double f) with
  | left H => Some (mkPyFloat neg f H)
  | right _ => None
  end.

Definition make_float (neg : bool) (c q : Z) : option PyFloat :=
  if c =? 0 then Some (py_zero neg) else
  let f := dec_to_float c q in
  if fm f =? 0 then Some (py_zero neg) else of_float64 neg f.

(** A decimal literal without its sign, as the digits [c] and the
    exponent [q] of [c * 10^q]. *)
Definition parse_body (body : string) : option (Z * Z) :=
  match split_exp body with
  | Some (m, ex) =>
      match parse_mantissa m, match ex with None => Some 0 | Some x => parse_exponent x end with
      | Some (c, nf), Some x => Some (c, x - nf)
      | _, _ => None
      end
  | None => None
  end.

Definition float_of_string (s : string) : option PyFloat :=
  let '(neg, body) := PyInt.split_sign (PyInt.strip s) in
  match parse_body body with
  | Some (c, q) => make_float neg c q
  | None => None
  end.
#[export] Instance PyStr_PyFloat : PyStr PyFloat := py_str_float.

(** A float literal of the source text, as Python reads it. *)
Definition float_lit (s : string) : PyFloat :=
  match float_of_string s with Some x => x | None => py_zero false end.

(** The frame of the spec's serializer example. *)
Definition root_frame : Serializer.Frame :=
  [("root", [float_lit "0.0"; float_lit "1.5"; float_lit "-2.25"])].
End Defs.

(** ** Reading digits *)

Section Reading.
Local Open Scope Z_scope.

Lemma dval_app acc a b : dval acc (a ++ b) = dval (dval acc a) b.
Proof. revert acc. induction a as [|x a IH]; intros acc; simpl; auto. Qed.

Lemma dval_zeros acc k : dval acc (zeros k) = acc * 10 ^ Z.of_nat k.
Proof.
  revert acc. induction k as [|k IH]; intros acc; simpl zeros; cbn [dval].
  - simpl. lia.
  - rewrite IH, Nat2Z.inj_succ, Z.pow_succ_r by lia.
    change (Z.of_nat (nat_of_ascii "0" - 48)) with 0. ring.
Qed.

Lemma dval_uint_acc (l : uint) (acc : positive) :
  Z.pos (Pos.of_uint_acc l acc) = dval (Z.pos acc) (NilEmpty.string_of_uint l).
Proof.
  revert acc. induction l; intros acc; cbn [Pos.of_uint_acc NilEmpty.string_of_uint dval];
    [reflexivity| ..]; rewrite IHl; f_equal; simpl Z.of_nat; lia.
Qed.

Lemma dval_uint (u : uint) : Z.of_uint u = dval 0 (NilEmpty.string_of_uint u).
Proof.
  induction u; simpl; [reflexivity | exact IHu | ..];
    unfold Z.of_uint; simpl; now rewrite dval_uint_acc.
Qed.

Lemma dval_py_str_int c : 0 <= c -> dval 0 (py_str_int c) = c.
Proof.
  destruct c as [|p|p]; intros Hc; [reflexivity | | lia].
  unfold py_str_int. simpl. pose proof (DecimalPos.Unsigned.to_uint_nonnil p) as Hn.
  transitivity (Z.of_uint (Pos.to_uint p)).
  - rewrite dval_uint. now destruct (Pos.to_uint p).
  - pose proof (DecimalZ.of_to (Z.pos p)) as E. exact E.
Qed.

Lemma zeros_digits k : all_chars is_digit (zeros k) = true.
Proof. induction k; simpl; auto. Qed.

Lemma zeros_snoc k : zeros k ++ "0" = zeros (S k).
Proof. induction k as [|k IH]; simpl; [reflexivity | now rewrite IH]. Qed.

Lemma index_line_app a b :
  is_index_line a = true -> all_chars is_digit b = true -> is_index_line (a ++ b) = true.
Proof.
  unfold is_index_line. rewrite all_chars_app. intros [Ha Hd]%andb_prop Hb.
  rewrite Hd, Hb. destruct a; [discriminate | reflexivity].
Qed.

Lemma index_line_app_l a b :
  all_chars is_digit a = true -> is_index_line b = true -> is_index_line (a ++ b) = true.
Proof.
  unfold is_index_line. rewrite all_chars_app. intros Ha [Hb Hd]%andb_prop.
  rewrite Ha, Hd. destruct a, b; try discriminate; reflexivity.
Qed.

Lemma index_line_digits s : is_index_line s = true -> all_chars is_digit s = true.
Proof. unfold is_index_line. now intros [_ H]%andb_prop. Qed.

Lemma py_str_int_index (c : Z) : 0 <= c -> is_index_line (py_str_int c) = true.
Proof.
  intros Hc. destruct (Z.eq_dec c 0) as [->|Hc0]; [reflexivity|].
  apply py_str_int_index_line. lia.
Qed.

Lemma digits_value_index s : is_index_line s = true -> digits_value s = Some (dval 0 s).
Proof. unfold digits_value. now intros ->. Qed.

Lemma substring_split (s : string) (t : nat) :
  (t <= String.length s)%nat -> substring 0 t s ++ substring t (String.length s - t) s = s.
Proof.
  revert t. induction s as [|a s IH]; intros t Ht; simpl in *.
  - now destruct t.
  - destruct t as [|t]; simpl.
    + f_equal. clear. induction s as [|b s IH]; simpl; [reflexivity | now f_equal].
    + f_equal. apply IH. lia.
Qed.

Lemma all_chars_substring p s i k :
  all_chars p s = true -> all_chars p (substring i k s) = true.
Proof.
  revert i k. induction s as [|a s IH]; intros i k Hs; simpl in *.
  - now destruct i, k.
  - apply andb_prop in Hs as [Ha Hs].
    destruct i; [destruct k; simpl; [reflexivity | now rewrite Ha, IH] | now apply IH].
Qed.

Lemma digits_no_dot_e s :
  all_chars is_digit s = true ->
  no_char "." s = true /\ no_char "e" s = true /\ no_char "E" s = true.
Proof. intros Hs. repeat split; now apply digits_no_char. Qed.

Lemma split_exp_plain s :
  no_char "e" s = true -> no_char "E" s = true -> split_exp s = Some (s, None).
Proof. intros He HE. unfold split_exp. rewrite !split_on_no_char by assumption. reflexivity. Qed.

Lemma split_exp_exp m t :
  no_char "e" m = true -> no_char "e" t = true -> split_exp (m ++ "e" ++ t) = Some (m, Some t).
Proof.
  intros Hm Ht. unfold split_exp. rewrite split_on_app_no_char by exact Hm.
  simpl. rewrite split_on_no_char by exact Ht. now rewrite sapp_nil_r.
Qed.

Lemma parse_mantissa_plain m :
  no_char "." m = true -> parse_mantissa m = option_map (fun v => (v, 0)) (digits_value m).
Proof. intros Hm. unfold parse_mantissa. rewrite split_on_no_char by exact Hm. now rewrite sapp_nil_r. Qed.

Lemma parse_mantissa_dot a b :
  no_char "." a = true -> no_char "." b = true ->
  parse_mantissa (a ++ "." ++ b) =
  option_map (fun v => (v, Z.of_nat (String.length b))) (digits_value (a ++ b)).
Proof.
  intros Ha Hb. unfold parse_mantissa. rewrite split_on_app_no_char by exact Ha.
  simpl. rewrite split_on_no_char by exact Hb. now rewrite sapp_nil_r.
Qed.

Lemma parse_exponent_text x : parse_exponent (exp_text x) = Some x.
Proof.
  unfold parse_exponent, exp_text.
  assert (Hd : digits_value ((if Z.abs x <? 10 then "0" else "") ++ py_str_int (Z.abs x)) =
               Some (Z.abs x)).
  { assert (Hz : (if Z.abs x <? 10 then "0" else "") = zeros (if Z.abs x <? 10 then 1 else 0))
      by now destruct (Z.abs x <? 10).
    rewrite Hz, digits_value_index, dval_app, dval_zeros, Z.mul_0_l, dval_py_str_int by
      first [lia | apply index_line_app_l; [apply zeros_digits | apply py_str_int_index; lia]].
    reflexivity. }
  destruct (Z.ltb_spec x 0); simpl; rewrite Hd; simpl; f_equal; lia.
Qed.

Lemma substring_length (s : string) (i k : nat) :
  (i + k <= String.length s)%nat -> String.length (substring i k s) = k.
Proof.
  revert i k. induction s as [|a s IH]; intros i k Hs; simpl in *.
  - assert (k = 0%nat) as -> by lia. now destruct i.
  - destruct i as [|i]; [destruct k as [|k]; simpl; [reflexivity|] | ]; rewrite IH; lia.
Qed.

Lemma exp_text_no_e x : no_char "e" (exp_text x) = true.
Proof.
  unfold exp_text. rewrite !no_char_app.
  rewrite (digits_no_char "e" (py_str_int (Z.abs x))) by
    (reflexivity || apply index_line_digits, py_str_int_index; lia).
  now destruct (x <? 0), (Z.abs x <? 10).
Qed.

Lemma digits_value_zeros_r s k :
  is_index_line s = true -> digits_value (s ++ zeros k) = Some (dval 0 s * 10 ^ Z.of_nat k).
Proof.
  intros Hs. rewrite digits_value_index by (apply index_line_app; [exact Hs | apply zeros_digits]).
  now rewrite dval_app, dval_zeros.
Qed.

Lemma digits_value_zeros_l s k :
  is_index_line s = true -> digits_value (zeros k ++ s) = Some (dval 0 s).
Proof.
  intros Hs. rewrite digits_value_index by (apply index_line_app_l; [apply zeros_digits | exact Hs]).
  now rewrite dval_app, dval_zeros, Z.mul_0_l.
Qed.

Lemma substring_0_1 s : (String.length s <= 1)%nat -> substring 0 1 s = s.
Proof. destruct s as [|a [|b s]]; simpl; intros; [reflexivity | reflexivity | lia]. Qed.

Lemma zeros_length k : String.length (zeros k) = k.
Proof. induction k; simpl; auto. Qed.

Ltac no_chars :=
  rewrite ?no_char_app;
  repeat match goal with
  | |- context [no_char ?c ?s] =>
      match s with
      | String _ _ => fail 1
      | EmptyString => fail 1
      | _ => rewrite (digits_no_char c s) by (reflexivity || assumption || apply zeros_digits)
      end
  end; reflexivity.

(** Reading back what [repr_digits] prints gives [c], with [j] more
    zeros in the fixed notation of a large integer. *)
Lemma repr_digits_parse c q :
  0 < c ->
  exists j : nat, parse_body (repr_digits c q) = Some (c * 10 ^ Z.of_nat j, q - Z.of_nat j).
Proof.
  intros Hc. unfold repr_digits.
  set (ds := py_str_int c).
  assert (Hi : is_index_line ds = true) by (apply py_str_int_index; lia).
  pose proof (index_line_digits _ Hi) as Hd.
  assert (Hv : dval 0 ds = c) by (apply dval_py_str_int; lia).
  assert (Hn : (1 <= String.length ds)%nat) by (destruct ds; [discriminate | simpl; lia]).
  pose proof (digits_no_dot_e ds Hd) as (Hd1 & Hd2 & Hd3).
  set (len := String.length ds) in *. set (nd := Z.of_nat len). set (decpt := nd + q).
  unfold parse_body.
  destruct ((decpt <=? -4) || (16 <? decpt)) eqn:Hexp.
  - exists 0%nat. rewrite Z.mul_1_r, Z.sub_0_r.
    set (A := substring 0 1 ds).
    pose proof (digits_no_dot_e A (all_chars_substring _ _ _ _ Hd)) as (HA1 & HA2 & HA3).
    destruct (1 <? nd) eqn:Hnd.
    + set (B := substring 1 (len - 1) ds).
      assert (HAB : A ++ B = ds) by (apply substring_split; lia).
      assert (HB : String.length B = (len - 1)%nat) by (apply substring_length; lia).
      pose proof (digits_no_dot_e B (all_chars_substring _ _ _ _ Hd)) as (HB1 & HB2 & HB3).
      rewrite <- (sapp_assoc A ("." ++ B) ("e" ++ exp_text (decpt - 1))).
      rewrite split_exp_exp, parse_mantissa_dot, HAB, digits_value_index, Hv, parse_exponent_text
        by first [assumption | apply exp_text_no_e | rewrite !no_char_app, HA2, HB2; reflexivity].
      simpl. f_equal. f_equal. rewrite HB. unfold decpt, nd. lia.
    + assert (HA : A = ds) by (apply substring_0_1; apply Z.ltb_ge in Hnd; lia).
      change (A ++ "" ++ "e" ++ exp_text (decpt - 1)) with (A ++ "e" ++ exp_text (decpt - 1)).
      rewrite split_exp_exp, parse_mantissa_plain, HA,
        digits_value_index, Hv, parse_exponent_text by (assumption || apply exp_text_no_e).
      simpl. f_equal. f_equal. unfold decpt, nd. lia.
  - destruct (decpt <=? 0) eqn:H0; [|destruct (decpt <? nd) eqn:H1].
    + exists 0%nat. rewrite Z.mul_1_r, Z.sub_0_r. apply Z.leb_le in H0.
      set (k := Z.to_nat (- decpt)).
      change ("0." ++ zeros k ++ ds) with ("0" ++ "." ++ (zeros k ++ ds)).
      rewrite split_exp_plain, parse_mantissa_dot by no_chars.
      change ("0" ++ (zeros k ++ ds)) with (zeros (S k) ++ ds).
      rewrite digits_value_zeros_l, Hv by exact Hi. cbn [option_map].
      rewrite slen_app, zeros_length. do 2 f_equal. unfold k, decpt, nd in *. lia.
    + exists 0%nat. rewrite Z.mul_1_r, Z.sub_0_r. apply Z.leb_gt in H0. apply Z.ltb_lt in H1.
      set (t := Z.to_nat decpt).
      set (A := substring 0 t ds). set (B := substring t (len - t) ds).
      assert (HAB : A ++ B = ds) by (apply substring_split; unfold t, decpt, nd in *; lia).
      assert (HB : String.length B = (len - t)%nat)
        by (apply substring_length; unfold t, decpt, nd in *; lia).
      assert (HAd : all_chars is_digit A = true) by apply all_chars_substring, Hd.
      assert (HBd : all_chars is_digit B = true) by apply all_chars_substring, Hd.
      rewrite split_exp_plain, parse_mantissa_dot, HAB, digits_value_index, Hv
        by first [exact Hi | no_chars].
      cbn [option_map]. rewrite HB. do 2 f_equal. unfold t, decpt, nd in *. lia.
    + apply Z.leb_gt in H0. apply Z.ltb_ge in H1.
      set (k := Z.to_nat (decpt - nd)). exists (S k).
      change ".0" with ("." ++ "0"). rewrite <- (sapp_assoc ds (zeros k)).
      rewrite split_exp_plain, parse_mantissa_dot by no_chars.
      rewrite sapp_assoc, zeros_snoc, digits_value_zeros_r, Hv by exact Hi.
      cbn [option_map]. do 2 f_equal. change (String.length "0") with 1%nat.
      unfold k, decpt, nd in *. lia.
Qed.
End Reading.

(** ** The decimal exponent *)

Section Log10.
Local Open Scope Z_scope.

Lemma ilog10_fuel_spec fuel n :
  0 < n -> Z.log2 n < Z.of_nat fuel ->
  0 <= ilog10_fuel fuel n /\ 10 ^ ilog10_fuel fuel n <= n < 10 ^ (ilog10_fuel fuel n + 1).
Proof.
  revert n. induction fuel as [|fuel IH]; intros n Hn Hf; [pose proof (Z.log2_nonneg n); lia|].
  cbn [ilog10_fuel]. destruct (Z.ltb_spec n 10); [simpl; lia|].
  assert (Hq : 0 < n / 10) by (apply Z.div_str_pos; lia).
  assert (Hl : Z.log2 (n / 10) < Z.of_nat fuel).
  { pose proof (Z.mul_div_le n 10 ltac:(lia)).
    assert (H2 : Z.log2 (2 * (n / 10)) <= Z.log2 n) by (apply Z.log2_le_mono; lia).
    rewrite Z.log2_double in H2 by exact Hq. lia. }
  destruct (IH (n / 10) Hq Hl) as (H0 & H1 & H2).
  set (r := ilog10_fuel fuel (n / 10)) in *.
  replace (1 + r + 1) with (Z.succ (r + 1)) by lia. rewrite Z.pow_succ_r by lia.
  replace (1 + r) with (Z.succ r) by lia. rewrite Z.pow_succ_r by lia.
  pose proof (Z.mod_pos_bound n 10 ltac:(lia)). pose proof (Z.div_mod n 10 ltac:(lia)). lia.
Qed.

Lemma ilog10_spec n : 0 < n -> 0 <= ilog10 n /\ 10 ^ ilog10 n <= n < 10 ^ (ilog10 n + 1).
Proof.
  intros Hn. apply ilog10_fuel_spec; [exact Hn|]. pose proof (Z.log2_nonneg n). lia.
Qed.

Lemma dec_scale_pos n d q a b : 0 < d -> dec_scale n d q = (a, b) -> 0 < b /\ (0 < n -> 0 < a).
Proof.
  unfold dec_scale. intros Hd.
  destruct (Z.leb_spec q 0); intros [= <- <-].
  - pose proof (Z.pow_pos_nonneg 10 (- q) ltac:(lia) ltac:(lia)). nia.
  - pose proof (Z.pow_pos_nonneg 10 q ltac:(lia) ltac:(lia)). nia.
Qed.

(** [10^p <= n / d] for [p = floor_log10 n d]. *)
Lemma floor_log10_le n d a b :
  0 < n -> 0 < d -> dec_scale n d (floor_log10 n d) = (a, b) -> b <= a.
Proof.
  intros Hn Hd. unfold floor_log10.
  set (p0 := ilog10 n - ilog10 d).
  destruct (dec_scale n d p0) as [a0 b0] eqn:E0.
  destruct (Z.leb_spec b0 a0) as [Hle|Hgt]; [rewrite E0; intros [= <- <-]; exact Hle|].
  pose proof (ilog10_spec n Hn) as (Hn0 & Hn1 & Hn2).
  pose proof (ilog10_spec d Hd) as (Hd0 & Hd1 & Hd2).
  rewrite Z.pow_add_r in Hn2, Hd2 by lia. change (10 ^ 1) with 10 in Hn2, Hd2.
  set (ln := ilog10 n) in *. set (ld := ilog10 d) in *.
  unfold dec_scale. destruct (Z.leb_spec (p0 - 1) 0); intros [= <- <-].
  - assert (E : 10 ^ ln * 10 ^ (- (p0 - 1)) = 10 * 10 ^ ld)
      by (rewrite <- Z.pow_succ_r, <- Z.pow_add_r by lia; f_equal; unfold p0; lia).
    pose proof (Z.pow_pos_nonneg 10 (- (p0 - 1)) ltac:(lia) ltac:(lia)). nia.
  - assert (E : 10 ^ ln = 10 * 10 ^ ld * 10 ^ (p0 - 1))
      by (rewrite <- Z.pow_succ_r, <- Z.pow_add_r by lia; f_equal; unfold p0; lia).
    pose proof (Z.pow_pos_nonneg 10 (p0 - 1) ltac:(lia) ltac:(lia)). nia.
Qed.
End Log10.

(** ** The seventeen-digit decimal nearest to a double rounds back to it *)

Section Nearest.
Local Open Scope Q_scope.

Lemma inject_Z_pos z : (0 < z)%Z -> 0 < inject_Z z.
Proof. intros H. now rewrite Zlt_Qlt in H. Qed.

Lemma inject_Z_nz z : (0 < z)%Z -> ~ inject_Z z == 0.
Proof. intros H E. pose proof (inject_Z_pos z H) as Hp. rewrite E in Hp. exact (Qlt_irrefl 0 Hp). Qed.

Lemma Qpow_nz r e : 0 < r -> ~ r ^ e == 0.
Proof. intros Hr E. pose proof (Qpower_0_lt r e Hr) as Hp. rewrite E in Hp. exact (Qlt_irrefl 0 Hp). Qed.

Lemma qv_scale (r n d e a b : Z) :
  (0 < r)%Z -> (0 < d)%Z ->
  (if (e <=? 0)%Z then (n * r ^ (- e), d) else (n, d * r ^ e))%Z = (a, b) ->
  qv a b == qv n d * inject_Z r ^ (- e).
Proof.
  intros Hr Hd. pose proof (inject_Z_pos r Hr) as Hr'.
  destruct (Z.leb_spec e 0); intros [= <- <-]; unfold qv;
    rewrite inject_Z_mult, Zpower_Qpower by lia.
  - field. now apply inject_Z_nz.
  - rewrite Qpower_opp. field. split; [now apply Qpow_nz | now apply inject_Z_nz].
Qed.

Lemma qv_den (a b : Z) : (0 < b)%Z -> inject_Z a == qv a b * inject_Z b.
Proof. intros Hb. unfold qv. field. now apply inject_Z_nz. Qed.

Lemma Qpow_inv (r : Q) (e : Z) : 0 < r -> r ^ e * r ^ (- e) == 1.
Proof. intros Hr. rewrite Qpower_opp. field. now apply Qpow_nz. Qed.


Lemma qv_1 (m : Z) : qv m 1 == inject_Z m.
Proof. unfold qv. field. Qed.

(** [|x - m| <= w / 2] for the scaled candidate [x], with [w * 10^16 <= m]:
    how close the nearest seventeen-digit decimal is, in units of the
    double's last place. *)
Lemma candidate_close (m e : Z) (n d sn sd a b c : Z) (q : Z) :
  (0 < m)%Z -> (0 < d)%Z -> (0 < sd)%Z -> (0 < b)%Z ->
  qv n d == inject_Z m * inject_Z 2 ^ e ->
  inject_Z 10 ^ (q + 16) <= qv n d ->
  qv sn sd == qv n d * inject_Z 10 ^ (- q) ->
  (2 * Z.abs (sn - sd * c) <= sd)%Z ->
  qv a b == inject_Z c * inject_Z 10 ^ q * inject_Z 2 ^ (- e) ->
  exists w, 0 < w /\ w * inject_Z (10 ^ 16) <= inject_Z m /\
    - w <= 2 * (qv a b - inject_Z m) <= w /\ 0 < inject_Z c.
Proof.
  intros Hm Hd Hsd Hb QV QP QS Hr QX.
  set (K := inject_Z 10 ^ q). set (Ki := inject_Z 10 ^ (- q)).
  set (P := inject_Z 2 ^ e). set (Pi := inject_Z 2 ^ (- e)).
  assert (HK : K * Ki == 1) by (apply Qpow_inv; reflexivity).
  assert (HP : P * Pi == 1) by (apply Qpow_inv; reflexivity).
  assert (K0 : 0 < K) by (apply Qpower_0_lt; reflexivity).
  assert (P0 : 0 < Pi) by (apply Qpower_0_lt; reflexivity).
  assert (H16 : inject_Z 10 ^ (q + 16) == inject_Z (10 ^ 16) * K)
    by (rewrite Qpower_plus, Zpower_Qpower by (discriminate || lia); unfold K; ring).
  (* the rounding of [sn / sd] to [c] *)
  assert (Hc : - (1 # 2) <= qv sn sd - inject_Z c <= 1 # 2).
  { assert (Hz : (- sd <= 2 * (sn - sd * c) <= sd)%Z) by lia.
    rewrite !Zle_Qle in Hz. unfold Z.sub in Hz.
    rewrite !inject_Z_mult, !inject_Z_plus, !inject_Z_opp, !inject_Z_mult in Hz.
    rewrite (qv_den sn sd Hsd) in Hz. pose proof (inject_Z_pos sd Hsd).
    change (inject_Z 2) with 2 in Hz. destruct Hz as [Hz1 Hz2]. split; nra. }
  set (W := K * Pi). exists W.
  assert (W0 : 0 < W) by (unfold W; nra).
  assert (HXm : qv a b - inject_Z m == W * (inject_Z c - qv sn sd)).
  { rewrite QX, QS, QV. unfold W.
    assert (E : inject_Z m == inject_Z m * (P * Pi) * (K * Ki)) by (rewrite HP, HK; ring).
    rewrite E at 1. unfold K, Ki, P, Pi. ring. }
  assert (Hm16 : W * inject_Z (10 ^ 16) <= inject_Z m).
  { rewrite H16, QV in QP.
    assert (QP' : inject_Z (10 ^ 16) * K * Pi <= inject_Z m * P * Pi)
      by (apply Qmult_le_compat_r; [exact QP | apply Qlt_le_weak, P0]).
    rewrite <- (Qmult_assoc (inject_Z m)), HP, Qmult_1_r in QP'.
    unfold W. setoid_replace (K * Pi * inject_Z (10 ^ 16)) with (inject_Z (10 ^ 16) * K * Pi)
      by ring. exact QP'. }
  assert (HcS : inject_Z (10 ^ 16) <= qv sn sd).
  { rewrite QS. rewrite H16 in QP. fold Ki.
    assert (Ki0 : 0 < Ki) by (apply Qpower_0_lt; reflexivity).
    assert (QP' : inject_Z (10 ^ 16) * K * Ki <= qv n d * Ki)
      by (apply Qmult_le_compat_r; [exact QP | apply Qlt_le_weak, Ki0]).
    rewrite <- Qmult_assoc, HK, Qmult_1_r in QP'. exact QP'. }
  split; [exact W0|]. split; [exact Hm16|].
  split; [rewrite HXm; destruct Hc; split; nra|].
  change (inject_Z (10 ^ 16)) with 10000000000000000 in HcS. destruct Hc. lra.
Qed.

Ltac zq :=
  rewrite ?Zlt_Qlt, ?Zle_Qle; unfold Z.sub;
  repeat first [rewrite inject_Z_plus | rewrite inject_Z_mult | rewrite inject_Z_opp];
  try change (inject_Z 2) with 2; try change (inject_Z 4) with 4.

(** A candidate at most [w / 2] from [m] in last places, with
    [w * 10^16 <= m < 2^53], is within half a gap of the double. *)
Lemma near_of_close (m e cn cd a b : Z) (w : Q) :
  (0 < b)%Z -> scale_frac cn cd e = (a, b) -> 0 < w ->
  w * inject_Z (10 ^ 16) <= inject_Z m -> (m < 2 ^ 53)%Z ->
  - w <= 2 * (qv a b - inject_Z m) <= w -> near cn cd m e.
Proof.
  intros Hb Ee W0 Hw Hm [H1 H2]. unfold near. rewrite Ee.
  pose proof (qv_den a b Hb) as QA. pose proof (inject_Z_pos b Hb) as B0.
  change (inject_Z (10 ^ 16)) with 10000000000000000 in Hw.
  rewrite Zlt_Qlt in Hm. change (inject_Z (2 ^ 53)) with 9007199254740992 in Hm.
  destruct ((m =? 2 ^ 52) && (-1074 <? e))%Z eqn:Hbd.
  - apply andb_true_iff in Hbd as [Hm52 _]. apply Z.eqb_eq in Hm52. subst m.
    change (inject_Z (2 ^ 52)) with 4503599627370496 in *.
    split; zq; rewrite QA; change (inject_Z (2 ^ 52)) with 4503599627370496; nra.
  - assert (- b < 2 * (a - m * b) < b)%Z; [|lia].
    split; zq; rewrite QA; nra.
Qed.

Lemma floor_log10_Q n d :
  (0 < n)%Z -> (0 < d)%Z -> inject_Z 10 ^ floor_log10 n d <= qv n d.
Proof.
  intros Hn Hd. destruct (dec_scale n d (floor_log10 n d)) as [a0 b0] eqn:E0.
  pose proof (floor_log10_le n d a0 b0 Hn Hd E0) as Hp.
  destruct (dec_scale_pos _ _ _ _ _ Hd E0) as [Hb0 _].
  pose proof (qv_scale 10 n d _ a0 b0 ltac:(lia) Hd E0) as QA.
  set (p := floor_log10 n d) in *.
  assert (H1 : 1 <= qv a0 b0).
  { rewrite Zle_Qle, (qv_den a0 b0 Hb0) in Hp. pose proof (inject_Z_pos b0 Hb0). nra. }
  rewrite QA in H1.
  assert (P0 : 0 < inject_Z 10 ^ p) by (apply Qpower_0_lt; reflexivity).
  assert (E : qv n d == qv n d * inject_Z 10 ^ (- p) * inject_Z 10 ^ p).
  { rewrite <- Qmult_assoc, (Qmult_comm (_ ^ (- p))), Qpow_inv by reflexivity. ring. }
  rewrite E. nra.
Qed.

(** The seventeen-digit decimal nearest to a positive double reads
    back as that double: the last place of a double is more than
    [10^16 / 2^53 > 1] of the decimal's last places. *)
Lemma nearest17 (f : float64) n d sn sd :
  pos_double f = true -> float_frac f = (n, d) ->
  dec_scale n d (floor_log10 n d - 16) = (sn, sd) ->
  (0 < div_round_even sn sd)%Z /\
  dec_to_float (div_round_even sn sd) (floor_log10 n d - 16) = f.
Proof.
  intros Hf Ef Es. destruct f as [m e].
  pose proof Hf as Hf'. unfold pos_double in Hf'. cbn [fm fe] in Hf'.
  repeat (rewrite ?andb_true_iff, ?orb_true_iff, ?Z.leb_le, ?Z.ltb_lt, ?Z.eqb_eq in Hf').
  assert (Hm : (0 < m < 2 ^ 53)%Z) by lia.
  unfold float_frac in Ef. cbn [fm fe] in Ef.
  destruct (scale_frac_pos m 1 (- e) n d ltac:(lia) Ef) as [Hd Hn]. specialize (Hn ltac:(lia)).
  pose proof (floor_log10_Q n d Hn Hd) as QP.
  set (p := floor_log10 n d) in *.
  destruct (dec_scale_pos _ _ _ _ _ Hd Es) as [Hsd _].
  pose proof (div_round_even_spec sn sd Hsd) as Hr.
  set (c := div_round_even sn sd) in *.
  unfold dec_to_float. destruct (dec_scale c 1 (- (p - 16))) as [cn cd] eqn:Ec.
  destruct (dec_scale_pos c 1 (- (p - 16)) cn cd ltac:(lia) Ec) as [Hcd Hcn].
  destruct (scale_frac cn cd e) as [a b] eqn:Ee.
  destruct (scale_frac_pos _ _ _ _ _ Hcd Ee) as [Hb _].
  assert (QV : qv n d == inject_Z m * inject_Z 2 ^ e).
  { rewrite (qv_scale 2 m 1 (- e) n d ltac:(lia) ltac:(lia) Ef), qv_1, Z.opp_involutive.
    reflexivity. }
  assert (QX : qv a b == inject_Z c * inject_Z 10 ^ (p - 16) * inject_Z 2 ^ (- e)).
  { rewrite (qv_scale 2 cn cd e a b ltac:(lia) Hcd Ee).
    rewrite (qv_scale 10 c 1 (- (p - 16)) cn cd ltac:(lia) ltac:(lia) Ec), qv_1.
    now rewrite Z.opp_involutive. }
  replace p with (p - 16 + 16)%Z in QP at 1 by lia.
  destruct (candidate_close m e n d sn sd a b c (p - 16) ltac:(lia) Hd Hsd Hb QV QP
              (qv_scale 10 n d _ sn sd ltac:(lia) Hd Es) Hr QX) as (w & W0 & Hw & Hclose & Hc0).
  assert (Hc : (0 < c)%Z) by (rewrite Zlt_Qlt; exact Hc0). split; [exact Hc|].
  apply div_pos_near_eq; [lia | lia | exact Hf |].
  exact (near_of_close m e cn cd a b w Hb Ee W0 Hw ltac:(lia) Hclose).
Qed.

End Nearest.

(** ** [float(repr(x)) == x] *)

Section RoundTrip.
Local Open Scope Z_scope.

Lemma dec_to_float_shift c q (j : nat) :
  0 < c -> dec_to_float (c * 10 ^ Z.of_nat j) (q - Z.of_nat j) = dec_to_float c q.
Proof.
  intros Hc. unfold dec_to_float, dec_scale.
  set (k := Z.of_nat j). assert (Hk : 0 <= k) by lia.
  destruct (Z.leb_spec (- q) 0), (Z.leb_spec (- (q - k)) 0).
  - f_equal. rewrite <- Z.mul_assoc, <- Z.pow_add_r by lia. do 2 f_equal. lia.
  - assert (P1 : 0 < 10 ^ (- (q - k))) by (apply Z.pow_pos_nonneg; lia).
    assert (P2 : 0 < 10 ^ (- - q)) by (apply Z.pow_pos_nonneg; lia).
    replace (c * 10 ^ k) with (10 ^ (- (q - k)) * (c * 10 ^ (- - q)))
      by (rewrite Z.mul_comm, <- Z.mul_assoc, <- Z.pow_add_r by lia; do 2 f_equal; lia).
    replace (1 * 10 ^ (- (q - k))) with (10 ^ (- (q - k)) * 1) by ring.
    apply div_pos_mul; nia.
  - lia.
  - assert (P1 : 0 < 10 ^ k) by (apply Z.pow_pos_nonneg; lia).
    assert (P2 : 0 < 10 ^ (- q)) by (apply Z.pow_pos_nonneg; lia).
    replace (1 * 10 ^ (- (q - k))) with (10 ^ k * (1 * 10 ^ (- q)))
      by (rewrite Z.mul_1_l, Z.mul_1_l, <- Z.pow_add_r by lia; f_equal; lia).
    rewrite (Z.mul_comm c). apply div_pos_mul; nia.
Qed.

Lemma strip_zeros_spec fuel c q :
  0 < c -> exists j : nat,
    c = fst (strip_zeros fuel c q) * 10 ^ Z.of_nat j /\
    snd (strip_zeros fuel c q) = q + Z.of_nat j /\ 0 < fst (strip_zeros fuel c q).
Proof.
  revert c q. induction fuel as [|fuel IH]; intros c q Hc; simpl.
  - exists 0%nat. simpl. repeat split; lia.
  - destruct ((0 <? c) && (c mod 10 =? 0)) eqn:Ez; [|exists 0%nat; simpl; repeat split; lia].
    apply andb_true_iff in Ez as [_ Hz]. apply Z.eqb_eq in Hz.
    assert (Hc10 : 0 < c / 10) by (pose proof (Z.div_mod c 10); lia).
    destruct (IH (c / 10) (q + 1) Hc10) as (j & E1 & E2 & E3). exists (S j).
    rewrite Nat2Z.inj_succ, Z.pow_succ_r by lia.
    pose proof (Z.div_mod c 10 ltac:(lia)). repeat split; lia.
Qed.

Lemma strip_zeros_value fuel c q :
  0 < c -> 0 < fst (strip_zeros fuel c q) /\
  dec_to_float (fst (strip_zeros fuel c q)) (snd (strip_zeros fuel c q)) = dec_to_float c q.
Proof.
  intros Hc. destruct (strip_zeros_spec fuel c q Hc) as (j & E1 & E2 & E3).
  destruct (strip_zeros fuel c q) as [c' q'] eqn:Es; simpl in *. split; [exact E3|].
  clear Es. subst c. replace q with (q' - Z.of_nat j) by lia. symmetry. now apply dec_to_float_shift.
Qed.

Lemma div_round_even_cases a b : div_round_even a b = a / b \/ div_round_even a b = a / b + 1.
Proof.
  unfold div_round_even. destruct (2 * (a mod b) <? b); [now left|].
  destruct (b <? 2 * (a mod b)); [now right|]. destruct (Z.even (a / b)); auto.
Qed.

Lemma float64_eqb_eq f g : float64_eqb f g = true -> f = g.
Proof.
  destruct f, g. unfold float64_eqb. simpl. intros [H1 H2]%andb_true_iff.
  apply Z.eqb_eq in H1, H2. now subst.
Qed.

(** A candidate the search accepts reads back as the double. *)
Lemma first_digits_ok f n d p ks c q :
  first_digits f n d p ks = Some (c, q) -> 0 < c /\ dec_to_float c q = f.
Proof.
  induction ks as [|k ks IH]; simpl; [discriminate|].
  destruct (digits_at f n d p k) eqn:Ed; [intros [= ->] | exact IH].
  unfold digits_at in Ed. destruct (dec_scale n d (p + 1 - k)) as [sn sd].
  destruct ((0 <? sn / sd) && float64_eqb (dec_to_float (sn / sd) (p + 1 - k)) f) eqn:G1,
    ((0 <? sn / sd + 1) && float64_eqb (dec_to_float (sn / sd + 1) (p + 1 - k)) f) eqn:G2;
    try discriminate; injection Ed as <- <-;
    [destruct (div_round_even_cases sn sd) as [->| ->] | |];
    match goal with
    | G : (0 <? ?x) && _ = true |- 0 < ?x /\ _ =>
        apply andb_true_iff in G as [G G']; apply Z.ltb_lt in G;
        split; [exact G | now apply float64_eqb_eq]
    end.
Qed.

(** The digits of a positive double read back as that double. *)
Lemma shortest_digits_ok f c q :
  pos_double f = true -> shortest_digits f = (c, q) -> 0 < c /\ dec_to_float c q = f.
Proof.
  intros Hf. unfold shortest_digits.
  destruct (float_frac f) as [n d] eqn:Ef.
  set (p := floor_log10 n d).
  destruct (first_digits f n d p (map Z.of_nat (seq 1 17))) as [[c0 q0]|] eqn:Es;
    [apply first_digits_ok in Es as [Hc0 Hv] |].
  - intros E. pose proof (strip_zeros_value 20 c0 q0 Hc0) as [H1 H2].
    rewrite E in H1, H2. cbn [fst snd] in H1, H2. split; [exact H1 | now rewrite H2].
  - destruct (dec_scale n d (p - 16)) as [sn sd] eqn:Ed.
    destruct (nearest17 f n d sn sd Hf Ef Ed) as [Hc0 Hv].
    intros E. pose proof (strip_zeros_value 20 _ (p - 16) Hc0) as [H1 H2].
    rewrite E in H1, H2. cbn [fst snd] in H1, H2. split; [exact H1 | now rewrite H2].
Qed.

Lemma all_chars_impl (p p' : ascii -> bool) s :
  (forall a, p a = true -> p' a = true) -> all_chars p s = true -> all_chars p' s = true.
Proof.
  intros Hp. induction s as [|a s IH]; simpl; [reflexivity|].
  intros [Ha Hs]%andb_true_iff. now rewrite Hp, IH.
Qed.

Lemma digits_repr_chars s : all_chars is_digit s = true -> all_chars repr_char s = true.
Proof. apply all_chars_impl. intros a Ha. unfold repr_char. now rewrite Ha. Qed.

Lemma repr_chars_exp_text x : all_chars repr_char (exp_text x) = true.
Proof.
  unfold exp_text. rewrite !all_chars_app, (digits_repr_chars (py_str_int (Z.abs x)))
    by (apply index_line_digits, py_str_int_index; lia).
  now destruct (x <? 0), (Z.abs x <? 10).
Qed.

Lemma repr_digits_chars c q : 0 < c -> all_chars repr_char (repr_digits c q) = true.
Proof.
  intros Hc. unfold repr_digits.
  pose proof (index_line_digits _ (py_str_int_index c ltac:(lia))) as Hd.
  set (ds := py_str_int c) in *.
  assert (Hs : forall i k, all_chars repr_char (substring i k ds) = true)
    by (intros; apply digits_repr_chars, all_chars_substring, Hd).
  assert (Hz : forall k, all_chars repr_char (zeros k) = true)
    by (intros; apply digits_repr_chars, zeros_digits).
  destruct (_ || _); [|destruct (_ <=? 0); [|destruct (_ <? _)]];
    rewrite ?all_chars_app, ?Hs, ?Hz, ?repr_chars_exp_text, ?(digits_repr_chars ds Hd);
    try reflexivity. destruct (1 <? _); simpl; now rewrite ?Hs.
Qed.

Lemma head_digit_app a b : head_digit a = true -> head_digit (a ++ b) = true.
Proof. now destruct a. Qed.

Lemma repr_digits_head c q : 0 < c -> head_digit (repr_digits c q) = true.
Proof.
  intros Hc. unfold repr_digits.
  pose proof (py_str_int_index c ltac:(lia)) as Hi.
  set (ds := py_str_int c) in *.
  assert (Hh : forall t, (1 <= t)%nat -> head_digit (substring 0 t ds) = true).
  { intros t Ht. destruct ds as [|a s]; [discriminate|]. destruct t; [lia|].
    unfold is_index_line in Hi. simpl in *. now apply andb_true_iff in Hi as [Ha _]. }
  destruct (_ || _); [apply head_digit_app, Hh; lia|].
  destruct (_ <=? 0) eqn:H0; [reflexivity|].
  destruct (_ <? _); apply head_digit_app; [apply Hh; apply Z.leb_gt in H0; lia|].
  destruct ds as [|a s]; [discriminate|]. unfold is_index_line in Hi. simpl in *.
  now apply andb_true_iff in Hi as [Ha _].
Qed.

Lemma repr_char_not_space a : repr_char a = true -> negb (PyInt.is_space a) = true.
Proof.
  unfold repr_char. intros H. repeat (apply orb_true_iff in H as [H|H]);
    [now rewrite PyInt.digit_not_space | ..]; apply Ascii.eqb_eq in H; now subst.
Qed.

Lemma repr_char_clean s : all_chars repr_char s = true -> clean s = true.
Proof.
  intros Hs. unfold clean, no_char. apply andb_true_iff. split;
    revert Hs; apply all_chars_impl; intros a Ha; unfold not_char;
    unfold repr_char in Ha; repeat (apply orb_true_iff in Ha as [Ha|Ha]);
    try (apply Ascii.eqb_eq in Ha; subst; reflexivity);
    match goal with
    | |- negb (Ascii.eqb a ?c) = true =>
        destruct (Ascii.eqb_spec a c); [subst; discriminate | reflexivity]
    end.
Qed.

Lemma split_sign_head s : head_digit s = true -> PyInt.split_sign s = (false, s).
Proof.
  destruct s as [|a s]; [discriminate|]. simpl. intros Ha.
  destruct (Ascii.eqb_spec a "-"); [subst; discriminate|].
  destruct (Ascii.eqb_spec a "+"); [subst; discriminate | reflexivity].
Qed.

Lemma PyFloat_eq x y : fneg x = fneg y -> fmag x = fmag y -> x = y.
Proof.
  destruct x as [n f H], y as [n' f' H']; simpl. intros <- <-.
  f_equal. apply Eqdep_dec.UIP_dec, Bool.bool_dec.
Qed.

Lemma of_float64_ok x : of_float64 (fneg x) (fmag x) = Some x.
Proof.
  unfold of_float64. destruct (Sumbool.sumbool_of_bool (is_double (fmag x))) as [H|H].
  - f_equal. now apply PyFloat_eq.
  - rewrite (fmag_ok x) in H. discriminate.
Qed.

(** The body [str] prints after the sign, and how it reads back. *)
Lemma py_str_float_body x :
  exists body, py_str_float x = (if fneg x then "-" else "") ++ body /\
    head_digit body = true /\ all_chars repr_char body = true /\
    match parse_body body with Some (c, q) => make_float (fneg x) c q | None => None end = Some x.
Proof.
  pose proof (fmag_ok x) as Hok. unfold py_str_float.
  destruct (Z.eqb_spec (fm (fmag x)) 0) as [H0|H0].
  - exists "0.0"%string. repeat split; [reflexivity..|].
    change (parse_body "0.0") with (Some (0, -1)). cbn [make_float Z.eqb]. f_equal.
    apply PyFloat_eq; [reflexivity|]. unfold is_double, pos_double in Hok.
    destruct (fmag x) as [m e]; simpl in *. subst m.
    destruct (Z.eqb_spec e 0); [now subst | discriminate].
  - assert (Hp : pos_double (fmag x) = true).
    { unfold is_double in Hok. apply Z.eqb_neq in H0. rewrite H0 in Hok. simpl in Hok.
      now apply andb_true_iff in Hok as [Hok _]. }
    destruct (shortest_digits (fmag x)) as [c q] eqn:Es.
    destruct (shortest_digits_ok _ _ _ Hp Es) as [Hc Hv].
    exists (repr_digits c q). split; [reflexivity|].
    split; [now apply repr_digits_head|]. split; [now apply repr_digits_chars|].
    destruct (repr_digits_parse c q Hc) as [j ->].
    unfold make_float. rewrite dec_to_float_shift, Hv by exact Hc.
    replace (c * 10 ^ Z.of_nat j =? 0) with false by (symmetry; apply Z.eqb_neq; nia).
    apply Z.eqb_neq in H0. rewrite H0. apply of_float64_ok.
Qed.

(** [float(str(x)) == x], and [str(x)] holds no tab or newline. *)
Lemma float_of_string_str x : float_of_string (py_str_float x) = Some x.
Proof.
  destruct (py_str_float_body x) as (body & -> & Hh & Hc & Hp).
  unfold float_of_string. rewrite PyInt.strip_id.
  - destruct (fneg x); [|rewrite split_sign_head by exact Hh]; exact Hp.
  - apply (all_chars_impl repr_char); [exact repr_char_not_space|].
    rewrite all_chars_app, Hc. now destruct (fneg x).
Qed.

Lemma py_str_float_clean x : clean (py_str_float x) = true.
Proof.
  destruct (py_str_float_body x) as (body & -> & _ & Hc & _).
  apply repr_char_clean. rewrite all_chars_app, Hc. now destruct (fneg x).
Qed.

Lemma float64_eqb_refl f : float64_eqb f f = true.
Proof. unfold float64_eqb. now rewrite !Z.eqb_refl. Qed.

(** At seventeen digits one of the two candidates reads back. *)
Lemma digits_at_17 f n d :
  pos_double f = true -> float_frac f = (n, d) ->
  exists cq, digits_at f n d (floor_log10 n d) 17 = Some cq.
Proof.
  intros Hf Ef. unfold digits_at.
  replace (floor_log10 n d + 1 - 17) with (floor_log10 n d - 16) by lia.
  destruct (dec_scale n d (floor_log10 n d - 16)) as [sn sd] eqn:Es.
  destruct (nearest17 f n d sn sd Hf Ef Es) as [Hc Hv].
  destruct (div_round_even_cases sn sd) as [E|E]; rewrite E in Hc, Hv;
    rewrite (proj2 (Z.ltb_lt _ _) Hc), Hv, float64_eqb_refl; simpl;
    destruct (_ && _); eexists; reflexivity.
Qed.

Lemma first_digits_In f n d p k ks :
  In k ks -> (exists cq, digits_at f n d p k = Some cq) ->
  exists cq, first_digits f n d p ks = Some cq.
Proof.
  intros Hk [cq Hcq]. induction ks as [|k' ks IH]; [contradiction|]. simpl.
  destruct (digits_at f n d p k') as [cq'|] eqn:E; [now exists cq'|].
  destruct Hk as [->|Hk]; [congruence | exact (IH Hk)].
Qed.
End RoundTrip.

#[export] Instance PyStrInv_PyFloat : PyStrInv PyFloat := {
  py_parse := float_of_string;
  py_parse_str := float_of_string_str;
  py_str_clean := py_str_float_clean
}.

(** Spec section 8: the serializer on the single frame
    [{"root": [0.0, 1.5, -2.25]}] produces exactly
    [":FULLY-SPECIFIED\n:DEGREES\n1\nroot\t0.0\t1.5\t-2.25\n"]. *)
Example parseToAmc_root_example :
  Serializer.parseToAmc [root_frame] =
  ":FULLY-SPECIFIED" ++ NL ++ ":DEGREES" ++ NL ++ "1" ++ NL ++
  "root" ++ TAB ++ "0.0" ++ TAB ++ "1.5" ++ TAB ++ "-2.25" ++ NL.
Proof. vm_compute. reflexivity. Qed.

(** C39: [float(str(x)) == x] where the program writes floats: the text
    [emit_values] appends for a bone, its name then [TAB str(v)] for
    each channel value (amccrop.py lines 30-31), is read back as exactly
    those doubles, with their signs, for every bone name without a
    separator and every list of finite floats. *)
Theorem py_float_roundtrip (key : string) (value : list PyFloat) :
  clean key = true -> Serializer.parse_bone (Serializer.emit_values key value) = Some (key, value).
Proof.
  intros Hk. rewrite Serializer.emit_values_spec. unfold Serializer.parse_bone.
  rewrite split_on_app_no_char by now apply no_tab_of_clean.
  rewrite Serializer.split_on_values_text, sapp_nil_r. cbn [option_map].
  now rewrite Serializer.parse_values_map.
Qed.

(** [str] agrees with CPython on the edge cases of its format: the
    switch to exponent notation at [1e16] and [1e-5], the shortest
    digits of [0.1] and [1/3], [-0.0], and the least subnormal. *)
Example py_str_float_examples :
  map py_str_float [float_lit "1e16"; float_lit "1e15"; float_lit "0.00001";
                    float_lit "0.0001"; float_lit "0.1"; float_lit "0.3333333333333333";
                    float_lit "-0.0"; float_lit "5e-324"; float_lit "123.456e2"] =
  ["1e+16"; "1000000000000000.0"; "1e-05"; "0.0001"; "0.1"; "0.3333333333333333";
   "-0.0"; "5e-324"; "12345.6"].
Proof. vm_compute. reflexivity. Qed.

(** The digit search of [str(float)] terminates within its bound:
    for every positive double one of the lengths 1 to 17 gives a
    decimal that reads back as the double, so [_Py_dg_dtoa]'s search
    never falls through, and the digits it finds are a positive
    decimal of the double. *)
Theorem shortest_search_terminates (f : float64) (n d : Z) :
  pos_double f = true -> float_frac f = (n, d) ->
  exists c q, first_digits f n d (floor_log10 n d) (map Z.of_nat (seq 1 17)) = Some (c, q) /\
              (0 < c)%Z /\ dec_to_float c q = f.
Proof.
  intros Hf Ef.
  destruct (first_digits_In f n d (floor_log10 n d) 17 (map Z.of_nat (seq 1 17)))
    as [[c q] Hs]; [simpl; tauto | exact (digits_at_17 f n d Hf Ef) |].
  exists c, q. split; [exact Hs|]. exact (first_digits_ok _ _ _ _ _ _ _ Hs).
Qed.

(** [0.1] is [7205759403792794 * 2^-56]. *)
Lemma shortest_search_terminates_witness :
  pos_double (mkFloat 7205759403792794 (-56)) = true /\
  exists c q, first_digits (mkFloat 7205759403792794 (-56)) 7205759403792794 (2 ^ 56)
                (floor_log10 7205759403792794 (2 ^ 56)) (map Z.of_nat (seq 1 17)) = Some (c, q) /\
              (0 < c)%Z /\ dec_to_float c q = mkFloat 7205759403792794 (-56).
Proof.
  assert (Hf : pos_double (mkFloat 7205759403792794 (-56)) = true) by reflexivity.
  split; [exact Hf|]. apply shortest_search_terminates; [exact Hf | reflexivity].
Defined.

Lemma py_float_roundtrip_witness :
  clean "root" = true /\
  Serializer.parse_bone (Serializer.emit_values "root" [float_lit "1.5"; float_lit "-0.0"]) =
    Some ("root"%string, [float_lit "1.5"; float_lit "-0.0"]).
Proof.
  assert (Hk : clean "root" = true) by reflexivity.
  split; [exact Hk | exact (py_float_roundtrip "root" _ Hk)].
Defined.

End FloatRepr.
