(* ===== verification/Crop.v ===== *)
(** * Crop: the main script, [SaveAmc] and the crop orchestration

    src/amccrop/__main__.py (and the identical [if __name__ == "__main__"]
    block of src/amccrop/amccrop.py) parses the input file, validates the
    request, slices [amc.amc.frames[startFrame:endFrame]], serializes
    the slice and saves it.  [crop_main] is that script as a program of
    the store monad [io] of FileSystem.v, so the only write is the one
    [SaveAmc] does, and an exception keeps the store it was raised in.
    The upstream parser is the section parameter [parse_amc_text] (the
    [.amc] object [asfamcparser.ParseAMC] builds from a file's text);
    [amc_of_text] is a reference parser used to run concrete cases.
    [SaveAmc] fails as [open] does: on a missing directory or a regular
    file on the way to the output path, or a directory at it; each run
    keeps the store a tree ([crop_main_wf]). *)

From Stdlib Require Import String Ascii List ZArith Lia Bool.
From S2P Require Import Prelude PyRuntime FileSystem Validator Serializer PyFloat.
Import ListNotations.
Import CheckArgs Serializer FloatRepr.

Module Crop.

Section Script.
Context {F : Type} `{FileSystem F} {V : Type} `{PyStr V}.

(** What the upstream parser makes of a file's text. *)
Context (parse_amc_text : string -> result (Amc (@Frame V))).

Local Open Scope io_scope.

(** [ParseAMC(path)]: read the file, then parse it. *)
Definition ParseAMC (path : string) : io F (Amc (@Frame V)) :=
  txt <- io_read (fun fs => read_text fs path) ;;
  io_read (fun _ => parse_amc_text txt).

(** [SaveAmc(filename, file)]: [open(f"{filename}.amc", "w").write(file)]. *)
Definition SaveAmc (filename file : string) : io F unit :=
  write_textM (filename ++ ".amc")%string file.

(** The script after argument parsing. *)
Definition crop_main (args : Args) : io F unit :=
  amc <- ParseAMC (input args ++ ".amc")%string ;;
  ok <- io_read (fun fs => CheckArgs fs args amc) ;;
  if ok then
    let startFrame := (start args * framerate args)%Z in
    let endFrame := (end_ args * framerate args)%Z in
    let croppedFrames := py_slice (frames amc) startFrame endFrame in
    let amcFile := parseToAmc croppedFrames in
    SaveAmc (output args) amcFile
  else io_ret tt.
End Script.

(** A reference parser of the AMC text the tool writes: the frames read
    back, and their number as the count. *)
Definition amc_of_text {V : Type} `{PyStrInv V} (s : string) : result (Amc (@Frame V)) :=
  match read_amc s with
  | Some blocks => Ok (mkAmc (map snd blocks) (Z.of_nat (length blocks)))
  | None => Err (AmcParseError s)
  end.

(** ** Concrete runs

    A store holding [walk.amc], the serialization of [n] copies of the
    spec's example frame; [walk_amc n] is what the reference parser
    reads from it.  [long_store n] holds [n] frames without bones (the
    spec's 900-frame examples only need the count). *)

Definition walk_frames (n : nat) : list (@Frame PyFloat) := repeat root_frame n.
Definition walk_text (n : nat) : string := parseToAmc (walk_frames n).
Definition walk_amc (n : nat) : Amc (@Frame PyFloat) := mkAmc (walk_frames n) (Z.of_nat n).
Definition walk_store (n : nat) := fs_of_list [("walk.amc"%string, RegularFile (walk_text n))].
Definition long_frames (n : nat) : list (@Frame PyFloat) := repeat [] n.
Definition long_text (n : nat) : string := parseToAmc (long_frames n).
Definition long_amc (n : nat) : Amc (@Frame PyFloat) := mkAmc (long_frames n) (Z.of_nat n).
Definition long_store (n : nat) := fs_of_list [("walk.amc"%string, RegularFile (long_text n))].
Definition small_args : Args := mkArgs "walk" "out" 2 0 1.
Definition dir_store :=
  fs_of_list [("walk.amc"%string, RegularFile (walk_text 30)); ("out.amc"%string, Directory)].

(** ** The script's behaviour *)

Section Proofs.
Context {F : Type} `{FileSystemLaws F} {V : Type} `{PyStr V}.
Context (parse_amc_text : string -> result (Amc (@Frame V))).
Implicit Types (fs : F) (args : Args).

(** The frames the script keeps: [frames[start*fps : end*fps]]. *)
Definition cropped (args : Args) (amc : Amc (@Frame V)) : list (@Frame V) :=
  py_slice (frames amc) (start args * framerate args) (end_ args * framerate args).

(** The script as one decision: read, parse, check, write. *)
Lemma crop_main_eq fs args :
  crop_main parse_amc_text args fs =
  match read_text fs (input args ++ ".amc") with
  | Err e => (fs, Err e)
  | Ok txt =>
      match parse_amc_text txt with
      | Err e => (fs, Err e)
      | Ok amc =>
          match CheckArgs fs args amc with
          | Err e => (fs, Err e)
          | Ok ok =>
              if ok then
                match write_text fs (out_path args) (parseToAmc (cropped args amc)) with
                | Ok fs' => (fs', Ok tt)
                | Err e => (fs, Err e)
                end
              else (fs, Ok tt)
          end
      end
  end.
Proof.
  unfold crop_main, ParseAMC, SaveAmc, io_bind, io_read, io_ret, write_textM.
  destruct (read_text fs _); [|reflexivity].
  destruct (parse_amc_text _); [|reflexivity].
  destruct (CheckArgs fs args _) as [[]|]; reflexivity.
Qed.

Lemma CheckArgs_Ok_true fs args (amc : Amc (@Frame V)) b :
  CheckArgs fs args amc = Ok b -> b = true.
Proof. now intros [-> _]%CheckArgs_Ok_guard. Qed.

Lemma crop_main_Ok_cases fs args fs' :
  crop_main parse_amc_text args fs = (fs', Ok tt) <->
  exists txt amc,
    read_text fs (input args ++ ".amc") = Ok txt /\ parse_amc_text txt = Ok amc /\
    CheckArgs fs args amc = Ok true /\ writable fs (out_path args) /\
    fs' = fs_put fs (out_path args) (parseToAmc (cropped args amc)).
Proof.
  rewrite crop_main_eq. split.
  - destruct (read_text _ _) as [txt|]; [|discriminate].
    destruct (parse_amc_text txt) as [amc|] eqn:Hp; [|discriminate].
    destruct (CheckArgs fs args amc) as [b|] eqn:Hc; [|discriminate].
    rewrite (CheckArgs_Ok_true _ _ _ _ Hc) in Hc |- *.
    destruct (write_text _ _ _) eqn:Hw; [|discriminate]. intros Hr; inv Hr.
    apply write_text_Ok in Hw as [-> Hd]. now exists txt, amc.
  - intros (txt & amc & -> & -> & -> & Hd & ->). now rewrite write_text_writable.
Qed.

(** C11: the script returns normally exactly when the input file reads,
    parses, passes [CheckArgs] and [open] can write the output path (its
    directories exist and it is no directory); the
    store is then the old one with [<output>.amc] holding the
    serialization of [frames[start*fps : end*fps]]. *)
Theorem crop_main_Ok fs args fs' :
  crop_main parse_amc_text args fs = (fs', Ok tt) <->
  exists txt amc,
    read_text fs (input args ++ ".amc") = Ok txt /\ parse_amc_text txt = Ok amc /\
    CheckArgs fs args amc = Ok true /\ writable fs (out_path args) /\
    fs' = fs_put fs (out_path args) (parseToAmc (cropped args amc)).
Proof. apply crop_main_Ok_cases. Qed.

Lemma crop_main_Err_same fs args e :
  snd (crop_main parse_amc_text args fs) = Err e ->
  fst (crop_main parse_amc_text args fs) = fs.
Proof.
  rewrite crop_main_eq.
  destruct (read_text _ _) as [txt|]; [|reflexivity].
  destruct (parse_amc_text txt) as [amc|]; [|reflexivity].
  destruct (CheckArgs fs args amc) as [[]|]; [|reflexivity..].
  destruct (write_text _ _ _); [discriminate | reflexivity].
Qed.

(** C12: no partial output (spec section 7): whenever the script raises,
    the store is exactly the one it started with. *)
Theorem crop_main_Err_store fs args e :
  snd (crop_main parse_amc_text args fs) = Err e ->
  fst (crop_main parse_amc_text args fs) = fs.
Proof. apply crop_main_Err_same. Qed.

(** Every run keeps the store a tree: a raise leaves it as it was, and
    the one write [open] accepted keeps every entry reachable. *)
Lemma crop_main_wf fs args fs' r :
  fs_wf fs -> crop_main parse_amc_text args fs = (fs', r) -> fs_wf fs'.
Proof.
  intros Hwf Hrun. destruct r as [[]|e].
  - apply crop_main_Ok_cases in Hrun as (? & ? & _ & _ & _ & Hw & ->).
    exact (write_text_wf _ _ _ _ Hwf (write_text_writable _ _ _ Hw)).
  - pose proof (crop_main_Err_same fs args e) as Hs. rewrite Hrun in Hs.
    simpl in Hs. rewrite Hs by reflexivity. exact Hwf.
Qed.

(** C13: the script never overwrites: every regular file of the store,
    the input among them, is left exactly as it was, whatever the run
    does. *)
Theorem crop_main_keeps_files fs args q :
  is_file fs q = true ->
  fs_lookup (fst (crop_main parse_amc_text args fs)) q = fs_lookup fs q.
Proof.
  intros Hq. destruct (crop_main parse_amc_text args fs) as [fs' r] eqn:Hrun.
  destruct r as [[]|e]; simpl.
  - apply crop_main_Ok_cases in Hrun as (txt & amc & _ & _ & Hc & _ & ->).
    apply CheckArgs_Ok_guard in Hc as (_ & _ & Hout & _).
    apply fs_lookup_put_ne. intros <-. congruence.
  - pose proof (crop_main_Err_same fs args e) as Hs. rewrite Hrun in Hs.
    simpl in Hs. now rewrite Hs.
Qed.

Lemma cropped_firstn_skipn fs args (amc : Amc (@Frame V)) b :
  CheckArgs fs args amc = Ok b ->
  cropped args amc =
  firstn (Z.to_nat (end_ args * framerate args) - Z.to_nat (start args * framerate args))
         (skipn (Z.to_nat (start args * framerate args)) (frames amc)).
Proof.
  intros Hc. apply CheckArgs_Ok_slice in Hc.
  unfold cropped. apply py_slice_nonneg; lia.
Qed.

(** C14: after an approval the script keeps exactly the frames from
    index [start*fps] up to [end*fps] (exclusive), truncated at the end
    of the animation: the slice [frames[start*fps : end*fps]] never
    wraps around or counts from the end. *)
Theorem cropped_approved fs args (amc : Amc (@Frame V)) b :
  CheckArgs fs args amc = Ok b ->
  cropped args amc =
  firstn (Z.to_nat (end_ args * framerate args) - Z.to_nat (start args * framerate args))
         (skipn (Z.to_nat (start args * framerate args)) (frames amc)).
Proof. apply cropped_firstn_skipn. Qed.

(** C15: the number of frames written after an approval: at most
    [(end - start) * fps], and exactly that many when the animation has
    [end * fps] frames; fewer, silently, when it has not (spec 4.3). *)
Theorem cropped_length fs args (amc : Amc (@Frame V)) b :
  CheckArgs fs args amc = Ok b ->
  length (cropped args amc) =
  Nat.min (Z.to_nat (end_ args * framerate args)) (length (frames amc))
  - Z.to_nat (start args * framerate args).
Proof.
  intros Hc. rewrite (cropped_firstn_skipn fs args amc b Hc).
  rewrite length_firstn, length_skipn. lia.
Qed.

(** C10: the slice may be empty: when [CheckArgs] approves a request
    whose first frame [start * fps] lies at or past the end of the
    frames (a rate above 30 with a start second near the end), the
    script writes a document with the two header lines and no frame. *)
Theorem crop_main_empty_crop fs args txt amc :
  read_text fs (input args ++ ".amc") = Ok txt -> parse_amc_text txt = Ok amc ->
  CheckArgs fs args amc = Ok true -> writable fs (out_path args) ->
  (Z.of_nat (length (frames amc)) <= start args * framerate args)%Z ->
  crop_main parse_amc_text args fs = (fs_put fs (out_path args) amc_header, Ok tt).
Proof.
  intros Hr Hp Hc Hw Hl. pose proof (CheckArgs_Ok_guard _ _ _ _ Hc) as (_ & _ & _ & Hf & Hs).
  apply crop_main_Ok_cases. exists txt, amc. do 4 (split; [assumption|]).
  rewrite (cropped_firstn_skipn _ _ _ _ Hc), skipn_all2 by lia. now rewrite firstn_nil.
Qed.

(** C16: spec section 8, first example: with 900 frames counted, rate
    30, seconds 5 to 20, an absent output file, the script approves and
    writes the serialization of raw frames [150, 600). *)
Theorem crop_spec_example_approve fs txt amc :
  read_text fs "walk.amc" = Ok txt -> parse_amc_text txt = Ok amc ->
  count amc = 900%Z -> fs_lookup fs "out.amc" = None ->
  crop_main parse_amc_text (mkArgs "walk" "out" 30 5 20) fs =
  (fs_put fs "out.amc" (parseToAmc (firstn 450 (skipn 150 (frames amc)))), Ok tt).
Proof.
  intros Hr Hp Hn Hout.
  assert (Hc : CheckArgs fs (mkArgs "walk" "out" 30 5 20) amc = Ok true).
  { apply CheckArgs_Ok_cases; [rewrite Hn; lia|]. unfold is_file.
    change (out_path (mkArgs "walk" "out" 30 5 20)) with "out.amc". simpl. rewrite Hout, Hn.
    repeat split; (discriminate || lia || reflexivity). }
  apply crop_main_Ok_cases. exists txt, amc. do 3 (split; [assumption|]). split.
  - change (out_path (mkArgs "walk" "out" 30 5 20)) with "out.amc".
    split; [reflexivity | now rewrite Hout].
  - now rewrite (cropped_firstn_skipn _ _ _ _ Hc).
Qed.

(** Spec section 8, second example: with 900 frames counted and
    rate 30, the seconds 10 to 40 are refused because 40 exceeds
    [900/30 = 30]: the end-range [ValueError], nothing written. *)
Theorem crop_spec_example_reject fs txt amc :
  read_text fs "walk.amc" = Ok txt -> parse_amc_text txt = Ok amc ->
  count amc = 900%Z -> is_file fs "out.amc" = false ->
  crop_main parse_amc_text (mkArgs "walk" "out" 30 10 40) fs = (fs, Err (ValueError msg_end)).
Proof.
  intros Hr Hp Hn Hout. rewrite crop_main_eq.
  change (input (mkArgs "walk" "out" 30 10 40) ++ ".amc")%string with "walk.amc".
  rewrite Hr, Hp, CheckArgs_spec_eq by (rewrite Hn; lia).
  change (out_path (mkArgs "walk" "out" 30 10 40)) with "out.amc".
  now rewrite Hout, Hn.
Qed.

(** C18: the input is read and parsed before anything is checked: when
    the input file cannot be read, the script raises the reading error,
    even for equal stems, and writes nothing. *)
Theorem crop_main_read_first fs args e :
  read_text fs (input args ++ ".amc") = Err e ->
  crop_main parse_amc_text args fs = (fs, Err e).
Proof. intros Hr. now rewrite crop_main_eq, Hr. Qed.

(** C19: an output path that is a directory passes [CheckArgs] (it is
    not a regular file), so a request otherwise valid fails only in
    [SaveAmc], with [IsADirectoryError], and leaves the store unchanged. *)
Theorem crop_main_output_directory fs args txt amc :
  read_text fs (input args ++ ".amc") = Ok txt -> parse_amc_text txt = Ok amc ->
  walk_dirs fs (out_path args) (dir_prefixes (out_path args)) = Ok tt ->
  fs_lookup fs (out_path args) = Some Directory ->
  input args <> output args -> (0 < framerate args)%Z -> (0 <= start args)%Z ->
  (start args < end_ args)%Z -> (end_ args * 30 <= count amc < 30 * 2 ^ 49)%Z ->
  crop_main parse_amc_text args fs = (fs, Err (IsADirectoryError (out_path args))).
Proof.
  intros Hr Hp Hw Hd Hne Hfps Hs Hse He.
  assert (Hc : CheckArgs fs args amc = Ok true).
  { apply CheckArgs_Ok_cases; [lia|]. unfold is_file. rewrite Hd.
    repeat split; (assumption || reflexivity || lia). }
  rewrite crop_main_eq, Hr, Hp, Hc. unfold write_text. now rewrite Hw, Hd.
Qed.


(** C20: two frame rates (spec section 9): the bounds are checked
    against a fixed 30 samples per second, the slice uses the given
    rate.  At 60 fps, a 900-frame animation (15 s) asked for seconds
    0 to 30 is approved, and the script writes all 900 frames where
    30 s at 60 fps would be 1800: the crop is silently shorter. *)
Theorem crop_two_rates_truncates fs txt amc :
  read_text fs "walk.amc" = Ok txt -> parse_amc_text txt = Ok amc ->
  count amc = 900%Z -> length (frames amc) = 900%nat -> fs_lookup fs "out.amc" = None ->
  crop_main parse_amc_text (mkArgs "walk" "out" 60 0 30) fs =
  (fs_put fs "out.amc" (parseToAmc (frames amc)), Ok tt) /\
  (length (frames amc) < Z.to_nat ((30 - 0) * 60))%nat.
Proof.
  intros Hr Hp Hn Hlen Hout. split; [|rewrite Hlen; simpl; lia].
  assert (Hc : CheckArgs fs (mkArgs "walk" "out" 60 0 30) amc = Ok true).
  { apply CheckArgs_Ok_cases; [rewrite Hn; lia|]. unfold is_file.
    change (out_path (mkArgs "walk" "out" 60 0 30)) with "out.amc". simpl. rewrite Hout, Hn.
    repeat split; (discriminate || lia || reflexivity). }
  apply crop_main_Ok_cases. exists txt, amc. do 3 (split; [assumption|]). split.
  - change (out_path (mkArgs "walk" "out" 60 0 30)) with "out.amc".
    split; [reflexivity | now rewrite Hout].
  - rewrite (cropped_firstn_skipn _ _ _ _ Hc). simpl.
    change (out_path (mkArgs "walk" "out" 60 0 30)) with "out.amc".
    replace (skipn (Z.to_nat (0 * 60)) (frames amc)) with (frames amc) by reflexivity.
    now rewrite firstn_all2 by lia.
Qed.

(** C21: two frame rates, the other way: at 10 fps, a 900-frame
    animation (90 s) asked for seconds 0 to 60 has all 600 requested
    frames, yet the script refuses it with the end-range [ValueError]
    because 60 exceeds [900/30]. *)
Theorem crop_two_rates_rejects fs txt amc :
  read_text fs "walk.amc" = Ok txt -> parse_amc_text txt = Ok amc ->
  count amc = 900%Z -> length (frames amc) = 900%nat -> is_file fs "out.amc" = false ->
  (Z.to_nat (60 * 10) <= length (frames amc))%nat /\
  crop_main parse_amc_text (mkArgs "walk" "out" 10 0 60) fs = (fs, Err (ValueError msg_end)).
Proof.
  intros Hr Hp Hn Hlen Hout. split; [rewrite Hlen; simpl; lia|].
  rewrite crop_main_eq.
  change (input (mkArgs "walk" "out" 10 0 60) ++ ".amc")%string with "walk.amc".
  rewrite Hr, Hp, CheckArgs_spec_eq by (rewrite Hn; lia).
  change (out_path (mkArgs "walk" "out" 10 0 60)) with "out.amc".
  now rewrite Hout, Hn.
Qed.
End Proofs.

(** ** Reading the written file back *)

Section RoundTrip.
Context {F : Type} `{FileSystemLaws F} {V : Type} `{PyStrInv V}.
Context (parse_amc_text : string -> result (Amc (@Frame V))).

(** C22: end to end: after a normal run, the output file reads back, with
    the reference reader, as exactly the kept frames
    [frames[start*fps : end*fps]] numbered from 1, whenever the bone
    names of the input are ones the format can carry. *)
Theorem crop_main_roundtrip fs args fs' txt amc :
  read_text fs (input args ++ ".amc") = Ok txt -> parse_amc_text txt = Ok amc ->
  frames_ok (frames amc) = true ->
  crop_main parse_amc_text args fs = (fs', Ok tt) ->
  exists out, read_text fs' (out_path args) = Ok out /\
              read_amc out = Some (number_from 1 (cropped args amc)).
Proof.
  intros Hr Hp Hok Hrun.
  apply crop_main_Ok_cases in Hrun as (txt' & amc' & Hr' & Hp' & _ & Hw & ->).
  rewrite Hr in Hr'. inv Hr'. rewrite Hp in Hp'. inv Hp'.
  eexists. split; [now apply read_text_put_eq|].
  apply read_amc_parseToAmc. unfold cropped, py_slice, frames_ok.
  auto with amc.
Qed.
End RoundTrip.

(** ** Witnesses *)

Lemma crop_main_Ok_witness :
  crop_main amc_of_text small_args (walk_store 30) =
  (fs_put (walk_store 30) "out.amc" (parseToAmc (cropped small_args (walk_amc 30))), Ok tt).
Proof.
  apply crop_main_Ok. exists (walk_text 30), (walk_amc 30).
  repeat split; vm_compute; first [reflexivity | intros; discriminate].
Defined.

Lemma crop_spec_example_approve_witness :
  crop_main amc_of_text (mkArgs "walk" "out" 30 5 20) (long_store 900) =
  (fs_put (long_store 900) "out.amc"
     (parseToAmc (firstn 450 (skipn 150 (frames (long_amc 900))))), Ok tt).
Proof.
  apply (crop_spec_example_approve amc_of_text (long_store 900) (long_text 900) (long_amc 900)).
  - reflexivity.
  - vm_compute. reflexivity.
  - reflexivity.
  - vm_compute. reflexivity.
Defined.

Lemma crop_main_Err_store_witness :
  fst (crop_main amc_of_text small_args (fs_of_list [])) = fs_of_list [].
Proof.
  apply (crop_main_Err_store amc_of_text (fs_of_list []) small_args
           (FileNotFoundError "walk.amc")).
  vm_compute. reflexivity.
Defined.

Lemma crop_main_keeps_files_witness :
  fs_lookup (fst (crop_main amc_of_text small_args (walk_store 30))) "walk.amc" =
  fs_lookup (walk_store 30) "walk.amc".
Proof. apply crop_main_keeps_files. vm_compute. reflexivity. Defined.

Lemma cropped_approved_witness :
  cropped small_args (walk_amc 30) =
  firstn (Z.to_nat (1 * 2) - Z.to_nat (0 * 2)) (skipn (Z.to_nat (0 * 2)) (frames (walk_amc 30))).
Proof.
  apply (cropped_approved (walk_store 30) small_args (walk_amc 30) true).
  vm_compute. reflexivity.
Defined.

Lemma cropped_length_witness :
  length (cropped small_args (walk_amc 30)) =
  Nat.min (Z.to_nat (1 * 2)) (length (frames (walk_amc 30))) - Z.to_nat (0 * 2).
Proof.
  apply (cropped_length (walk_store 30) small_args (walk_amc 30) true).
  vm_compute. reflexivity.
Defined.

Lemma crop_spec_example_reject_witness :
  crop_main amc_of_text (mkArgs "walk" "out" 30 10 40) (long_store 900) =
  (long_store 900, Err (ValueError msg_end)).
Proof.
  apply (crop_spec_example_reject amc_of_text (long_store 900) (long_text 900) (long_amc 900)).
  - reflexivity.
  - vm_compute. reflexivity.
  - reflexivity.
  - vm_compute. reflexivity.
Defined.

Lemma crop_main_read_first_witness :
  crop_main amc_of_text (mkArgs "walk" "walk" 30 5 20) (fs_of_list []) =
  (fs_of_list [], Err (FileNotFoundError "walk.amc")).
Proof. apply crop_main_read_first. vm_compute. reflexivity. Defined.

Lemma crop_main_output_directory_witness :
  crop_main amc_of_text small_args dir_store =
  (dir_store, Err (IsADirectoryError (out_path small_args))).
Proof.
  apply (crop_main_output_directory amc_of_text dir_store small_args (walk_text 30) (walk_amc 30));
    first [reflexivity | (vm_compute; reflexivity) | (simpl; discriminate) | (simpl; lia)].
Defined.


Lemma crop_main_empty_crop_witness :
  crop_main amc_of_text (mkArgs "walk" "out" 60 20 30) (long_store 900) =
  (fs_put (long_store 900) "out.amc" amc_header, Ok tt).
Proof.
  apply (crop_main_empty_crop amc_of_text (long_store 900) (mkArgs "walk" "out" 60 20 30)
           (long_text 900) (long_amc 900)).
  - reflexivity.
  - vm_compute. reflexivity.
  - vm_compute. reflexivity.
  - split; [reflexivity | vm_compute; discriminate].
  - unfold long_amc, long_frames. cbn [frames]. rewrite repeat_length. cbn. lia.
Defined.

Lemma crop_two_rates_truncates_witness :
  crop_main amc_of_text (mkArgs "walk" "out" 60 0 30) (long_store 900) =
  (fs_put (long_store 900) "out.amc" (parseToAmc (frames (long_amc 900))), Ok tt) /\
  (length (frames (long_amc 900)) < Z.to_nat ((30 - 0) * 60))%nat.
Proof.
  apply (crop_two_rates_truncates amc_of_text (long_store 900) (long_text 900) (long_amc 900)).
  - reflexivity.
  - vm_compute. reflexivity.
  - reflexivity.
  - vm_compute. reflexivity.
  - vm_compute. reflexivity.
Defined.

Lemma crop_two_rates_rejects_witness :
  (Z.to_nat (60 * 10) <= length (frames (long_amc 900)))%nat /\
  crop_main amc_of_text (mkArgs "walk" "out" 10 0 60) (long_store 900) =
  (long_store 900, Err (ValueError msg_end)).
Proof.
  apply (crop_two_rates_rejects amc_of_text (long_store 900) (long_text 900) (long_amc 900)).
  - reflexivity.
  - vm_compute. reflexivity.
  - reflexivity.
  - vm_compute. reflexivity.
  - vm_compute. reflexivity.
Defined.

Lemma crop_main_roundtrip_witness :
  exists out, read_text (fst (crop_main amc_of_text small_args (walk_store 30)))
                (out_path small_args) = Ok out /\
              read_amc out = Some (number_from 1 (cropped small_args (walk_amc 30))).
Proof.
  apply (crop_main_roundtrip amc_of_text (walk_store 30) small_args
           (fst (crop_main amc_of_text small_args (walk_store 30))) (walk_text 30) (walk_amc 30));
    vm_compute; reflexivity.
Defined.

End Crop.
