(* ===== verification/Main.v ===== *)
(** * Main: the command-line entry points, and sequences of runs

    [python -m amccrop ...] runs src/amccrop/__main__.py: it parses
    [sys.argv[1:]] with the parser of Cli.v, reads the namespace with
    [vars], and runs the script [crop_main] of Crop.v.  [python
    amccrop.py ...] runs the [if __name__ == "__main__"] block of
    src/amccrop/amccrop.py (lines 40-63), the same code.  [runs] relates
    a store to the stores any sequence of runs, with any command lines,
    can leave; its invariant is what the program can do to a file
    system in the long run. *)

From stdpp Require Import base gmap.
From Stdlib Require Import String Ascii List ZArith Lia.
From S2P Require Import Prelude PyRuntime FileSystem Validator Cli Serializer PyFloat Crop.
Import ListNotations CheckArgs Serializer FloatRepr Cli Crop.

Module Main.

Section Program.
Context {F : Type} `{FileSystem F} {V : Type} `{PyStr V}.
Context (parse_amc_text : string -> result (Amc (@Frame V))).

Local Open Scope io_scope.

(** [args = vars(parser.parse_args())] and the script; a key missing
    from the namespace would raise [KeyError] at [args['input']]. *)
Definition main (argv : list string) : io F unit :=
  ns <- io_read (fun _ => parse_args crop_parser argv) ;;
  match vars_args ns with
  | Some args => crop_main parse_amc_text args
  | None => io_read (fun _ => raise (KeyError "input"))
  end.

(** The [__main__] block of amccrop.py: the same parser and script. *)
Definition amccrop_main (argv : list string) : io F unit := main argv.

(** The stores reachable from [fs0] by running the program any number
    of times, with any command lines, whether the runs return or raise. *)
Inductive runs (fs0 : F) : F -> Prop :=
| runs_refl : runs fs0 fs0
| runs_step fs argv fs' r :
    runs fs0 fs -> main argv fs = (fs', r) -> runs fs0 fs'.

End Program.

Section Invariant.
Context {F : Type} `{FileSystem F} (V : Type) `{PyStr V}.

(** [p] holds a document the serializer wrote from frames of type [V]. *)
Definition written (fs : F) (p : string) : Prop :=
  exists frs : list (@Frame V), fs_lookup fs p = Some (RegularFile (parseToAmc frs)).

(** Every path is as it was in [fs0], or was free in [fs0] and now holds
    an AMC document at a [.amc] path. *)
Definition run_inv (fs0 fs : F) : Prop :=
  forall p, fs_lookup fs p = fs_lookup fs0 p \/
            (fs_lookup fs0 p = None /\ (exists stem, p = (stem ++ ".amc")%string) /\
             written fs p).
End Invariant.

(** ** The contract of the spec for one request *)

Section Contract.
Context {F : Type} `{FileSystem F} {V : Type} `{PyStr V}.
Context (parse_amc_text : string -> result (Amc (@Frame V))).

(** The frames of the seconds [start] to [end_] (spec section 4.2): skip
    [start * fps] frames, keep [(end_ - start) * fps]. *)
Definition spec_frames (a : Args) (amc : Amc (@Frame V)) : list (@Frame V) :=
  firstn (Z.to_nat ((end_ a - start a) * framerate a))
         (skipn (Z.to_nat (start a * framerate a)) (frames amc)).

(** Spec sections 4 to 7: read and parse the input document, validate
    the request by [validate_spec], and on approval write the document of
    section 5 ([amc_lines], frames numbered from 1) at the output path;
    every rejection surfaces as its exception and writes nothing. *)
Definition crop_spec (a : Args) (fs : F) : F * result unit :=
  match read_text fs (input a ++ ".amc") with
  | Err e => (fs, Err e)
  | Ok txt =>
      match parse_amc_text txt with
      | Err e => (fs, Err e)
      | Ok amc =>
          match validate_spec (String.eqb (input a) (output a)) (is_file fs (out_path a))
                  (framerate a) (start a) (end_ a) (count amc) with
          | Some err => (fs, Err (exc_of err))
          | None =>
              match write_text fs (out_path a) (unlines (amc_lines (spec_frames a amc))) with
              | Ok fs' => (fs', Ok tt)
              | Err e => (fs, Err e)
              end
          end
      end
  end.

(** The counts the parser reports for the input of request [a] in [fs]
    are below the bound where [amc.count/30] compares exactly. *)
Definition counts_small (a : Args) (fs : F) : Prop :=
  forall txt amc, read_text fs (input a ++ ".amc") = Ok txt -> parse_amc_text txt = Ok amc ->
  (0 <= count amc < 30 * 2 ^ 49)%Z.
End Contract.

(** ** Theorems *)

Section Proofs.
Context {F : Type} `{FileSystemLaws F} {V : Type} `{PyStr V}.
Context (parse_amc_text : string -> result (Amc (@Frame V))).

Lemma main_eq argv fs :
  main parse_amc_text argv fs =
  match parse_args crop_parser argv with
  | Err e => (fs, Err e)
  | Ok ns =>
      match vars_args ns with
      | Some args => crop_main parse_amc_text args fs
      | None => (fs, Err (KeyError "input"))
      end
  end.
Proof.
  unfold main, io_bind, io_read. destruct (parse_args _ _); [|reflexivity].
  destruct (vars_args _); reflexivity.
Qed.

(** One run leaves the store alone, or writes serializer output to a
    path that was free. *)
Lemma main_step argv fs fs' r :
  main parse_amc_text argv fs = (fs', r) ->
  fs' = fs \/ exists args (frs : list (@Frame V)),
    fs_lookup fs (out_path args) = None /\ fs' = fs_put fs (out_path args) (parseToAmc frs).
Proof.
  rewrite main_eq. destruct (parse_args _ _) as [ns|e]; [|intros [= <- _]; now left].
  destruct (vars_args ns) as [args|]; [|intros [= <- _]; now left].
  rewrite crop_main_eq.
  destruct (read_text _ _) as [txt|]; [|intros [= <- _]; now left].
  destruct (parse_amc_text txt) as [amc|]; [|intros [= <- _]; now left].
  destruct (CheckArgs fs args amc) as [b|] eqn:Hc; [|intros [= <- _]; now left].
  apply CheckArgs_Ok_guard in Hc as (-> & _ & Hout & _).
  destruct (write_text _ _ _) as [fs''|] eqn:Hw; intros [= <- _]; [|now left].
  apply write_text_Ok in Hw as [-> [_ Hd]]. right. exists args, (cropped args amc).
  split; [|reflexivity].
  unfold is_file in Hout. destruct (fs_lookup fs (out_path args)) as [[]|]; congruence.
Qed.

Lemma run_inv_step fs0 fs fs' argv r :
  run_inv V fs0 fs -> main parse_amc_text argv fs = (fs', r) -> run_inv V fs0 fs'.
Proof.
  intros Hinv Hrun p.
  destruct (main_step _ _ _ _ Hrun) as [->|(args & frs & Hfree & ->)]; [apply Hinv|].
  destruct (String.eqb_spec (out_path args) p) as [<-|Hne].
  - right. split; [destruct (Hinv (out_path args)) as [|(? & _)]; congruence|].
    split; [now exists (output args)|]. exists frs. apply fs_lookup_put_eq.
  - rewrite fs_lookup_put_ne by exact Hne.
    destruct (Hinv p) as [Heq|(Hp0 & Hs & frs' & Hw)]; [now left | right].
    do 2 (split; [assumption|]). exists frs'. now rewrite fs_lookup_put_ne.
Qed.

Lemma crop_main_spec args fs :
  counts_small parse_amc_text args fs ->
  crop_main parse_amc_text args fs = crop_spec parse_amc_text args fs.
Proof.
  intros Hs. rewrite crop_main_eq. unfold crop_spec.
  destruct (read_text _ _) as [txt|] eqn:Hr; [|reflexivity].
  destruct (parse_amc_text txt) as [amc|] eqn:Hp; [|reflexivity].
  specialize (Hs _ _ Hr Hp).
  pose proof (CheckArgs_spec_eq fs args amc Hs) as Hc. rewrite Hc.
  destruct (validate_spec _ _ _ _ _ _) as [err|] eqn:Hv; [reflexivity|].
  pose proof Hv as Hg. apply validate_spec_None in Hg as (_ & _ & Hf & Hs0 & _ & Hlt & _).
  cbn [outcome_of]. rewrite parseToAmc_unlines.
  rewrite (cropped_firstn_skipn fs args amc true) by (rewrite Hc; reflexivity).
  unfold spec_frames. replace (Z.to_nat (end_ args * framerate args) -
    Z.to_nat (start args * framerate args))%nat
    with (Z.to_nat ((end_ args - start args) * framerate args))
    by (rewrite Z.mul_sub_distr_r; assert (0 <= start args * framerate args)%Z by nia;
        assert (start args * framerate args <= end_ args * framerate args)%Z by nia; lia).
  destruct (write_text _ _ _); reflexivity.
Qed.

(** C30: a command line the parser rejects ends the program with the
    parser's [SystemExit] before any file is read or written. *)
Theorem main_parse_error argv fs e :
  parse_args crop_parser argv = Err e -> main parse_amc_text argv fs = (fs, Err e).
Proof. intros He. now rewrite main_eq, He. Qed.

(** A command line the parser accepts runs the script on the
    arguments it names: [args['input']] and the other reads never raise
    [KeyError]. *)
Theorem main_runs_script argv fs ns :
  parse_args crop_parser argv = Ok ns ->
  exists args, vars_args ns = Some args /\
               main parse_amc_text argv fs = crop_main parse_amc_text args fs.
Proof.
  intros Hp. destruct (vars_args_complete _ _ Hp) as [args Ha].
  exists args. split; [exact Ha|]. now rewrite main_eq, Hp, Ha.
Qed.

(** End to end, the command line [--input=... ... --end=...] of any
    [Args] runs the script on exactly those arguments. *)
Theorem main_render_long args fs :
  main parse_amc_text (render_long args) fs = crop_main parse_amc_text args fs.
Proof.
  destruct (parse_render_long args) as (ns & Hp & Ha). now rewrite main_eq, Hp, Ha.
Qed.

(** C33: the program refuses to repeat itself: after a run that returns,
    the same command line on the resulting store raises
    [FileExistsError] and writes nothing. *)
Theorem main_second_run argv fs fs' :
  main parse_amc_text argv fs = (fs', Ok tt) ->
  main parse_amc_text argv fs' = (fs', Err (FileExistsError msg_exists)).
Proof.
  rewrite !main_eq. destruct (parse_args _ _) as [ns|]; [|discriminate].
  destruct (vars_args ns) as [args|]; [|discriminate].
  intros (txt & amc & Hr & Hp & Hc & Hw & ->)%crop_main_Ok_cases.
  apply CheckArgs_Ok_guard in Hc as (_ & Hne & _).
  assert (Hio : out_path args <> input args ++ ".amc")
    by (intros E; apply sapp_inv_r in E; congruence).
  rewrite crop_main_eq, (read_text_put_ne _ _ _ _ _ Hio Hw Hr), Hp, CheckArgs_exists_eq;
    [reflexivity | exact Hne | apply is_file_put_eq].
Qed.

(** C38: the program refines the spec's contract: on any command line
    the parser accepts, naming the request [a], running amccrop does
    exactly what [crop_spec] prescribes for [a] (the same store and the
    same outcome), with the document of spec section 5 as output, as
    long as the parser's frame count is below [30 * 2^49]. *)
Theorem main_refines_crop_spec argv ns a fs :
  parse_args crop_parser argv = Ok ns -> vars_args ns = Some a ->
  counts_small parse_amc_text a fs ->
  main parse_amc_text argv fs = crop_spec parse_amc_text a fs.
Proof.
  intros Hp Ha Hs. rewrite main_eq, Hp, Ha. now apply crop_main_spec.
Qed.

(** Any sequence of runs keeps a store that is a tree a tree. *)
Lemma runs_wf fs0 fs : runs parse_amc_text fs0 fs -> fs_wf fs0 -> fs_wf fs.
Proof.
  intros Hruns Hwf0. induction Hruns as [|fs argv fs' r _ IH Hrun]; [exact Hwf0|].
  rewrite main_eq in Hrun. destruct (parse_args _ _); [|now inv Hrun].
  destruct (vars_args _) as [args|]; [|now inv Hrun].
  exact (crop_main_wf _ _ _ _ _ IH Hrun).
Qed.

(** C34: whatever sequence of runs, with whatever command lines and
    whether they return or raise: every file that existed is unchanged,
    and every path that changed was free at the start and now holds an
    AMC document the serializer wrote, at a path ending in [.amc]; and a
    store whose entries all sit in existing directories stays so. *)
Theorem runs_invariant fs0 fs :
  runs parse_amc_text fs0 fs -> run_inv V fs0 fs /\ (fs_wf fs0 -> fs_wf fs).
Proof.
  intros Hruns. split; [|intros; now apply (runs_wf fs0)].
  induction Hruns as [|fs argv fs' r _ IH Hrun]; [intros p; now left|].
  eauto using run_inv_step.
Qed.
End Proofs.

(** ** Witnesses *)

Definition small_argv : list string := render_short small_args.

Definition small_out : gmap string entry :=
  fs_put (walk_store 30) "out.amc" (parseToAmc (cropped small_args (walk_amc 30))).

Lemma main_parse_error_witness :
  parse_args crop_parser [] =
    Err (SystemExit 2 ("the following arguments are required: " ++
      "-i/--input, -o/--output, -fps/--framerate, -s/--start, -e/--end")) /\
  main amc_of_text [] (walk_store 30) =
    (walk_store 30, Err (SystemExit 2 ("the following arguments are required: " ++
      "-i/--input, -o/--output, -fps/--framerate, -s/--start, -e/--end"))).
Proof. split; [reflexivity|]. apply main_parse_error. reflexivity. Defined.

Definition small_ns : Namespace :=
  match parse_args crop_parser small_argv with Ok ns => ns | Err _ => ∅ end.

Lemma main_runs_script_witness :
  parse_args crop_parser small_argv = Ok small_ns /\
  exists args, vars_args small_ns = Some args /\
    main amc_of_text small_argv (walk_store 30) = crop_main amc_of_text args (walk_store 30).
Proof.
  assert (Hp : parse_args crop_parser small_argv = Ok small_ns) by reflexivity.
  split; [exact Hp | exact (main_runs_script amc_of_text small_argv (walk_store 30) small_ns Hp)].
Defined.

Lemma main_second_run_witness :
  main amc_of_text small_argv (walk_store 30) = (small_out, Ok tt) /\
  main amc_of_text small_argv small_out = (small_out, Err (FileExistsError msg_exists)).
Proof.
  assert (Hr : main amc_of_text small_argv (walk_store 30) = (small_out, Ok tt))
    by (vm_compute; reflexivity).
  split; [exact Hr | exact (main_second_run amc_of_text small_argv (walk_store 30) small_out Hr)].
Defined.

Lemma main_refines_crop_spec_witness :
  parse_args crop_parser small_argv = Ok small_ns /\ vars_args small_ns = Some small_args /\
  counts_small amc_of_text small_args (walk_store 30) /\
  main amc_of_text small_argv (walk_store 30) = crop_spec amc_of_text small_args (walk_store 30).
Proof.
  assert (Hp : parse_args crop_parser small_argv = Ok small_ns) by reflexivity.
  assert (Ha : vars_args small_ns = Some small_args) by reflexivity.
  assert (Hs : counts_small amc_of_text small_args (walk_store 30)).
  { intros txt amc Hr Hq. vm_compute in Hr. injection Hr as <-.
    vm_compute in Hq. injection Hq as <-. simpl. lia. }
  exact (conj Hp (conj Ha (conj Hs
    (main_refines_crop_spec amc_of_text small_argv small_ns small_args (walk_store 30) Hp Ha Hs)))).
Defined.

Lemma walk_store_wf n : fs_wf (walk_store n).
Proof.
  intros p e Hl.
  change (<["walk.amc" := RegularFile (walk_text n)]> (∅ : gmap string entry) !! p = Some e) in Hl.
  apply lookup_insert_Some in Hl as [[<- _]|[_ Hl]]; [reflexivity|].
  rewrite lookup_empty in Hl. discriminate.
Qed.

Lemma runs_invariant_witness :
  runs amc_of_text (walk_store 30) small_out /\ fs_wf (walk_store 30) /\
  run_inv PyFloat (walk_store 30) small_out /\ fs_wf small_out.
Proof.
  assert (Hr : runs amc_of_text (walk_store 30) small_out).
  { apply (runs_step amc_of_text (walk_store 30) (walk_store 30) small_argv small_out (Ok tt));
    [apply runs_refl | vm_compute; reflexivity]. }
  destruct (runs_invariant amc_of_text (walk_store 30) small_out Hr) as [Hi Hwf].
  exact (conj Hr (conj (walk_store_wf 30) (conj Hi (Hwf (walk_store_wf 30))))).
Defined.

End Main.
