(* ===== verification/Runpy.v ===== *)
(** * Runpy: how the program is started, and the module system it relies on

    The program is started in one of two ways: [python -m amccrop ...]
    (runpy runs the package's src/amccrop/__main__.py, which imports
    [amccrop.amccrop]) or [python amccrop.py ...] (the file runs as the
    module [__main__], whose [if __name__ == "__main__"] block is the
    script).  Both go through Python's import system, which this file
    models as state passing over the interpreter: the store of
    FileSystem.v, [sys.modules] and [sys.path].

    - [find_in_dir] is [FileFinder.find_spec] on one directory (a
      package is a directory with [__init__.py], a module a [.py] file,
      a bare directory a namespace portion); [path_find] is
      [PathFinder.find_spec] over [sys.path] (the first package or
      module wins; namespace portions are merged only when none is
      found).  [Lib] entries stand for the standard library and the
      installed dependencies, modules whose import does not touch the
      store.
    - [import_name] is [importlib._bootstrap._find_and_load]: the
      parent first, then [sys.modules], the spec, and [_load_unlocked],
      which enters the module in [sys.modules] before running its body
      and removes it again if the body raises.
    - [amccrop_py] and [main_py] are the module bodies of amccrop.py
      and __main__.py: their import statements, then the script, which
      in amccrop.py runs only under the name [__main__].
    - [python] is the command line: [sys.path[0]] and runpy's
      [_run_module_as_main] / [run_path] on the target.

    Imports recurse through module bodies, so [import_name] runs on
    fuel: each level of nested import uses one unit, as each uses a
    frame of Python's stack; [RecursionError] when it is out. *)

From Stdlib Require Import String Ascii List Bool ZArith Lia.
From S2P Require Import Prelude PyRuntime FileSystem Packaging Validator Cli Serializer PyFloat Crop Main.
Import ListNotations Packaging CheckArgs Serializer FloatRepr Crop Main.

Module Runpy.

Local Open Scope string_scope.

(** ** Module specs, [sys.modules], [sys.path] *)

(** What the finders return: a source file (with its search locations
    when it is a package's [__init__.py]), a namespace package, or a
    module of the library with the names it defines. *)
Inductive Spec : Type :=
| SrcSpec (file : string) (locs : option (list string))
| NsSpec (locs : list string)
| LibSpec (names : list string).

Definition spec_locs (s : Spec) : option (list string) :=
  match s with
  | SrcSpec _ locs => locs
  | NsSpec locs => Some locs
  | LibSpec _ => None
  end.

(** An entry of [sys.modules]: its spec and the names it defines. *)
Record ModInfo := mkMod { mod_spec : Spec; mod_names : list string }.

(** An entry of [sys.path]: a directory of the store, or the library. *)
Inductive PathEntry : Type :=
| InDir (d : string)
| Lib (mods : list (string * list string)).

(** The module bodies whose code the model knows; any other file is a
    module whose body only defines the given names. *)
Inductive Code : Type :=
| AmccropPy
| MainPy
| Opaque (names : list string).

(** The names a module body defines at its top level. *)
Definition code_names (c : Code) : list string :=
  match c with
  | AmccropPy => ["argparse"; "Tuple"; "ParseAMC"; "Path"; "CheckArgs"; "parseToAmc"; "SaveAmc"]
  | MainPy => ["argparse"; "ParseAMC"; "CheckArgs"; "parseToAmc"; "SaveAmc"; "parser"; "args"; "amc"]
  | Opaque names => names
  end.

Fixpoint lookup_str {A} (k : string) (l : list (string * A)) : option A :=
  match l with
  | [] => None
  | (k', v) :: l' => if String.eqb k' k then Some v else lookup_str k l'
  end.

(** [name.rpartition('.')]: the parent package and the last component. *)
Definition rpartition_dot (name : string) : string * string :=
  let parts := py_split "." name in
  (String.concat "." (removelast parts), last parts "").

(** [os.path.dirname] of a normal relative path. *)
Definition dirname (p : string) : string :=
  String.concat "/" (removelast (py_split "/" p)).

Definition no_module (name : string) : string := "No module named " ++ Cli.py_repr name.

Section Finders.
Context {F : Type} `{FileSystem F}.

(** [FileFinder(d).find_spec] for the last component [tail]: a
    directory entry [tail] with [__init__.py] is a package; otherwise a
    file [tail.py] is a module; otherwise a directory [tail] is a
    namespace portion. *)
Definition find_in_dir (fs : F) (d tail : string) : option Spec :=
  let base := join2 d tail in
  let init := join2 base "__init__.py" in
  let in_cache := match fs_lookup fs base with Some _ => true | None => false end in
  if in_cache && is_file fs init then Some (SrcSpec init (Some [base]))
  else if is_file fs (join2 d (tail ++ ".py")) then Some (SrcSpec (join2 d (tail ++ ".py")) None)
  else match fs_lookup fs base with
       | Some Directory => Some (NsSpec [base])
       | _ => None
       end.

(** [PathFinder.find_spec] over the entries, with the namespace
    portions [ns] found so far. *)
Fixpoint path_find (fs : F) (entries : list PathEntry) (tail : string) (ns : list string)
    : option Spec :=
  match entries with
  | [] => match ns with [] => None | _ => Some (NsSpec ns) end
  | InDir d :: es =>
      match find_in_dir fs d tail with
      | Some (NsSpec l) => path_find fs es tail (ns ++ l)
      | Some s => Some s
      | None => path_find fs es tail ns
      end
  | Lib mods :: es =>
      match lookup_str tail mods with
      | Some names => Some (LibSpec names)
      | None => path_find fs es tail ns
      end
  end.
End Finders.

(** ** The interpreter *)

Section Interpreter.
Context {F : Type} `{FileSystem F} {V : Type} `{PyStr V}.
Context (parse_amc_text : string -> result (Amc (@Frame V))).
Context (code_of : string -> Code) (argv : list string).

(** The interpreter's state: the store, [sys.modules], [sys.path]. *)
Record Interp := mkInterp {
  w_fs : F;
  w_modules : list (string * ModInfo);
  w_path : list PathEntry
}.

Definition prog (A : Type) : Type := io Interp A.

Local Open Scope io_scope.

Definition get_interp : prog Interp := fun w => (w, Ok w).

Definition throw {A} (e : PyExc) : prog A := fun w => (w, Err e).

Definition set_modules (ms : list (string * ModInfo)) : prog unit :=
  fun w => (mkInterp (w_fs w) ms (w_path w), Ok tt).

(** A program of the store run inside the interpreter. *)
Definition on_fs {A} (c : io F A) : prog A :=
  fun w => let '(fs', r) := c (w_fs w) in (mkInterp fs' (w_modules w) (w_path w), r).

Definition is_loaded (name : string) (w : Interp) : bool :=
  match lookup_str name (w_modules w) with Some _ => true | None => false end.

Definition del_module (name : string) (ms : list (string * ModInfo)) :=
  filter (fun p => negb (String.eqb (fst p) name)) ms.

(** [setattr(parent_module, child, module)]. *)
Definition set_attr (parent child : string) : prog unit :=
  w <- get_interp ;;
  set_modules (map (fun p => if String.eqb (fst p) parent
                             then (fst p, mkMod (mod_spec (snd p)) (child :: mod_names (snd p)))
                             else p) (w_modules w)).

(** [_load_unlocked]: on an exception of the body the module leaves
    [sys.modules] again. *)
Definition or_forget (name : string) (c : prog unit) : prog unit :=
  fun w =>
    match c w with
    | (w', Ok tt) => (w', Ok tt)
    | (w', Err e) => (mkInterp (w_fs w') (del_module name (w_modules w')) (w_path w'), Err e)
    end.

(** Where CPython's [cannot import name] message says the module lives:
    its file, or ["unknown location"] for a namespace package; the
    location of a library module is not part of the model. *)
Definition location (s : Spec) : string :=
  match s with
  | SrcSpec file _ => " (" ++ file ++ ")"
  | NsSpec _ => " (unknown location)"
  | LibSpec _ => ""
  end.

(** [from m import x, ...]: import [m], then each name must be defined. *)
Definition from_import (imp : string -> prog unit) (m : string) (names : list string) : prog unit :=
  _ <- imp m ;;
  w <- get_interp ;;
  match lookup_str m (w_modules w) with
  | Some info =>
      match find (fun x => negb (existsb (String.eqb x) (mod_names info))) names with
      | Some x => throw (ImportError ("cannot import name " ++ Cli.py_repr x ++ " from " ++
                                     Cli.py_repr m ++ location (mod_spec info)))
      | None => io_ret tt
      end
  | None => throw (KeyError m)
  end.

(** amccrop.py run as the module [name]: lines 1-4, the definitions of
    lines 7-37, and the block of lines 40-63 when [name] is
    ["__main__"]. *)
Definition amccrop_py (imp : string -> prog unit) (name : string) : prog unit :=
  _ <- imp "argparse" ;;
  _ <- from_import imp "typing" ["Tuple"] ;;
  _ <- from_import imp "asfamcparser" ["ParseAMC"] ;;
  _ <- from_import imp "pathlib" ["Path"] ;;
  if String.eqb name "__main__" then on_fs (amccrop_main parse_amc_text argv) else io_ret tt.

(** __main__.py: lines 1-3, then the parser and the script (5-27),
    under whatever name it runs. *)
Definition main_py (imp : string -> prog unit) : prog unit :=
  _ <- imp "argparse" ;;
  _ <- from_import imp "asfamcparser" ["ParseAMC"] ;;
  _ <- from_import imp "amccrop.amccrop" ["CheckArgs"; "parseToAmc"; "SaveAmc"] ;;
  on_fs (main parse_amc_text argv).

(** setup.py run from its directory [here]: lines 1-2, then the script
    of Packaging.v (lines 5-29), whose result is the [setup] call's
    keyword arguments. *)
Definition setup_py (imp : string -> prog unit) (here : string) : prog Packaging.Dist :=
  _ <- from_import imp "setuptools" ["setup"] ;;
  _ <- imp "pathlib" ;;
  on_fs (Packaging.setup_script here).

Definition exec_code (imp : string -> prog unit) (c : Code) (name : string) : prog unit :=
  match c with
  | AmccropPy => amccrop_py imp name
  | MainPy => main_py imp
  | Opaque _ => io_ret tt
  end.

Definition read_source (file : string) : prog string :=
  on_fs (io_read (fun fs => read_text fs file)).

(** [_load_unlocked(spec)] under the name [name]. *)
Definition load (imp : string -> prog unit) (name : string) (spec : Spec) : prog unit :=
  match spec with
  | SrcSpec file _ =>
      txt <- read_source file ;;
      w <- get_interp ;;
      _ <- set_modules ((name, mkMod spec (code_names (code_of txt))) :: w_modules w) ;;
      or_forget name (exec_code imp (code_of txt) name)
  | NsSpec _ =>
      w <- get_interp ;; set_modules ((name, mkMod spec []) :: w_modules w)
  | LibSpec names =>
      w <- get_interp ;; set_modules ((name, mkMod spec names) :: w_modules w)
  end.

(** [_find_and_load(name)]: the parent package first; the search path
    is [sys.path] for a top-level name, the parent's [__path__] for a
    submodule, which is then set as an attribute of its parent. *)
Definition find_and_load (imp : string -> prog unit) (name : string) : prog unit :=
  w <- get_interp ;;
  if is_loaded name w then io_ret tt else
  let '(parent, tail) := rpartition_dot name in
  if String.eqb parent "" then
    match path_find (w_fs w) (w_path w) tail [] with
    | None => throw (ModuleNotFoundError (no_module name))
    | Some spec => load imp name spec
    end
  else
    _ <- (if is_loaded parent w then io_ret tt else imp parent) ;;
    w <- get_interp ;;
    if is_loaded name w then io_ret tt else
    match lookup_str parent (w_modules w) with
    | None => throw (KeyError parent)
    | Some info =>
        match spec_locs (mod_spec info) with
        | None => throw (ModuleNotFoundError
                           (no_module name ++ "; " ++ Cli.py_repr parent ++ " is not a package"))
        | Some locs =>
            match path_find (w_fs w) (map InDir locs) tail [] with
            | None => throw (ModuleNotFoundError (no_module name))
            | Some spec => _ <- load imp name spec ;; set_attr parent tail
            end
        end
    end.

(** [import name], one stack frame per level of nesting. *)
Fixpoint import_name (fuel : nat) (name : string) : prog unit :=
  match fuel with
  | O => throw (RecursionError "maximum recursion depth exceeded")
  | S n => find_and_load (import_name n) name
  end.

(** [importlib.util.find_spec(m)]: the spec of a loaded module, else
    the search, after importing the parent of a submodule. *)
Definition spec_of (imp : string -> prog unit) (m : string) : prog (option Spec) :=
  w <- get_interp ;;
  match lookup_str m (w_modules w) with
  | Some info => io_ret (Some (mod_spec info))
  | None =>
      let '(parent, tail) := rpartition_dot m in
      if String.eqb parent "" then io_ret (path_find (w_fs w) (w_path w) tail [])
      else
        _ <- imp parent ;;
        w <- get_interp ;;
        match option_map (fun i => spec_locs (mod_spec i)) (lookup_str parent (w_modules w)) with
        | Some (Some locs) => io_ret (path_find (w_fs w) (map InDir locs) tail [])
        | _ => throw (ModuleNotFoundError ("__path__ attribute not found on " ++ Cli.py_repr parent ++
                                            " while trying to find " ++ Cli.py_repr m))
        end
  end.

(** runpy turns an [ImportError] met while finding the spec into its
    own error (the hint it adds for names ending in [.py] is left out). *)
Definition spec_error (m : string) (r : result (option Spec)) : result (option Spec) :=
  let wrap cls msg := Err (SystemExit 1 ("Error while finding module specification for " ++
                                         Cli.py_repr m ++ " (" ++ cls ++ ": " ++ msg ++ ")")) in
  match r with
  | Err (ImportError msg) => wrap "ImportError" msg
  | Err (ModuleNotFoundError msg) => wrap "ModuleNotFoundError" msg
  | r => r
  end.

(** The first steps of [_get_module_details(m)]: import the parent of a
    submodule (a parent that does not exist is left to the search),
    then find the spec. *)
Definition details_spec (imp : string -> prog unit) (m : string) : prog (option Spec) :=
  let '(parent, _) := rpartition_dot m in
  _ <- (if String.eqb parent "" then io_ret tt
        else fun w =>
               match imp parent w with
               | (w', Err (ModuleNotFoundError msg)) =>
                   if String.eqb msg (no_module parent) then (w', Ok tt)
                   else (w', Err (ModuleNotFoundError msg))
               | r => r
               end) ;;
  fun w => let '(w', r) := spec_of imp m w in (w', spec_error m r).

(** [_get_module_details] on [m.__main__], the second level, where a
    package is an error. *)
Definition module_details1 (imp : string -> prog unit) (m : string) : prog Spec :=
  spec <- details_spec imp m ;;
  match spec with
  | None => throw (SystemExit 1 ("No module named " ++ m))
  | Some s =>
      match spec_locs s with
      | Some _ => throw (SystemExit 1 "Cannot use package as __main__ module")
      | None => io_ret s
      end
  end.

(** [_get_module_details(m)]: a package runs its [__main__]; an error
    of runpy there names the package. *)
Definition module_details (imp : string -> prog unit) (m : string) : prog Spec :=
  spec <- details_spec imp m ;;
  match spec with
  | None => throw (SystemExit 1 ("No module named " ++ m))
  | Some s =>
      match spec_locs s with
      | None => io_ret s
      | Some _ =>
          fun w =>
            match module_details1 imp (m ++ ".__main__") w with
            | (w', Err (SystemExit c msg)) =>
                if Z.eqb c 1 && is_loaded m w'
                then (w', Err (SystemExit 1 (msg ++ "; " ++ Cli.py_repr m ++
                                             " is a package and cannot be directly executed")))
                else (w', Err (SystemExit c msg))
            | r => r
            end
      end
  end.

(** The code of the spec runs as the module [__main__]; a module of
    the library run this way is outside the model and does nothing to
    the store. *)
Definition run_spec (imp : string -> prog unit) (s : Spec) : prog unit :=
  match s with
  | SrcSpec file _ => txt <- read_source file ;; exec_code imp (code_of txt) "__main__"
  | _ => io_ret tt
  end.

(** How [python] is started. *)
Inductive Target : Type :=
| Script (path : string)
| RunModule (m : string).

(** [sys.path[0]]: the current directory for [-m], the script's
    directory for a file, the directory itself for a directory. *)
Definition path0 (fs : F) (t : Target) : string :=
  match t with
  | RunModule _ => ""
  | Script p => match fs_lookup fs p with Some Directory => p | _ => dirname p end
  end.

Definition run_target (fuel : nat) (t : Target) : prog unit :=
  let imp := import_name fuel in
  match t with
  | RunModule m => s <- module_details imp m ;; run_spec imp s
  | Script p =>
      w <- get_interp ;;
      match fs_lookup (w_fs w) p with
      | Some Directory =>
          match path_find (w_fs w) [InDir p] "__main__" [] with
          | Some (SrcSpec file None) => run_spec imp (SrcSpec file None)
          | _ => throw (SystemExit 1 ("can't find '__main__' module in " ++ Cli.py_repr p))
          end
      | Some (RegularFile _) => run_spec imp (SrcSpec p None)
      | None => throw (SystemExit 2 ("can't open file " ++ Cli.py_repr p ++
                                      ": [Errno 2] No such file or directory"))
      end
  end.

(** The command line [python <t> argv...] on the store [fs], with the
    library [lib] after [sys.path[0]]. *)
Definition python (fuel : nat) (lib : list PathEntry) (t : Target) : io F unit :=
  fun fs =>
    let '(w, r) := run_target fuel t (mkInterp fs [] (InDir (path0 fs t) :: lib)) in
    (w_fs w, r).
End Interpreter.

(** ** The library imports of the module bodies *)

Section Predicates.
Context {F : Type} `{FileSystem F}.

Definition subset_b (xs ys : list string) : bool :=
  forallb (fun x => existsb (String.eqb x) ys) xs.

(** The modules that amccrop.py, __main__.py and setup.py import from
    the library. *)
Definition dep_names : list string := ["argparse"; "typing"; "asfamcparser"; "pathlib"; "setuptools"].

(** [d] resolves on [sys.path] to a library module defining [xs], and
    is loaded from there if it is loaded at all. *)
Definition dep_ok (w : Interp) (d : string) (xs : list string) : Prop :=
  exists ns, path_find (w_fs w) (w_path w) d [] = Some (LibSpec ns) /\ subset_b xs ns = true /\
    (lookup_str d (w_modules w) = None \/ lookup_str d (w_modules w) = Some (mkMod (LibSpec ns) ns)).

Definition deps_ok (w : Interp) : Prop :=
  dep_ok w "argparse" [] /\ dep_ok w "typing" ["Tuple"] /\
  dep_ok w "asfamcparser" ["ParseAMC"] /\ dep_ok w "pathlib" ["Path"].

(** The same, as a test on the store and [sys.path] before any import. *)
Definition dep_resolves (fs : F) (path : list PathEntry) (d : string) (xs : list string) : bool :=
  match path_find fs path d [] with Some (LibSpec ns) => subset_b xs ns | _ => false end.

Definition deps_resolve (fs : F) (path : list PathEntry) : bool :=
  dep_resolves fs path "argparse" [] && dep_resolves fs path "typing" ["Tuple"] &&
  dep_resolves fs path "asfamcparser" ["ParseAMC"] && dep_resolves fs path "pathlib" ["Path"].

(** [w'] is [w] with some of the library modules loaded from the path. *)
Definition ext_ok (w w' : Interp) : Prop :=
  w_fs w' = w_fs w /\ w_path w' = w_path w /\
  forall k, lookup_str k (w_modules w') = lookup_str k (w_modules w) \/
            (In k dep_names /\ lookup_str k (w_modules w) = None /\
             exists ns, path_find (w_fs w) (w_path w) k [] = Some (LibSpec ns) /\
                        lookup_str k (w_modules w') = Some (mkMod (LibSpec ns) ns)).
(** The file [file] holds the source of amccrop.py, or of __main__.py. *)
Definition holds_code (code_of : string -> Code) (c : Code) (fs : F) (file : string) : bool :=
  match read_text fs file with
  | Ok t => match code_of t, c with
            | AmccropPy, AmccropPy | MainPy, MainPy => true
            | _, _ => false
            end
  | Err _ => false
  end.

(** What [python -m amccrop] finds on [path]: the repository's package
    (a namespace package: src/amccrop has no [__init__.py]) with its
    [__main__.py] and [amccrop.py], or an installed module [amccrop.py]. *)
Definition amccrop_layout (code_of : string -> Code) (fs : F) (path : list PathEntry) : bool :=
  match path_find fs path "amccrop" [] with
  | Some (NsSpec locs) =>
      match path_find fs (map InDir locs) "__main__" [], path_find fs (map InDir locs) "amccrop" [] with
      | Some (SrcSpec fm None), Some (SrcSpec fa None) =>
          holds_code code_of MainPy fs fm && holds_code code_of AmccropPy fs fa
      | _, _ => false
      end
  | Some (SrcSpec fa None) => holds_code code_of AmccropPy fs fa
  | _ => false
  end.
End Predicates.

(** ** Concrete interpreters for the witnesses

    The repository's src/ directory as the current directory, the two
    source files standing for their text, and a library with the
    program's dependencies (or without asfamcparser). *)

Definition amccrop_src : string := "# src/amccrop/amccrop.py".
Definition main_src : string := "# src/amccrop/__main__.py".

Definition sample_code (t : string) : Code :=
  if String.eqb t amccrop_src then AmccropPy
  else if String.eqb t main_src then MainPy
  else Opaque [].

Definition stdlib : list (string * list string) :=
  [("argparse", ["ArgumentParser"]); ("typing", ["Tuple"]); ("pathlib", ["Path"])].

Definition sample_lib : list PathEntry := [Lib (stdlib ++ [("asfamcparser", ["ParseAMC"])])].

Definition src_tree :=
  fs_of_list [("amccrop", Directory); ("amccrop/__main__.py", RegularFile main_src);
              ("amccrop/amccrop.py", RegularFile amccrop_src);
              ("walk.amc", RegularFile (walk_text 30))].

(** ** Lemmas on imports *)

Section FrameLemmas.
Context {F : Type} `{FileSystem F}.

Lemma lookup_str_cons_eq {A} k (v : A) l : lookup_str k ((k, v) :: l) = Some v.
Proof. simpl. now rewrite String.eqb_refl. Qed.

Lemma lookup_str_cons_ne {A} k k' (v : A) l :
  k' <> k -> lookup_str k ((k', v) :: l) = lookup_str k l.
Proof. intros Hne. simpl. now rewrite (proj2 (String.eqb_neq k' k) Hne). Qed.

Lemma subset_find xs ys :
  subset_b xs ys = true -> find (fun x => negb (existsb (String.eqb x) ys)) xs = None.
Proof.
  induction xs as [|x xs IH]; simpl; [reflexivity|].
  intros [-> Hs]%andb_prop. exact (IH Hs).
Qed.

Lemma ext_ok_refl (w : @Interp F) : ext_ok w w.
Proof. split; [reflexivity | split; [reflexivity | now left]]. Qed.

Lemma ext_ok_trans (w1 w2 w3 : @Interp F) : ext_ok w1 w2 -> ext_ok w2 w3 -> ext_ok w1 w3.
Proof.
  intros (Hf1 & Hp1 & Hl1) (Hf2 & Hp2 & Hl2).
  split; [congruence | split; [congruence|]]. intros k.
  destruct (Hl1 k) as [E1|(Hin & N1 & ns & P1 & S1)];
    destruct (Hl2 k) as [E2|(Hin2 & N2 & ns2 & P2 & S2)].
  - left. congruence.
  - right. rewrite Hf1, Hp1 in P2. split; [exact Hin2|]. split; [congruence|]. now exists ns2.
  - right. split; [exact Hin|]. split; [exact N1|]. exists ns. split; [exact P1 | congruence].
  - congruence.
Qed.

Lemma dep_ok_ext (w w' : @Interp F) d xs : ext_ok w w' -> dep_ok w d xs -> dep_ok w' d xs.
Proof.
  intros (Hf & Hp & Hl) (ns & P & S & L). exists ns. rewrite Hf, Hp.
  split; [exact P | split; [exact S|]].
  destruct (Hl d) as [E|(_ & _ & ns' & P' & S')]; [now rewrite E|].
  rewrite P in P'. injection P' as <-. now right.
Qed.

Lemma deps_ok_ext (w w' : @Interp F) : ext_ok w w' -> deps_ok w -> deps_ok w'.
Proof.
  intros X (D1 & D2 & D3 & D4).
  repeat split; eapply dep_ok_ext; eassumption.
Qed.

(** Entering a module that is not a dependency keeps them resolvable. *)
Lemma dep_ok_cons (w : @Interp F) k info d xs :
  k <> d -> dep_ok w d xs -> dep_ok (mkInterp (w_fs w) ((k, info) :: w_modules w) (w_path w)) d xs.
Proof.
  intros Hk (ns & P & S & L). exists ns. cbn [w_fs w_path w_modules].
  rewrite lookup_str_cons_ne by exact Hk. auto.
Qed.

Lemma deps_ok_cons (w : @Interp F) k info :
  ~ In k dep_names -> deps_ok w -> deps_ok (mkInterp (w_fs w) ((k, info) :: w_modules w) (w_path w)).
Proof.
  intros Hk (D1 & D2 & D3 & D4).
  repeat split; apply dep_ok_cons; try assumption; intros ->; apply Hk; simpl; tauto.
Qed.

(** A dependency that is neither loaded nor found stays so. *)
Lemma ext_ok_none (w w' : @Interp F) k :
  ext_ok w w' -> lookup_str k (w_modules w) = None -> path_find (w_fs w) (w_path w) k [] = None ->
  lookup_str k (w_modules w') = None /\ path_find (w_fs w') (w_path w') k [] = None.
Proof.
  intros (Hf & Hp & Hl) L P. rewrite Hf, Hp. split; [|exact P].
  destruct (Hl k) as [->|(_ & _ & ns & P' & _)]; [exact L | congruence].
Qed.

Lemma ext_ok_cons (w : @Interp F) d ns :
  In d dep_names -> lookup_str d (w_modules w) = None ->
  path_find (w_fs w) (w_path w) d [] = Some (LibSpec ns) ->
  ext_ok w (mkInterp (w_fs w) ((d, mkMod (LibSpec ns) ns) :: w_modules w) (w_path w)).
Proof.
  intros Hin N P. split; [reflexivity | split; [reflexivity|]]. intros k. cbn [w_modules].
  destruct (String.eqb_spec d k) as [<-|Hne].
  - right. rewrite lookup_str_cons_eq. eauto 6.
  - left. now apply lookup_str_cons_ne.
Qed.

Lemma lookup_set_attr k parent child (ms : list (string * ModInfo)) :
  k <> parent ->
  lookup_str k (map (fun p => if String.eqb (fst p) parent
                              then (fst p, mkMod (mod_spec (snd p)) (child :: mod_names (snd p)))
                              else p) ms) = lookup_str k ms.
Proof.
  intros Hne. induction ms as [|[k' i] ms IH]; [reflexivity|]. cbn [map fst snd lookup_str].
  destruct (String.eqb_spec k' parent) as [->|_]; cbn [lookup_str fst snd]; rewrite IH; [|reflexivity].
  destruct (String.eqb_spec parent k) as [->|_]; [contradiction | reflexivity].
Qed.

Lemma ext_ok_lookup (w w' : @Interp F) k :
  ext_ok w w' -> ~ In k dep_names -> lookup_str k (w_modules w') = lookup_str k (w_modules w).
Proof. intros (_ & _ & Hl) Hk. destruct (Hl k) as [E|(Hin & _)]; [exact E | contradiction]. Qed.

End FrameLemmas.

Section ImportLemmas.
Context {F : Type} `{FileSystem F} {V : Type} `{PyStr V}.
Context (parse_amc_text : string -> result (Amc (@Frame V))).
Context (code_of : string -> Code) (argv : list string).


Lemma find_and_load_loaded (g : string -> @prog F unit) name w :
  is_loaded name w = true -> find_and_load parse_amc_text code_of argv g name w = (w, Ok tt).
Proof. intros Hl. unfold find_and_load. cbn [io_bind get_interp]. now rewrite Hl. Qed.

Lemma find_and_load_top (g : string -> @prog F unit) name w spec :
  is_loaded name w = false -> rpartition_dot name = ("", name) ->
  path_find (w_fs w) (w_path w) name [] = Some spec ->
  find_and_load parse_amc_text code_of argv g name w = load parse_amc_text code_of argv g name spec w.
Proof.
  intros Hl Hr Hp. unfold find_and_load. cbn [io_bind get_interp]. rewrite Hl, Hr.
  cbv beta iota. rewrite String.eqb_refl, Hp. reflexivity.
Qed.

Lemma from_import_ok (g : string -> @prog F unit) m xs w w' info :
  g m w = (w', Ok tt) -> lookup_str m (w_modules w') = Some info ->
  subset_b xs (mod_names info) = true -> from_import g m xs w = (w', Ok tt).
Proof.
  intros Hg Hl Hs. unfold from_import. rewrite (io_bind_Ok _ _ _ _ _ Hg).
  cbn [io_bind get_interp]. now rewrite Hl, (subset_find _ _ Hs).
Qed.
(** [import d] of a dependency returns, loading it from the library. *)
Lemma dep_import n d xs (w : @Interp F) :
  rpartition_dot d = ("", d) -> In d dep_names -> dep_ok w d xs ->
  exists w', import_name parse_amc_text code_of argv (S n) d w = (w', Ok tt) /\ ext_ok w w' /\
             exists info, lookup_str d (w_modules w') = Some info /\ subset_b xs (mod_names info) = true.
Proof.
  intros Hr Hin (ns & P & S & [N|L]); cbn [import_name].
  - eexists. split; [|split; [exact (ext_ok_cons w d ns Hin N P)|]].
    + rewrite (find_and_load_top _ _ _ (LibSpec ns)); [reflexivity | | exact Hr | exact P].
      unfold is_loaded. now rewrite N.
    + exists (mkMod (LibSpec ns) ns). split; [apply lookup_str_cons_eq | exact S].
  - exists w. split; [apply find_and_load_loaded; unfold is_loaded; now rewrite L|].
    split; [apply ext_ok_refl | eauto].
Qed.

(** [from d import xs] of a dependency returns. *)
Lemma dep_from_import n d xs (w : @Interp F) :
  rpartition_dot d = ("", d) -> In d dep_names -> dep_ok w d xs ->
  exists w', from_import (import_name parse_amc_text code_of argv (S n)) d xs w = (w', Ok tt) /\
             ext_ok w w'.
Proof.
  intros Hr Hin Hd. destruct (dep_import n d xs w Hr Hin Hd) as (w' & E & X & info & L & S).
  exists w'. split; [exact (from_import_ok _ _ _ _ _ _ E L S) | exact X].
Qed.
Lemma import_name_S n name :
  import_name parse_amc_text code_of argv (S n) name =
  find_and_load parse_amc_text code_of argv (import_name parse_amc_text code_of argv n) name.
Proof. reflexivity. Qed.

Lemma find_and_load_sub (g : string -> @prog F unit) name parent tail w info locs spec :
  is_loaded name w = false -> rpartition_dot name = (parent, tail) -> String.eqb parent "" = false ->
  lookup_str parent (w_modules w) = Some info -> spec_locs (mod_spec info) = Some locs ->
  path_find (w_fs w) (map InDir locs) tail [] = Some spec ->
  find_and_load parse_amc_text code_of argv g name w =
  io_bind (load parse_amc_text code_of argv g name spec) (fun _ => set_attr parent tail) w.
Proof.
  intros Hn Hr Hp Li Hl P. unfold find_and_load. cbn [io_bind get_interp]. rewrite Hn, Hr.
  cbv beta iota. rewrite Hp. unfold is_loaded at 1. rewrite Li. cbn [io_ret io_bind get_interp].
  rewrite Hn, Li, Hl, P. reflexivity.
Qed.

Lemma load_src (g : string -> @prog F unit) name file locs w txt :
  read_text (w_fs w) file = Ok txt ->
  load parse_amc_text code_of argv g name (SrcSpec file locs) w =
  or_forget name (exec_code parse_amc_text argv g (code_of txt) name)
    (mkInterp (w_fs w) ((name, mkMod (SrcSpec file locs) (code_names (code_of txt))) :: w_modules w)
              (w_path w)).
Proof.
  intros R. unfold load, read_source, on_fs, io_read. cbn [io_bind get_interp set_modules w_fs].
  rewrite R. reflexivity.
Qed.

(** The body of amccrop.py: its four imports return, then the script
    runs exactly when the module is [__main__]. *)
Lemma amccrop_py_run n name (w : @Interp F) :
  deps_ok w ->
  exists w', ext_ok w w' /\
    amccrop_py parse_amc_text argv (import_name parse_amc_text code_of argv (S n)) name w =
    (if String.eqb name "__main__" then on_fs (Main.amccrop_main parse_amc_text argv) w'
     else (w', Ok tt)).
Proof.
  intros D. pose proof D as (D1 & _ & _ & _).
  destruct (dep_import n "argparse" [] w eq_refl ltac:(simpl; tauto) D1) as (w1 & E1 & X1 & _).
  pose proof (deps_ok_ext _ _ X1 D) as (_ & D2 & _ & _).
  destruct (dep_from_import n "typing" ["Tuple"] w1 eq_refl ltac:(simpl; tauto) D2) as (w2 & E2 & X2).
  pose proof (deps_ok_ext _ _ (ext_ok_trans _ _ _ X1 X2) D) as (_ & _ & D3 & _).
  destruct (dep_from_import n "asfamcparser" ["ParseAMC"] w2 eq_refl ltac:(simpl; tauto) D3)
    as (w3 & E3 & X3).
  pose proof (deps_ok_ext _ _ (ext_ok_trans _ _ _ (ext_ok_trans _ _ _ X1 X2) X3) D) as (_ & _ & _ & D4).
  destruct (dep_from_import n "pathlib" ["Path"] w3 eq_refl ltac:(simpl; tauto) D4) as (w4 & E4 & X4).
  exists w4. split; [eauto using ext_ok_trans|].
  unfold amccrop_py. rewrite (io_bind_Ok _ _ _ _ _ E1), (io_bind_Ok _ _ _ _ _ E2),
    (io_bind_Ok _ _ _ _ _ E3), (io_bind_Ok _ _ _ _ _ E4).
  now destruct (String.eqb name "__main__").
Qed.

(** [import amccrop.amccrop] from a package [amccrop] whose directory
    holds amccrop.py: the module body runs under its own name, so the
    script does not, and the module defines the names __main__.py takes. *)
Lemma import_amccrop_amccrop n (w : @Interp F) info locs fa ta :
  deps_ok w -> lookup_str "amccrop" (w_modules w) = Some info -> spec_locs (mod_spec info) = Some locs ->
  lookup_str "amccrop.amccrop" (w_modules w) = None ->
  path_find (w_fs w) (map InDir locs) "amccrop" [] = Some (SrcSpec fa None) ->
  read_text (w_fs w) fa = Ok ta -> code_of ta = AmccropPy ->
  exists w', w_fs w' = w_fs w /\
    from_import (import_name parse_amc_text code_of argv (S (S n))) "amccrop.amccrop"
      ["CheckArgs"; "parseToAmc"; "SaveAmc"] w = (w', Ok tt).
Proof.
  intros D Li Hl Ln P R C.
  set (w1 := mkInterp (w_fs w)
               (("amccrop.amccrop", mkMod (SrcSpec fa None) (code_names AmccropPy)) :: w_modules w)
               (w_path w)).
  destruct (amccrop_py_run n "amccrop.amccrop" w1) as (w2 & (Hf2 & Hp2 & Hl2) & E2).
  { apply deps_ok_cons; [simpl; intuition discriminate | exact D]. }
  assert (L2 : lookup_str "amccrop.amccrop" (w_modules w2) =
               Some (mkMod (SrcSpec fa None) (code_names AmccropPy))).
  { destruct (Hl2 "amccrop.amccrop") as [->|(Hin & _)]; [apply lookup_str_cons_eq|].
    simpl in Hin. intuition discriminate. }
  exists (fst (set_attr "amccrop" "amccrop" w2)). split.
  { unfold set_attr. cbn [io_bind get_interp set_modules fst w_fs]. now rewrite Hf2. }
  apply (from_import_ok _ _ _ _ _ (mkMod (SrcSpec fa None) (code_names AmccropPy)));
    [|unfold set_attr; cbn [io_bind get_interp set_modules fst w_modules];
      rewrite lookup_set_attr by discriminate; exact L2 | reflexivity].
  - rewrite import_name_S, (find_and_load_sub _ _ "amccrop" "amccrop" _ info locs (SrcSpec fa None));
      try assumption; [|unfold is_loaded; now rewrite Ln | reflexivity | reflexivity].
    rewrite (io_bind_Ok _ _ _ w2 tt); [unfold set_attr; reflexivity|].
    rewrite (load_src _ _ _ _ _ _ R), C. unfold or_forget, exec_code. fold w1. now rewrite E2.
Qed.
(** The body of __main__.py in a package [amccrop] that holds
    amccrop.py: the imports return and the script runs once. *)
Lemma main_py_run n (w : @Interp F) info locs fa ta :
  deps_ok w -> lookup_str "amccrop" (w_modules w) = Some info -> spec_locs (mod_spec info) = Some locs ->
  lookup_str "amccrop.amccrop" (w_modules w) = None ->
  path_find (w_fs w) (map InDir locs) "amccrop" [] = Some (SrcSpec fa None) ->
  read_text (w_fs w) fa = Ok ta -> code_of ta = AmccropPy ->
  exists w', w_fs w' = w_fs w /\
    main_py parse_amc_text argv (import_name parse_amc_text code_of argv (S (S n))) w =
    on_fs (Main.main parse_amc_text argv) w'.
Proof.
  intros D Li Hl Ln P R C. pose proof D as (D1 & _ & D3 & _).
  destruct (dep_import (S n) "argparse" [] w eq_refl ltac:(simpl; tauto) D1) as (w1 & E1 & X1 & _).
  destruct (dep_from_import (S n) "asfamcparser" ["ParseAMC"] w1 eq_refl ltac:(simpl; tauto)
              (dep_ok_ext _ _ _ _ X1 D3)) as (w2 & E2 & X2).
  pose proof (ext_ok_trans _ _ _ X1 X2) as X. pose proof X as (Hf & _).
  assert (Hn : forall k, ~ In k dep_names -> lookup_str k (w_modules w2) = lookup_str k (w_modules w))
    by (intros k; apply ext_ok_lookup, X).
  destruct (import_amccrop_amccrop n w2 info locs fa ta) as (w3 & Hf3 & E3);
    try rewrite Hn by (simpl; intuition discriminate); try rewrite Hf; try assumption.
  { exact (deps_ok_ext _ _ X D). }
  exists w3. split; [congruence|].
  unfold main_py. rewrite (io_bind_Ok _ _ _ _ _ E1), (io_bind_Ok _ _ _ _ _ E2), (io_bind_Ok _ _ _ _ _ E3).
  reflexivity.
Qed.
Lemma from_import_err (g : string -> @prog F unit) m xs w w' e :
  g m w = (w', Err e) -> from_import g m xs w = (w', Err e).
Proof. intros Hg. unfold from_import. now rewrite (io_bind_Err _ _ _ _ _ Hg). Qed.

(** [import parent.child] where [parent] turns out to be a module, not
    a package. *)
Lemma find_and_load_not_package (g : string -> @prog F unit) name parent tail w w' info :
  is_loaded name w = false -> rpartition_dot name = (parent, tail) -> String.eqb parent "" = false ->
  is_loaded parent w = false -> g parent w = (w', Ok tt) -> is_loaded name w' = false ->
  lookup_str parent (w_modules w') = Some info -> spec_locs (mod_spec info) = None ->
  find_and_load parse_amc_text code_of argv g name w =
  (w', Err (ModuleNotFoundError (no_module name ++ "; " ++ Cli.py_repr parent ++ " is not a package"))).
Proof.
  intros Hn Hr Hp Hpl Hg Hn' Li Hl. unfold find_and_load. cbn [io_bind get_interp]. rewrite Hn, Hr.
  cbv beta iota. rewrite Hp, Hpl. cbv iota. rewrite (io_bind_Ok _ _ _ _ _ Hg).
  cbn [io_bind get_interp]. rewrite Hn', Li, Hl. reflexivity.
Qed.

(** [import d] of a module found nowhere raises [ModuleNotFoundError]. *)
Lemma import_missing n d (w : @Interp F) :
  rpartition_dot d = ("", d) -> lookup_str d (w_modules w) = None ->
  path_find (w_fs w) (w_path w) d [] = None ->
  import_name parse_amc_text code_of argv (S n) d w = (w, Err (ModuleNotFoundError (no_module d))).
Proof.
  intros Hr L P. rewrite import_name_S. unfold find_and_load. cbn [io_bind get_interp].
  replace (is_loaded d w) with false by (unfold is_loaded; now rewrite L).
  rewrite Hr. cbv beta iota. rewrite String.eqb_refl, P. reflexivity.
Qed.

(** amccrop.py without asfamcparser: the third import raises, before
    anything else runs. *)
Lemma amccrop_py_missing n name (w : @Interp F) :
  dep_ok w "argparse" [] -> dep_ok w "typing" ["Tuple"] ->
  lookup_str "asfamcparser" (w_modules w) = None ->
  path_find (w_fs w) (w_path w) "asfamcparser" [] = None ->
  exists w', w_fs w' = w_fs w /\
    amccrop_py parse_amc_text argv (import_name parse_amc_text code_of argv (S n)) name w =
    (w', Err (ModuleNotFoundError (no_module "asfamcparser"))).
Proof.
  intros D1 D2 L P.
  destruct (dep_import n "argparse" [] w eq_refl ltac:(simpl; tauto) D1) as (w1 & E1 & X1 & _).
  destruct (dep_from_import n "typing" ["Tuple"] w1 eq_refl ltac:(simpl; tauto) (dep_ok_ext _ _ _ _ X1 D2))
    as (w2 & E2 & X2).
  pose proof (ext_ok_trans _ _ _ X1 X2) as X. destruct (ext_ok_none _ _ _ X L P) as [L2 P2].
  exists w2. split; [apply X|].
  unfold amccrop_py. rewrite (io_bind_Ok _ _ _ _ _ E1), (io_bind_Ok _ _ _ _ _ E2).
  rewrite (io_bind_Err _ _ _ w2 _
    (from_import_err _ _ ["ParseAMC"] _ _ _ (import_missing n "asfamcparser" w2 eq_refl L2 P2))).
  reflexivity.
Qed.

(** __main__.py without asfamcparser: the second import raises. *)
Lemma main_py_missing n (w : @Interp F) :
  dep_ok w "argparse" [] -> lookup_str "asfamcparser" (w_modules w) = None ->
  path_find (w_fs w) (w_path w) "asfamcparser" [] = None ->
  exists w', w_fs w' = w_fs w /\
    main_py parse_amc_text argv (import_name parse_amc_text code_of argv (S n)) w =
    (w', Err (ModuleNotFoundError (no_module "asfamcparser"))).
Proof.
  intros D1 L P.
  destruct (dep_import n "argparse" [] w eq_refl ltac:(simpl; tauto) D1) as (w1 & E1 & X1 & _).
  destruct (ext_ok_none _ _ _ X1 L P) as [L1 P1].
  exists w1. split; [apply X1|].
  unfold main_py. rewrite (io_bind_Ok _ _ _ _ _ E1).
  rewrite (io_bind_Err _ _ _ w1 _
    (from_import_err _ _ ["ParseAMC"] _ _ _ (import_missing n "asfamcparser" w1 eq_refl L1 P1))).
  reflexivity.
Qed.
(** setup.py imports setuptools and pathlib from the library, then runs
    as Packaging.v's [setup_script]; without setuptools it raises before
    reading anything. *)
Lemma setup_py_run n here (w : @Interp F) :
  dep_ok w "setuptools" ["setup"] -> dep_ok w "pathlib" [] ->
  exists w', w_fs w' = w_fs w /\
    setup_py (import_name parse_amc_text code_of argv (S n)) here w = on_fs (Packaging.setup_script here) w'.
Proof.
  intros Ds Dp.
  destruct (dep_import n "setuptools" ["setup"] w eq_refl ltac:(simpl; tauto) Ds) as (w1 & E1 & X1 & info & L1 & S1).
  destruct (dep_import n "pathlib" [] w1 eq_refl ltac:(simpl; tauto) (dep_ok_ext _ _ _ _ X1 Dp))
    as (w2 & E2 & X2 & _).
  exists w2. split; [rewrite (proj1 X2); apply X1|].
  unfold setup_py. rewrite (io_bind_Ok _ _ _ _ _ (from_import_ok _ _ _ _ _ _ E1 L1 S1)),
    (io_bind_Ok _ _ _ _ _ E2). reflexivity.
Qed.
End ImportLemmas.

(** ** Lemmas on runpy *)

Section RunpyLemmas.
Context {F : Type} `{FileSystem F} {V : Type} `{PyStr V}.
Context (parse_amc_text : string -> result (Amc (@Frame V))).
Context (code_of : string -> Code) (argv : list string).

(** [python -m amccrop] on an installed module amccrop.py: the module
    itself is what runs. *)
Lemma module_details_module (g : string -> @prog F unit) w fa :
  lookup_str "amccrop" (w_modules w) = None ->
  path_find (w_fs w) (w_path w) "amccrop" [] = Some (SrcSpec fa None) ->
  module_details g "amccrop" w = (w, Ok (SrcSpec fa None)).
Proof.
  intros L P. unfold module_details, details_spec, spec_of, io_bind, io_ret, get_interp.
  replace (rpartition_dot "amccrop") with ("", "amccrop") by reflexivity.
  simpl. rewrite L. simpl. rewrite P. reflexivity.
Qed.

(** [python -m amccrop] on the repository's namespace package: runpy
    imports the package and runs its [__main__]. *)
Lemma module_details_package (g : string -> @prog F unit) w0 w1 locs fm :
  lookup_str "amccrop" (w_modules w0) = None ->
  path_find (w_fs w0) (w_path w0) "amccrop" [] = Some (NsSpec locs) ->
  g "amccrop" w0 = (w1, Ok tt) -> g "amccrop" w1 = (w1, Ok tt) ->
  lookup_str "amccrop" (w_modules w1) = Some (mkMod (NsSpec locs) []) ->
  lookup_str "amccrop.__main__" (w_modules w1) = None ->
  path_find (w_fs w1) (map InDir locs) "__main__" [] = Some (SrcSpec fm None) ->
  module_details g "amccrop" w0 = (w1, Ok (SrcSpec fm None)).
Proof.
  intros L0 P0 G0 G1 L1 M1 P1. unfold module_details, module_details1, details_spec, spec_of, io_bind, io_ret, get_interp, throw.
  replace (rpartition_dot "amccrop") with ("", "amccrop") by reflexivity.
  replace (rpartition_dot ("amccrop" ++ ".__main__")) with ("amccrop", "__main__") by reflexivity.
  simpl. rewrite L0. simpl. rewrite P0. simpl. rewrite G0. simpl.
  change ("amccrop" ++ ".__main__") with "amccrop.__main__". rewrite M1. simpl.
  rewrite G1. simpl. rewrite L1. simpl. rewrite P1. reflexivity.
Qed.
Lemma holds_code_inv c fs file :
  holds_code code_of c fs file = true -> exists t, read_text fs file = Ok t /\ code_of t = c.
Proof.
  unfold holds_code. destruct (read_text fs file) as [t|]; [|discriminate].
  destruct (code_of t) eqn:E, c; try discriminate; eauto.
Qed.

Lemma dep_resolves_ok fs path d xs :
  dep_resolves fs path d xs = true -> dep_ok (mkInterp fs [] path) d xs.
Proof.
  unfold dep_resolves. destruct (path_find fs path d []) as [[| |ns]|] eqn:P; try discriminate.
  exists ns. auto.
Qed.

Lemma deps_resolve_ok fs path : deps_resolve fs path = true -> deps_ok (mkInterp fs [] path).
Proof.
  unfold deps_resolve. intros Hb. repeat apply andb_prop in Hb as [Hb ?].
  repeat split; apply dep_resolves_ok; assumption.
Qed.

Lemma run_spec_src (g : string -> @prog F unit) file w txt :
  read_text (w_fs w) file = Ok txt ->
  run_spec parse_amc_text code_of argv g (SrcSpec file None) w =
  exec_code parse_amc_text argv g (code_of txt) "__main__" (mkInterp (w_fs w) (w_modules w) (w_path w)).
Proof. intros R. unfold run_spec, read_source, on_fs, io_read, io_bind. cbn. now rewrite R. Qed.

Lemma on_fs_result {A} (c : io F A) (w : @Interp F) :
  (w_fs (fst (on_fs c w)), snd (on_fs c w)) = c (w_fs w).
Proof. unfold on_fs. now destruct (c (w_fs w)). Qed.

Lemma python_eq fuel lib t fs :
  python parse_amc_text code_of argv fuel lib t fs =
  (w_fs (fst (run_target parse_amc_text code_of argv fuel t (mkInterp fs [] (InDir (path0 fs t) :: lib)))),
   snd (run_target parse_amc_text code_of argv fuel t (mkInterp fs [] (InDir (path0 fs t) :: lib)))).
Proof. unfold python. now destruct (run_target _ _ _ _ _ _). Qed.

(** A run that ends in the script is the script on the starting store. *)
Lemma python_main_end fuel lib t fs w' :
  w_fs w' = fs ->
  run_target parse_amc_text code_of argv fuel t (mkInterp fs [] (InDir (path0 fs t) :: lib)) =
  on_fs (Main.main parse_amc_text argv) w' ->
  python parse_amc_text code_of argv fuel lib t fs = Main.main parse_amc_text argv fs.
Proof. intros Hf E. rewrite python_eq, E, on_fs_result, Hf. reflexivity. Qed.

(** What [python -m amccrop] runs on either layout: the body of an
    installed amccrop.py as [__main__], or the package's __main__.py
    once runpy has imported the package. *)
Lemma run_module_amccrop n lib fs :
  amccrop_layout code_of fs (InDir "" :: lib) = true ->
  (exists fa ta, read_text fs fa = Ok ta /\ code_of ta = AmccropPy /\
     run_target parse_amc_text code_of argv (S (S n)) (RunModule "amccrop") (mkInterp fs [] (InDir "" :: lib)) =
     amccrop_py parse_amc_text argv (import_name parse_amc_text code_of argv (S (S n))) "__main__"
       (mkInterp fs [] (InDir "" :: lib))) \/
  (exists locs fa ta, path_find fs (map InDir locs) "amccrop" [] = Some (SrcSpec fa None) /\
     read_text fs fa = Ok ta /\ code_of ta = AmccropPy /\
     run_target parse_amc_text code_of argv (S (S n)) (RunModule "amccrop") (mkInterp fs [] (InDir "" :: lib)) =
     main_py parse_amc_text argv (import_name parse_amc_text code_of argv (S (S n)))
       (mkInterp fs [("amccrop", mkMod (NsSpec locs) [])] (InDir "" :: lib))).
Proof.
  intros Hl. set (w0 := mkInterp fs [] (InDir "" :: lib)). unfold amccrop_layout in Hl.
  destruct (path_find fs (InDir "" :: lib) "amccrop" []) as [[fa [locs|]|locs|ns]|] eqn:P;
    try discriminate.
  - apply holds_code_inv in Hl as (ta & R & C). left. exists fa, ta. split; [exact R|split; [exact C|]].
    unfold run_target.
    rewrite (io_bind_Ok _ _ _ w0 (SrcSpec fa None)) by (apply module_details_module; [reflexivity | exact P]).
    rewrite (run_spec_src _ fa w0 ta R), C. reflexivity.
  - destruct (path_find fs (map InDir locs) "__main__" []) as [[fm [?|]| |]|] eqn:Pm; try discriminate.
    destruct (path_find fs (map InDir locs) "amccrop" []) as [[fa [?|]| |]|] eqn:Pa; try discriminate.
    apply andb_prop in Hl as [(tm & Rm & Cm)%holds_code_inv (ta & Ra & Ca)%holds_code_inv].
    right. exists locs, fa, ta. split; [exact Pa|split; [exact Ra|split; [exact Ca|]]].
    set (w1 := mkInterp fs [("amccrop", mkMod (NsSpec locs) [])] (InDir "" :: lib)).
    unfold run_target. rewrite (io_bind_Ok _ _ _ w1 (SrcSpec fm None)).
    + rewrite (run_spec_src _ fm w1 tm Rm), Cm. reflexivity.
    + apply module_details_package with locs; try assumption; try reflexivity.
      rewrite import_name_S, (find_and_load_top _ _ _ _ _ _ (NsSpec locs)); reflexivity || exact P.
Qed.

(** [python -m amccrop] on either layout runs the script once. *)
Lemma python_module_main n lib fs :
  deps_resolve fs (InDir "" :: lib) = true -> amccrop_layout code_of fs (InDir "" :: lib) = true ->
  python parse_amc_text code_of argv (S (S n)) lib (RunModule "amccrop") fs =
  Main.main parse_amc_text argv fs.
Proof.
  intros Hd Hl. pose proof (deps_resolve_ok _ _ Hd) as D.
  destruct (run_module_amccrop n lib fs Hl) as [(fa & ta & R & C & E0)|(locs & fa & ta & Pa & Ra & Ca & E0)].
  - destruct (amccrop_py_run parse_amc_text code_of argv (S n) "__main__" (mkInterp fs [] (InDir "" :: lib)))
      as (w' & (Hf & _) & E); [exact D|].
    apply (python_main_end _ _ _ _ w'); [exact Hf|]. change (path0 fs (RunModule "amccrop")) with "". rewrite E0. exact E.
  - set (w1 := mkInterp fs [("amccrop", mkMod (NsSpec locs) [])] (InDir "" :: lib)).
    assert (D1 : deps_ok w1).
    { change w1 with (mkInterp (w_fs (mkInterp fs [] (InDir "" :: lib)))
                        (("amccrop", mkMod (NsSpec locs) []) :: []) (InDir "" :: lib)).
      apply deps_ok_cons; [simpl; intuition discriminate | exact D]. }
    destruct (main_py_run parse_amc_text code_of argv n w1 (mkMod (NsSpec locs) []) locs fa ta)
      as (w' & Hf & E); try assumption; try reflexivity.
    apply (python_main_end _ _ _ _ w'); [exact Hf|]. change (path0 fs (RunModule "amccrop")) with "". rewrite E0. exact E.
Qed.

(** [python path/amccrop.py] runs the script once. *)
Lemma python_script_main n lib fs p :
  deps_resolve fs (InDir (dirname p) :: lib) = true -> holds_code code_of AmccropPy fs p = true ->
  python parse_amc_text code_of argv (S n) lib (Script p) fs = Main.main parse_amc_text argv fs.
Proof.
  intros Hd (ta & R & C)%holds_code_inv. pose proof (read_text_lookup _ _ _ R) as Hlk.
  destruct (amccrop_py_run parse_amc_text code_of argv n "__main__" (mkInterp fs [] (InDir (dirname p) :: lib)))
    as (w' & (Hf & _) & E); [exact (deps_resolve_ok _ _ Hd)|].
  apply (python_main_end _ _ _ _ w'); [exact Hf|].
  unfold path0. rewrite Hlk. unfold run_target, io_bind, get_interp. cbn [w_fs]. rewrite Hlk.
  rewrite (run_spec_src _ p (mkInterp fs [] (InDir (dirname p) :: lib)) ta R), C. exact E.
Qed.
(** [python -m amccrop] without asfamcparser raises on the import and
    leaves the store as it was. *)
Lemma python_module_missing n lib fs :
  dep_resolves fs (InDir "" :: lib) "argparse" [] = true ->
  dep_resolves fs (InDir "" :: lib) "typing" ["Tuple"] = true ->
  path_find fs (InDir "" :: lib) "asfamcparser" [] = None ->
  amccrop_layout code_of fs (InDir "" :: lib) = true ->
  python parse_amc_text code_of argv (S (S n)) lib (RunModule "amccrop") fs =
  (fs, Err (ModuleNotFoundError (no_module "asfamcparser"))).
Proof.
  intros D1 D2 P Hl. apply dep_resolves_ok in D1, D2. rewrite python_eq.
  change (path0 fs (RunModule "amccrop")) with "".
  destruct (run_module_amccrop n lib fs Hl) as [(fa & ta & _ & _ & ->)|(locs & fa & ta & _ & _ & _ & ->)].
  - destruct (amccrop_py_missing parse_amc_text code_of argv (S n) "__main__"
                (mkInterp fs [] (InDir "" :: lib)) D1 D2 eq_refl P) as (w' & Hf & ->).
    cbn [fst snd]. now rewrite Hf.
  - destruct (main_py_missing parse_amc_text code_of argv (S n)
                (mkInterp fs [("amccrop", mkMod (NsSpec locs) [])] (InDir "" :: lib)))
      as (w' & Hf & ->); [| reflexivity | exact P |].
    + exact (dep_ok_cons (mkInterp fs [] (InDir "" :: lib)) "amccrop" _ "argparse" [] ltac:(discriminate) D1).
    + cbn [fst snd]. now rewrite Hf.
Qed.
(** __main__.py run as a script: [sys.path[0]] is its own directory,
    where [amccrop] is the module amccrop.py (run under the name
    [amccrop], so its script stays idle), not a package. *)
Lemma python_main_script_fails n lib fs p fa :
  holds_code code_of MainPy fs p = true -> deps_resolve fs (InDir (dirname p) :: lib) = true ->
  path_find fs (InDir (dirname p) :: lib) "amccrop" [] = Some (SrcSpec fa None) ->
  holds_code code_of AmccropPy fs fa = true ->
  python parse_amc_text code_of argv (S (S (S n))) lib (Script p) fs =
  (fs, Err (ModuleNotFoundError (no_module "amccrop.amccrop" ++ "; " ++ Cli.py_repr "amccrop" ++
                                 " is not a package"))).
Proof.
  intros (tm & Rm & Cm)%holds_code_inv Hd P (ta & Ra & Ca)%holds_code_inv.
  pose proof (read_text_lookup _ _ _ Rm) as Hlk.
  set (w0 := mkInterp fs [] (InDir (dirname p) :: lib)).
  pose proof (deps_resolve_ok _ _ Hd) as D. pose proof D as (D1 & _ & D3 & _).
  destruct (dep_import parse_amc_text code_of argv (S (S n)) "argparse" [] w0 eq_refl
              ltac:(simpl; tauto) D1) as (w1 & E1 & X1 & _).
  destruct (dep_from_import parse_amc_text code_of argv (S (S n)) "asfamcparser" ["ParseAMC"] w1 eq_refl
              ltac:(simpl; tauto) (dep_ok_ext _ _ _ _ X1 D3)) as (w2 & E2 & X2).
  pose proof (ext_ok_trans _ _ _ X1 X2) as X. pose proof X as (Hf2 & Hp2 & _).
  assert (L2 : forall k, ~ In k dep_names -> lookup_str k (w_modules w2) = None).
  { intros k Hk. rewrite (ext_ok_lookup _ _ _ X Hk). reflexivity. }
  set (w3 := mkInterp (w_fs w2) (("amccrop", mkMod (SrcSpec fa None) (code_names AmccropPy))
                                 :: w_modules w2) (w_path w2)).
  destruct (amccrop_py_run parse_amc_text code_of argv n "amccrop" w3) as (w4 & X4 & E4).
  { apply deps_ok_cons; [simpl; intuition discriminate | exact (deps_ok_ext _ _ X D)]. }
  assert (Hnd : ~ In "amccrop.amccrop" dep_names) by (simpl; intuition discriminate).
  assert (Hpd : ~ In "amccrop" dep_names) by (simpl; intuition discriminate).
  assert (G : import_name parse_amc_text code_of argv (S (S n)) "amccrop" w2 = (w4, Ok tt)).
  { rewrite import_name_S, (find_and_load_top _ _ _ _ _ _ (SrcSpec fa None)).
    - rewrite (load_src _ _ _ _ _ _ _ _ ta) by (rewrite Hf2; exact Ra). rewrite Ca.
      unfold or_forget, exec_code. fold w3. now rewrite E4.
    - unfold is_loaded. now rewrite (L2 _ Hpd).
    - reflexivity.
    - rewrite Hf2, Hp2. exact P. }
  assert (E : run_target parse_amc_text code_of argv (S (S (S n))) (Script p) w0 =
             (w4, Err (ModuleNotFoundError (no_module "amccrop.amccrop" ++ "; " ++ Cli.py_repr "amccrop" ++
                                            " is not a package")))).
  { unfold run_target, io_bind at 1, get_interp. change (w_fs w0) with fs. rewrite Hlk.
    rewrite (run_spec_src _ p w0 tm Rm), Cm. cbn [exec_code].
    change (mkInterp (w_fs w0) (w_modules w0) (w_path w0)) with w0.
    unfold main_py. rewrite (io_bind_Ok _ _ _ _ _ E1), (io_bind_Ok _ _ _ _ _ E2).
    apply (io_bind_Err _ _ _ w4 _ (from_import_err _ _ _ _ _ _
    (find_and_load_not_package _ _ _ _ "amccrop.amccrop" "amccrop" "amccrop" w2 w4
       (mkMod (SrcSpec fa None) (code_names AmccropPy))
       ltac:(unfold is_loaded; now rewrite (L2 _ Hnd)) eq_refl eq_refl
       ltac:(unfold is_loaded; now rewrite (L2 _ Hpd)) G
       ltac:(unfold is_loaded; rewrite (ext_ok_lookup _ _ _ X4 Hnd); unfold w3; cbn [w_modules];
             rewrite lookup_str_cons_ne by discriminate; now rewrite (L2 _ Hnd))
       ltac:(rewrite (ext_ok_lookup _ _ _ X4 Hpd); unfold w3; apply lookup_str_cons_eq) eq_refl))). }
  rewrite python_eq. unfold path0. rewrite Hlk. fold w0. rewrite E. cbn [fst snd].
  destruct X4 as (Hf4 & _). rewrite Hf4. unfold w3. cbn [w_fs]. now rewrite Hf2.
Qed.
End RunpyLemmas.

(** ** Theorems *)

Section Claims.
Context {F : Type} `{FileSystem F} {V : Type} `{PyStr V}.
Context (parse_amc_text : string -> result (Amc (@Frame V))).
Context (code_of : string -> Code) (argv : list string).

(** C32: [python -m amccrop argv] runs the program exactly once, as
    [main argv], whichever copy the module system finds: the
    repository's namespace package, whose __main__.py imports
    [amccrop.amccrop] (whose [__name__] guard then keeps the duplicate
    script from running), or an installed module amccrop.py, run as
    [__main__]; given enough fuel for the two levels of nested imports
    and the dependencies in the library. *)
Theorem python_m_amccrop fuel lib fs :
  2 <= fuel -> deps_resolve fs (InDir "" :: lib) = true ->
  amccrop_layout code_of fs (InDir "" :: lib) = true ->
  python parse_amc_text code_of argv fuel lib (RunModule "amccrop") fs =
  Main.main parse_amc_text argv fs.
Proof.
  intros Hf. destruct fuel as [|[|n]]; [lia | lia |]. apply python_module_main.
Qed.

(** C28: the two entry points are equivalent: [python path/amccrop.py
    argv] (the [__main__] block of amccrop.py) and [python -m amccrop
    argv] leave the same store with the same outcome. *)
Theorem python_script_eq_module fuel lib fs p :
  2 <= fuel -> deps_resolve fs (InDir "" :: lib) = true ->
  amccrop_layout code_of fs (InDir "" :: lib) = true ->
  deps_resolve fs (InDir (dirname p) :: lib) = true -> holds_code code_of AmccropPy fs p = true ->
  python parse_amc_text code_of argv fuel lib (Script p) fs =
  python parse_amc_text code_of argv fuel lib (RunModule "amccrop") fs.
Proof.
  intros Hf Hd Hl Hd' Hp. destruct fuel as [|[|n]]; [lia | lia |].
  now rewrite python_module_main, python_script_main.
Qed.

(** C17: without the dependency asfamcparser, [python -m amccrop]
    raises [ModuleNotFoundError] on its import, before any argument is
    parsed or file read, and leaves the store unchanged, whatever the
    command line. *)
Theorem python_m_missing_dependency fuel lib fs :
  2 <= fuel ->
  dep_resolves fs (InDir "" :: lib) "argparse" [] = true ->
  dep_resolves fs (InDir "" :: lib) "typing" ["Tuple"] = true ->
  path_find fs (InDir "" :: lib) "asfamcparser" [] = None ->
  amccrop_layout code_of fs (InDir "" :: lib) = true ->
  python parse_amc_text code_of argv fuel lib (RunModule "amccrop") fs =
  (fs, Err (ModuleNotFoundError "No module named 'asfamcparser'")).
Proof.
  intros Hf. destruct fuel as [|[|n]]; [lia | lia |]. apply python_module_missing.
Qed.

(** C31: [python amccrop/__main__.py], the package's entry point run as
    a script, never runs the program: [sys.path[0]] is the script's own
    directory, where [amccrop] is the module amccrop.py (imported under
    that name, so its [__main__] block stays idle), not a package, and
    the import of [amccrop.amccrop] raises [ModuleNotFoundError] with
    the store unchanged, whatever the command line; given fuel for the
    nested imports. *)
Theorem python_main_py_script fuel lib fs p fa :
  3 <= fuel -> holds_code code_of MainPy fs p = true ->
  deps_resolve fs (InDir (dirname p) :: lib) = true ->
  path_find fs (InDir (dirname p) :: lib) "amccrop" [] = Some (SrcSpec fa None) ->
  holds_code code_of AmccropPy fs fa = true ->
  python parse_amc_text code_of argv fuel lib (Script p) fs =
  (fs, Err (ModuleNotFoundError "No module named 'amccrop.amccrop'; 'amccrop' is not a package")).
Proof.
  intros Hf. destruct fuel as [|[|[|n]]]; [lia.. |]. apply python_main_script_fails.
Qed.
End Claims.

(** ** Witnesses *)

Lemma python_m_amccrop_witness :
  2 <= 4 /\ deps_resolve src_tree (InDir "" :: sample_lib) = true /\
  amccrop_layout sample_code src_tree (InDir "" :: sample_lib) = true /\
  python (amc_of_text (V:=PyFloat)) sample_code small_argv 4 sample_lib (RunModule "amccrop") src_tree =
  Main.main amc_of_text small_argv src_tree.
Proof.
  assert (Hd : deps_resolve src_tree (InDir "" :: sample_lib) = true) by reflexivity.
  assert (Hl : amccrop_layout sample_code src_tree (InDir "" :: sample_lib) = true) by reflexivity.
  split; [lia|]. split; [exact Hd|]. split; [exact Hl|].
  apply python_m_amccrop; [lia | exact Hd | exact Hl].
Defined.

Lemma python_script_eq_module_witness :
  2 <= 4 /\ deps_resolve src_tree (InDir "" :: sample_lib) = true /\
  amccrop_layout sample_code src_tree (InDir "" :: sample_lib) = true /\
  deps_resolve src_tree (InDir (dirname "amccrop/amccrop.py") :: sample_lib) = true /\
  holds_code sample_code AmccropPy src_tree "amccrop/amccrop.py" = true /\
  python (amc_of_text (V:=PyFloat)) sample_code small_argv 4 sample_lib (Script "amccrop/amccrop.py") src_tree =
  python amc_of_text sample_code small_argv 4 sample_lib (RunModule "amccrop") src_tree.
Proof.
  assert (Hd : deps_resolve src_tree (InDir "" :: sample_lib) = true) by reflexivity.
  assert (Hl : amccrop_layout sample_code src_tree (InDir "" :: sample_lib) = true) by reflexivity.
  assert (Hd' : deps_resolve src_tree (InDir (dirname "amccrop/amccrop.py") :: sample_lib) = true)
    by reflexivity.
  assert (Hp : holds_code sample_code AmccropPy src_tree "amccrop/amccrop.py" = true) by reflexivity.
  split; [lia|]. split; [exact Hd|]. split; [exact Hl|]. split; [exact Hd'|]. split; [exact Hp|].
  apply python_script_eq_module; [lia | exact Hd | exact Hl | exact Hd' | exact Hp].
Defined.

Lemma python_m_missing_dependency_witness :
  python (amc_of_text (V:=PyFloat)) sample_code small_argv 4 [Lib stdlib] (RunModule "amccrop") src_tree =
  (src_tree, Err (ModuleNotFoundError "No module named 'asfamcparser'")).
Proof. apply python_m_missing_dependency; [lia | reflexivity..]. Defined.

Lemma python_main_py_script_witness :
  python (amc_of_text (V:=PyFloat)) sample_code small_argv 4 sample_lib (Script "amccrop/__main__.py") src_tree =
  (src_tree, Err (ModuleNotFoundError
                    "No module named 'amccrop.amccrop'; 'amccrop' is not a package")).
Proof. apply python_main_py_script with (fa := "amccrop/amccrop.py"); [lia | reflexivity..]. Defined.

End Runpy.
